(** * Actual Reader model-server bridges

    A shallow embedding of the two bridge processes of Actual Reader,
    [tts-engine/bridge.py] and [vision-engine/bridge.py].  Each bridge loads
    a model once, then reads one JSON document per line on stdin and writes
    one JSON document per line on stdout.

    Python values are restricted to what [json.loads] can produce.  A [str]
    is a Rocq [string] whose characters stand for code points below 256.
    The model capability, the JSON codec, the filesystem and the textual
    form of floats and containers are supplied by an environment [Env];
    everything the bridges themselves do is written out below.  Exceptions
    are instances of [Exception]; asynchronous signals such as
    [KeyboardInterrupt] are outside the model.  Standard input is the list
    of its lines; [print] and [tempfile.mkdtemp] are taken to succeed. *)

From Stdlib Require Import ZArith String Ascii List Bool Lia DecimalString DecimalPos.
From Stdlib Require Import Sorted.
From Stdlib Require Import Floats.SpecFloat.
Import ListNotations.

Open Scope string_scope.
Open Scope Z_scope.

(** ** Python values *)

#[warnings="-register-all"]
Inductive pyval : Type :=
| PNone
| PBool (b : bool)
| PInt (z : Z)
| PFloat (f : spec_float)
| PStr (s : string)
| PList (l : list pyval)
| PDict (d : list (string * pyval)).

Definition type_name (v : pyval) : string :=
  match v with
  | PNone => "NoneType"
  | PBool _ => "bool"
  | PInt _ => "int"
  | PFloat _ => "float"
  | PStr _ => "str"
  | PList _ => "list"
  | PDict _ => "dict"
  end.

(** [bool(v)]: the truth value Python's [if v] and [not v] test. *)
Definition truthy (v : pyval) : bool :=
  match v with
  | PNone => false
  | PBool b => b
  | PInt z => negb (z =? 0)
  | PFloat (S754_zero _) => false
  | PFloat _ => true
  | PStr s => negb (s =? EmptyString)%string
  | PList l => match l with [] => false | _ => true end
  | PDict d => match d with [] => false | _ => true end
  end.

(** [v == s] for a string literal [s]. *)
Definition py_eq_str (v : pyval) (s : string) : bool :=
  match v with
  | PStr t => (t =? s)%string
  | _ => false
  end.

(** Lookup in a dict, kept as the list of its items in insertion order. *)
Fixpoint assoc (k : string) (d : list (string * pyval)) : option pyval :=
  match d with
  | [] => None
  | (k', v) :: d' => if (k' =? k)%string then Some v else assoc k d'
  end.

(** ** Exceptions *)

(** A class stands for itself and its subclasses: only [isinstance] against
    [RuntimeError] and [json.JSONDecodeError] is ever tested by the bridges. *)
Inductive exn_class : Type :=
| RuntimeError
| JSONDecodeError
| AttributeError
| TypeError
| IndexError
| OtherError (name : string).

Record exn : Type := mk_exn { exn_cls : exn_class; exn_msg : string }.

Definition is_RuntimeError (e : exn) : bool :=
  match exn_cls e with RuntimeError => true | _ => false end.

Definition is_JSONDecodeError (e : exn) : bool :=
  match exn_cls e with JSONDecodeError => true | _ => false end.

Inductive result (A : Type) : Type :=
| Ok (a : A)
| Raise (e : exn).
Arguments Ok {A} a.
Arguments Raise {A} e.

(** ** Strings *)

Definition dquote : string := String (ascii_of_nat 34) EmptyString.

Definition decimal (z : Z) : string := NilZero.string_of_int (Z.to_int z).

(** [f"{z:04d}"]: sign-aware zero padding to width four. *)
Definition zeros (n : nat) : string := string_of_list_ascii (repeat "0"%char n).

Definition format_04d (z : Z) : string :=
  let digits := decimal (Z.abs z) in
  let sign := if z <? 0 then "-" else EmptyString in
  sign ++ zeros (4 - String.length sign - String.length digits) ++ digits.

(** [str.isspace] on one code point below 256. *)
Definition is_space (c : ascii) : bool :=
  let n := N_of_ascii c in
  ((9 <=? n) && (n <=? 13) || (28 <=? n) && (n <=? 32) || (n =? 133) || (n =? 160))%N.

Fixpoint lstrip (s : string) : string :=
  match s with
  | EmptyString => EmptyString
  | String c s' => if is_space c then lstrip s' else s
  end.

Fixpoint rstrip (s : string) : string :=
  match s with
  | EmptyString => EmptyString
  | String c s' =>
      match rstrip s' with
      | EmptyString => if is_space c then EmptyString else String c EmptyString
      | r => String c r
      end
  end.

(** [s.strip()] *)
Definition strip (s : string) : string := rstrip (lstrip s).

(** [str.lower] on one code point below 256. *)
Definition lower_char (c : ascii) : ascii :=
  let n := N_of_ascii c in
  if ((65 <=? n) && (n <=? 90) || (192 <=? n) && (n <=? 222) && negb (n =? 215))%N
  then ascii_of_N (n + 32) else c.

Fixpoint lower (s : string) : string :=
  match s with
  | EmptyString => EmptyString
  | String c s' => String (lower_char c) (lower s')
  end.

(** [needle in hay] *)
Fixpoint contains (needle hay : string) : bool :=
  String.prefix needle hay ||
  match hay with
  | EmptyString => false
  | String _ hay' => contains needle hay'
  end.

Definition ends_with_slash (s : string) : bool :=
  match get (String.length s - 1) s with
  | Some c => Ascii.eqb c "/"
  | None => false
  end.

(** [os.path.join(a, b)] on POSIX. *)
Definition path_join (a b : string) : string :=
  if String.prefix "/" b then b
  else if (a =? EmptyString)%string || ends_with_slash a then a ++ b
  else a ++ "/" ++ b.


(** ** The environment of a bridge process

    Everything the bridges call but do not define.  [world] is the state of
    the outside (filesystem, loaded model, random sampling); every call that
    can change it returns the next one. *)

Record Env : Type := {
  world : Type;
  wav : Type;
  (** [json.loads(line)] *)
  json_loads : string -> result pyval;
  (** [str(v)] of a float, a list or a dict *)
  repr_opaque : pyval -> string;
  (** [os.path.exists] of a [str], and of an [int] taken as a file descriptor *)
  path_exists : world -> string -> bool;
  fd_exists : world -> Z -> result bool;
  (** [tempfile.mkdtemp(prefix=...)] *)
  mkdtemp : world -> string -> string * world;
  (** [import torch] and the choice of the device *)
  detect_device : world -> result string * world;
  (** [ChatterboxTTS.from_pretrained(device=...)] and [model.sr] *)
  chatterbox_from_pretrained : world -> string -> result unit * world;
  (** [import torchaudio] and [model.generate(text, audio_prompt_path=...,
      exaggeration=..., cfg_weight=..., temperature=...)] *)
  model_generate :
    world -> pyval -> option pyval -> pyval -> pyval -> pyval -> result wav * world;
  (** [ta.save(output_path, wav, sample_rate)] *)
  ta_save : world -> string -> wav -> result unit * world;
  (** [round(wav.shape[1] / sample_rate, 3)] *)
  wav_duration : world -> wav -> result pyval;
  (** [Qwen2_5_VLForConditionalGeneration.from_pretrained] and [AutoProcessor] *)
  qwen_from_pretrained : world -> string -> result unit * world;
  (** from [Image.open(image_path)] to [processor.batch_decode(...)[0].strip()] *)
  describe_image : world -> pyval -> result string * world
}.

(** What a process does that can be seen from outside, in order. *)
Inductive event : Type :=
| Stderr (text : string)
| Stdout (obj : pyval)
| ReadLine (raw : string)
| Mkdtemp (dir : string)
| Rmtree (dir : string) (ignore_errors : bool)
| ModelCall (args : list pyval).
(* [ModelCall] marks the entry of a handler's [try] block, where the model
   is invoked with [args]. *)

(** How a process ends: [sys.exit(main())], or a traceback. *)
Inductive outcome : Type :=
| Exit (code : Z)
| Traceback (e : exn).

Definition exit_code (o : outcome) : Z :=
  match o with
  | Exit code => code
  | Traceback _ => 1
  end.

(** ** The monad of bridge code: globals, exceptions and the trace *)

Section Runtime.
Context {E : Env}.

(** The module globals the bridges assign after start-up. *)
Record store : Type := mk_store {
  st_world : world E;
  temp_dir : option string;
  request_counter : Z
}.

Definition M (A : Type) : Type := store -> result A * store * list event.

Definition ret {A} (a : A) : M A := fun s => (Ok a, s, []).

Definition raise {A} (e : exn) : M A := fun s => (Raise e, s, []).

Definition bind {A B} (m : M A) (k : A -> M B) : M B :=
  fun s =>
    match m s with
    | (Ok a, s1, t1) => let '(r, s2, t2) := k a s1 in (r, s2, (t1 ++ t2)%list)
    | (Raise e, s1, t1) => (Raise e, s1, t1)
    end.

(** [try: body  except Exception as e: handler e] *)
Definition try_except {A} (body : M A) (handler : exn -> M A) : M A :=
  fun s =>
    match body s with
    | (Ok a, s1, t1) => (Ok a, s1, t1)
    | (Raise e, s1, t1) => let '(r, s2, t2) := handler e s1 in (r, s2, (t1 ++ t2)%list)
    end.

Definition emit (ev : event) : M unit := fun s => (Ok tt, s, [ev]).

Definition call {A} (f : world E -> result A * world E) : M A :=
  fun s =>
    let '(r, w) := f (st_world s) in
    (r, mk_store w (temp_dir s) (request_counter s), []).

Definition read_world {A} (f : world E -> A) : M A :=
  fun s => (Ok (f (st_world s)), s, []).

Definition get_store : M store := fun s => (Ok s, s, []).

Definition set_temp_dir (d : string) : M unit :=
  fun s => (Ok tt, mk_store (st_world s) (Some d) (request_counter s), []).

Definition set_request_counter (c : Z) : M unit :=
  fun s => (Ok tt, mk_store (st_world s) (temp_dir s) c, []).
End Runtime.

Arguments store : clear implicits.
Arguments M : clear implicits.

Declare Scope py_scope.
Delimit Scope py_scope with py.
Notation "x <- m ;; k" := (bind m (fun x => k))
  (at level 61, m at next level, right associativity) : py_scope.
Notation "m ;; k" := (bind m (fun _ => k))
  (at level 61, right associativity) : py_scope.
Open Scope py_scope.

(** ** Built-ins used by both bridges *)

Section Builtins.
Context {E : Env}.

(** [obj.get(key, default)]: only a dict has the method. *)
Definition py_get (obj : pyval) (key : string) (default : pyval) : M E pyval :=
  match obj with
  | PDict d => ret (match assoc key d with Some v => v | None => default end)
  | _ => raise (mk_exn AttributeError
                  ("'" ++ type_name obj ++ "' object has no attribute 'get'"))
  end.

(** [len(v)] *)
Definition py_len (v : pyval) : M E Z :=
  match v with
  | PStr s => ret (Z.of_nat (String.length s))
  | PList l => ret (Z.of_nat (List.length l))
  | PDict d => ret (Z.of_nat (List.length d))
  | _ => raise (mk_exn TypeError
                  ("object of type '" ++ type_name v ++ "' has no len()"))
  end.

(** [str(v)], as an f-string renders a value. *)
Definition py_str (v : pyval) : string :=
  match v with
  | PNone => "None"
  | PBool true => "True"
  | PBool false => "False"
  | PInt z => decimal z
  | PStr s => s
  | _ => repr_opaque E v
  end.

(** [os.path.exists(v)] *)
Definition os_path_exists (v : pyval) : M E bool :=
  match v with
  | PStr s => read_world (fun w => path_exists E w s)
  | PInt z => call (fun w => (fd_exists E w z, w))
  | PBool b => call (fun w => (fd_exists E w (if b then 1 else 0), w))
  | _ => raise (mk_exn TypeError
                  ("stat: path should be string, bytes, os.PathLike or integer, not "
                   ++ type_name v))
  end.

(** [send(obj)]: one line on stdout. *)
Definition send (obj : pyval) : M E unit := emit (Stdout obj).
End Builtins.

Arguments py_str : clear implicits.

(** [for line in sys.stdin]: what one iteration tells the loop. *)
Inductive control : Type :=
| Continue
| Break.

Definition ready : pyval := PDict [("type", PStr "ready")].

(** The floats [0.5] and [0.8]. *)
Definition float_0_5 : spec_float := S754_finite false 4503599627370496 (-53).
Definition float_0_8 : spec_float := S754_finite false 7205759403792794 (-53).

(** ** tts-engine/bridge.py *)

Module TTS.
Section Bridge.
Context {E : Env}.

Definition log (msg : string) : M E unit := emit (Stderr ("[tts-bridge] " ++ msg)).

Definition load_model : M E unit :=
  log "Loading Chatterbox model..." ;;
  device <- call (detect_device E) ;;
  log ("Using device: " ++ device) ;;
  call (fun w => chatterbox_from_pretrained E w device) ;;
  log "Model loaded.".

(** The [try] block of [generate]. *)
Definition synthesize (req_id text voice_sample : pyval)
    (exaggeration cfg_weight temperature : pyval) : M E pyval :=
  emit (ModelCall [text; voice_sample; exaggeration; cfg_weight; temperature]) ;;
  wav <- call (fun w =>
           model_generate E w text
             (if truthy voice_sample then Some voice_sample else None)
             exaggeration cfg_weight temperature) ;;
  s <- get_store ;;
  set_request_counter (request_counter s + 1) ;;
  output_path <-
    match temp_dir s with
    | Some d => ret (path_join d ("tts_" ++ format_04d (request_counter s + 1) ++ ".wav"))
    | None => raise (mk_exn TypeError
                       "expected str, bytes or os.PathLike object, not NoneType")
    end ;;
  call (fun w => ta_save E w output_path wav) ;;
  duration <- call (fun w => (wav_duration E w wav, w)) ;;
  ret (PDict [("type", PStr "audio"); ("id", req_id);
              ("path", PStr output_path); ("duration", duration)]).

(** The [except RuntimeError] and [except Exception] clauses of [generate]. *)
Definition classify (req_id : pyval) (e : exn) : M E pyval :=
  if is_RuntimeError e then
    if contains "out of memory" (lower (exn_msg e)) then
      ret (PDict [("type", PStr "error"); ("id", req_id);
                  ("code", PStr "OUT_OF_MEMORY"); ("message", PStr (exn_msg e))])
    else
      ret (PDict [("type", PStr "error"); ("id", req_id);
                  ("code", PStr "ENGINE_ERROR"); ("message", PStr (exn_msg e))])
  else
    ret (PDict [("type", PStr "error"); ("id", req_id);
                ("code", PStr "ENGINE_ERROR"); ("message", PStr (exn_msg e))]).

Definition generate (request : pyval) : M E pyval :=
  s <- get_store ;;
  req_id <- py_get request "id" (PStr ("req_" ++ decimal (request_counter s))) ;;
  text <- py_get request "text" (PStr EmptyString) ;;
  voice_sample <- py_get request "voice_sample" PNone ;;
  options <- py_get request "options" (PDict []) ;;
  if negb (truthy text) then
    ret (PDict [("type", PStr "error"); ("id", req_id);
                ("code", PStr "INVALID_TEXT"); ("message", PStr "Text is empty")])
  else
    n <- py_len text ;;
    if 10000 <? n then
      ret (PDict [("type", PStr "error"); ("id", req_id);
                  ("code", PStr "INVALID_TEXT");
                  ("message", PStr "Text too long (max 10000 chars)")])
    else
      missing <- (if truthy voice_sample
                  then found <- os_path_exists voice_sample ;; ret (negb found)
                  else ret false) ;;
      if missing : bool then
        ret (PDict [("type", PStr "error"); ("id", req_id);
                    ("code", PStr "VOICE_NOT_FOUND");
                    ("message", PStr ("Voice sample not found: " ++ py_str E voice_sample))])
      else
        exaggeration <- py_get options "exaggeration" (PFloat float_0_5) ;;
        cfg_weight <- py_get options "cfg_weight" (PFloat float_0_5) ;;
        temperature <- py_get options "temperature" (PFloat float_0_8) ;;
        try_except
          (synthesize req_id text voice_sample exaggeration cfg_weight temperature)
          (classify req_id).

(** The body of the loop of [main] on one line of stdin. *)
Definition handle_line (raw : string) : M E control :=
  let line := strip raw in
  if (line =? EmptyString)%string then ret Continue
  else
    match json_loads E line with
    | Raise e =>
        if is_JSONDecodeError e then
          send (PDict [("type", PStr "error"); ("code", PStr "INVALID_REQUEST");
                       ("message", PStr ("Invalid JSON: " ++ exn_msg e))]) ;;
          ret Continue
        else raise e
    | Ok request =>
        req_type <- py_get request "type" PNone ;;
        if py_eq_str req_type "shutdown" then
          log "Shutdown requested." ;; ret Break
        else if py_eq_str req_type "generate" then
          response <- generate request ;;
          send response ;;
          ret Continue
        else
          send (PDict [("type", PStr "error"); ("code", PStr "INVALID_REQUEST");
                       ("message", PStr ("Unknown request type: " ++ py_str E req_type))]) ;;
          ret Continue
    end.

(** [for line in sys.stdin: ...] *)
Fixpoint serve (stdin : list string) : M E unit :=
  match stdin with
  | [] => ret tt
  | raw :: rest =>
      emit (ReadLine raw) ;;
      c <- handle_line raw ;;
      match c with
      | Break => ret tt
      | Continue => serve rest
      end
  end.

Definition main (stdin : list string) : M E Z :=
  dir <- call (fun w => let '(d, w') := mkdtemp E w "actual_reader_tts_" in (Ok d, w')) ;;
  emit (Mkdtemp dir) ;;
  set_temp_dir dir ;;
  log ("Temp directory: " ++ dir) ;;
  loaded <- try_except (load_model ;; ret true)
              (fun e =>
                 send (PDict [("type", PStr "error"); ("id", PStr "init");
                              ("code", PStr "ENGINE_ERROR");
                              ("message", PStr ("Failed to load model: " ++ exn_msg e))]) ;;
                 ret false) ;;
  if loaded : bool then
    send ready ;;
    log "Listening for requests..." ;;
    serve stdin ;;
    log "Cleaning up..." ;;
    s <- get_store ;;
    match temp_dir s with
    | Some d => emit (Rmtree d true)
    | None => ret tt
    end ;;
    ret 0
  else ret 1.
End Bridge.
End TTS.

(** ** vision-engine/bridge.py *)

(** The floats [10.0] and [1.0], as [int] operands are converted. *)
Definition float_10 : spec_float := S754_finite false 5629499534213120 (-49).
Definition float_1 : spec_float := S754_finite false 4503599627370496 (-52).

Definition position_map : list (string * string) :=
  [("top", "near the top of the page");
   ("middle", "in the middle of the page");
   ("bottom", "near the bottom of the page");
   ("full-page", "taking the full page");
   ("inline", "inline with the text")].

Definition ordinals : list string :=
  ["First"; "Second"; "Third"; "Fourth"; "Fifth";
   "Sixth"; "Seventh"; "Eighth"; "Ninth"; "Tenth"].

Fixpoint lookup (k : string) (d : list (string * string)) : option string :=
  match d with
  | [] => None
  | (k', v) :: d' => if (k' =? k)%string then Some v else lookup k d'
  end.

Module Vision.
Section Bridge.
Context {E : Env}.

Definition log (msg : string) : M E unit := emit (Stderr ("[vision-bridge] " ++ msg)).

Definition load_model : M E unit :=
  log "Loading Qwen2.5-VL-7B model..." ;;
  device <- call (detect_device E) ;;
  log ("Using device: " ++ device) ;;
  call (fun w => qwen_from_pretrained E w device) ;;
  log "Model loaded.".

(** [position_map.get(position, "on the page")]: the key must be hashable. *)
Definition describe_position (position : pyval) : M E string :=
  match position with
  | PStr s => ret (match lookup s position_map with
                   | Some d => d
                   | None => "on the page"
                   end)
  | PList _ | PDict _ =>
      raise (mk_exn TypeError ("unhashable type: '" ++ type_name position ++ "'"))
  | _ => ret "on the page"
  end.

(** [image_index < len(ordinals)] *)
Definition below_ordinals (image_index : pyval) : M E bool :=
  match image_index with
  | PInt z => ret (z <? Z.of_nat (List.length ordinals))
  | PBool b => ret ((if b then 1 else 0) <? Z.of_nat (List.length ordinals))
  | PFloat f => ret (SFltb f float_10)
  | _ => raise (mk_exn TypeError
                  ("'<' not supported between instances of '"
                   ++ type_name image_index ++ "' and 'int'"))
  end.

(** [ordinals[i]] for an integer [i]: a negative index counts from the end. *)
Definition ordinals_at (i : Z) : M E string :=
  let n := Z.of_nat (List.length ordinals) in
  let j := if i <? 0 then i + n else i in
  if (0 <=? j) && (j <? n) then ret (nth (Z.to_nat j) ordinals EmptyString)
  else raise (mk_exn IndexError "list index out of range").

(** [ordinals[image_index]] *)
Definition ordinals_item (image_index : pyval) : M E string :=
  match image_index with
  | PInt z => ordinals_at z
  | PBool b => ordinals_at (if b then 1 else 0)
  | _ => raise (mk_exn TypeError
                  ("list indices must be integers or slices, not "
                   ++ type_name image_index))
  end.

(** [image_index + 1] *)
Definition plus_one (image_index : pyval) : M E pyval :=
  match image_index with
  | PInt z => ret (PInt (z + 1))
  | PBool b => ret (PInt ((if b then 1 else 0) + 1))
  | PFloat f => ret (PFloat (SFadd 53 1024 f float_1))
  | PStr _ => raise (mk_exn TypeError ("can only concatenate str (not " ++ dquote ++ "int" ++ dquote ++ ") to str"))
  | PList _ => raise (mk_exn TypeError ("can only concatenate list (not " ++ dquote ++ "int" ++ dquote ++ ") to list"))
  | _ => raise (mk_exn TypeError
                  ("unsupported operand type(s) for +: '"
                   ++ type_name image_index ++ "' and 'int'"))
  end.

Definition format_position (position image_index page_number : pyval) : M E string :=
  pos_desc <- describe_position position ;;
  small <- below_ordinals image_index ;;
  ordinal <- (if small : bool then ordinals_item image_index
              else next <- plus_one image_index ;; ret ("Image " ++ py_str E next)) ;;
  if truthy page_number then
    ret (ordinal ++ " image on page " ++ py_str E page_number ++ ", " ++ pos_desc)
  else
    ret (ordinal ++ " image, " ++ pos_desc).

(** The [try] block of [caption]. *)
Definition describe (req_id image_path position image_index page_number : pyval)
    : M E pyval :=
  emit (ModelCall [image_path]) ;;
  description <- call (fun w => describe_image E w image_path) ;;
  position_prefix <- format_position position image_index page_number ;;
  s <- get_store ;;
  set_request_counter (request_counter s + 1) ;;
  ret (PDict [("type", PStr "caption"); ("id", req_id);
              ("caption", PStr (position_prefix ++ ": " ++ description))]).

(** The [except RuntimeError] and [except Exception] clauses of [caption]. *)
Definition classify (req_id : pyval) (e : exn) : M E pyval :=
  if is_RuntimeError e then
    if contains "out of memory" (lower (exn_msg e)) then
      ret (PDict [("type", PStr "error"); ("id", req_id);
                  ("code", PStr "OUT_OF_MEMORY"); ("message", PStr (exn_msg e))])
    else
      ret (PDict [("type", PStr "error"); ("id", req_id);
                  ("code", PStr "ENGINE_ERROR"); ("message", PStr (exn_msg e))])
  else
    ret (PDict [("type", PStr "error"); ("id", req_id);
                ("code", PStr "ENGINE_ERROR"); ("message", PStr (exn_msg e))]).

Definition caption (request : pyval) : M E pyval :=
  s <- get_store ;;
  req_id <- py_get request "id" (PStr ("req_" ++ decimal (request_counter s))) ;;
  image_path <- py_get request "image_path" PNone ;;
  context <- py_get request "context" (PDict []) ;;
  page_number <- py_get context "page_number" PNone ;;
  position <- py_get context "position" (PStr "middle") ;;
  image_index <- py_get context "image_index" (PInt 0) ;;
  if negb (truthy image_path) then
    ret (PDict [("type", PStr "error"); ("id", req_id);
                ("code", PStr "INVALID_REQUEST");
                ("message", PStr "image_path is required")])
  else
    found <- os_path_exists image_path ;;
    if negb found then
      ret (PDict [("type", PStr "error"); ("id", req_id);
                  ("code", PStr "IMAGE_NOT_FOUND");
                  ("message", PStr ("Image not found: " ++ py_str E image_path))])
    else
      try_except
        (describe req_id image_path position image_index page_number)
        (classify req_id).

(** The body of the loop of [main] on one line of stdin. *)
Definition handle_line (raw : string) : M E control :=
  let line := strip raw in
  if (line =? EmptyString)%string then ret Continue
  else
    match json_loads E line with
    | Raise e =>
        if is_JSONDecodeError e then
          send (PDict [("type", PStr "error"); ("code", PStr "INVALID_REQUEST");
                       ("message", PStr ("Invalid JSON: " ++ exn_msg e))]) ;;
          ret Continue
        else raise e
    | Ok request =>
        req_type <- py_get request "type" PNone ;;
        if py_eq_str req_type "shutdown" then
          log "Shutdown requested." ;; ret Break
        else if py_eq_str req_type "caption" then
          response <- caption request ;;
          send response ;;
          ret Continue
        else
          send (PDict [("type", PStr "error"); ("code", PStr "INVALID_REQUEST");
                       ("message", PStr ("Unknown request type: " ++ py_str E req_type))]) ;;
          ret Continue
    end.

(** [for line in sys.stdin: ...] *)
Fixpoint serve (stdin : list string) : M E unit :=
  match stdin with
  | [] => ret tt
  | raw :: rest =>
      emit (ReadLine raw) ;;
      c <- handle_line raw ;;
      match c with
      | Break => ret tt
      | Continue => serve rest
      end
  end.

Definition main (stdin : list string) : M E Z :=
  loaded <- try_except (load_model ;; ret true)
              (fun e =>
                 send (PDict [("type", PStr "error"); ("id", PStr "init");
                              ("code", PStr "ENGINE_ERROR");
                              ("message", PStr ("Failed to load model: " ++ exn_msg e))]) ;;
                 ret false) ;;
  if loaded : bool then
    send ready ;;
    log "Listening for requests..." ;;
    serve stdin ;;
    log "Shutting down..." ;;
    ret 0
  else ret 1.
End Bridge.
End Vision.

(** ** Running a process *)

Section Process.
Context {E : Env}.

Definition initial (w : world E) : store E := mk_store w None 0.

(** [sys.exit(main())] from a fresh interpreter. *)
Definition run (main : list string -> M E Z) (w : world E) (stdin : list string)
    : list event * outcome :=
  let '(r, _, t) := main stdin (initial w) in
  (t, match r with Ok code => Exit code | Raise e => Traceback e end).
End Process.

(** The two bridges side by side. *)
Inductive bridge : Type :=
| Tts
| Vision_.

Section Bridges.
Context {E : Env}.

Definition main_of (b : bridge) : list string -> M E Z :=
  match b with
  | Tts => TTS.main
  | Vision_ => Vision.main
  end.

Definition serve_of (b : bridge) : list string -> M E unit :=
  match b with
  | Tts => TTS.serve
  | Vision_ => Vision.serve
  end.

(** The globals when [load_model] is called: the TTS bridge has made its
    temporary directory by then. *)
Definition before_load (b : bridge) (w : world E) : store E :=
  match b with
  | Tts => let '(d, w1) := mkdtemp E w "actual_reader_tts_" in mk_store w1 (Some d) 0
  | Vision_ => initial w
  end.

(** The call of [load_model] in [main]. *)
Definition loading (b : bridge) (w : world E) : result unit * store E * list event :=
  match b with
  | Tts => TTS.load_model (before_load Tts w)
  | Vision_ => Vision.load_model (before_load Vision_ w)
  end.
End Bridges.

(** The lines written on stdout, the lines taken from stdin, and the uses of
    the temporary directory, in a trace. *)
Fixpoint responses (t : list event) : list pyval :=
  match t with
  | [] => []
  | Stdout obj :: t' => obj :: responses t'
  | _ :: t' => responses t'
  end.

Fixpoint lines_read (t : list event) : list string :=
  match t with
  | [] => []
  | ReadLine raw :: t' => raw :: lines_read t'
  | _ :: t' => lines_read t'
  end.

Definition is_acquire (ev : event) : bool :=
  match ev with Mkdtemp _ => true | _ => false end.

Definition is_release (ev : event) : bool :=
  match ev with Rmtree _ _ => true | _ => false end.

Definition count (p : event -> bool) (t : list event) : nat :=
  List.length (filter p t).

(** ** Vocabulary of the properties *)

Section Vocabulary.
Context {E : Env}.

(** [satisfies m P Q]: every event [m] emits is in [P], a value it
    returns is in [Q], and the global [temp_dir] is left as it was. *)
Definition satisfies {A} (m : M E A) (P : event -> Prop) (Q : A -> Prop) : Prop :=
  forall s,
    Forall P (snd (m s)) /\
    (forall a, fst (fst (m s)) = Ok a -> Q a) /\
    temp_dir (snd (fst (m s))) = temp_dir s.

End Vocabulary.

(** What handling one line may do: log, call the model, and answer with
    something other than the ready signal. *)
Definition handling_event (ev : event) : Prop :=
  match ev with
  | Stderr _ | ModelCall _ => True
  | Stdout obj => obj <> ready
  | ReadLine _ | Mkdtemp _ | Rmtree _ _ => False
  end.

(** What the loop may do once the bridge is serving: read a line, and handle it. *)
Definition serving_event (ev : event) : Prop :=
  match ev with
  | ReadLine _ => True
  | _ => handling_event ev
  end.

(** A trace without what it says about stdin and stderr: the responses, the
    calls of the model and the uses of the temporary directory. *)
Definition is_effect (ev : event) : bool :=
  match ev with
  | ReadLine _ | Stderr _ => false
  | _ => true
  end.

Definition effects (t : list event) : list event := filter is_effect t.

(** Loading the model only logs. *)
Definition is_log (ev : event) : Prop :=
  match ev with
  | Stderr _ => True
  | _ => False
  end.

(** [d.get(k, default)] on the items of a dict. *)
Definition field (d : list (string * pyval)) (k : string) (default : pyval) : pyval :=
  match assoc k d with
  | Some v => v
  | None => default
  end.

(** An optional string field: JSON [null] or a missing key, or a string. *)
Definition opt_str (o : option string) : pyval :=
  match o with
  | Some p => PStr p
  | None => PNone
  end.

Definition error_response (req_id : pyval) (code message : string) : pyval :=
  PDict [("type", PStr "error"); ("id", req_id);
         ("code", PStr code); ("message", PStr message)].

(** The identifier a handler answers with. *)
Definition req_id_of {E : Env} (s : store E) (d : list (string * pyval)) : pyval :=
  field d "id" (PStr ("req_" ++ decimal (request_counter s))).

(** What validation decides: an error response, or the model is invoked. *)
Inductive verdict : Type :=
| Reject (code message : string)
| Invoke.

(** The validation rules of a generate request as the specification words
    them: a voice-sample path that is supplied must exist. *)
Definition stated_generate_verdict (file_exists : string -> bool)
    (text : string) (voice_sample : option string) : verdict :=
  if (text =? EmptyString)%string then Reject "INVALID_TEXT" "Text is empty"
  else if 10000 <? Z.of_nat (String.length text) then
    Reject "INVALID_TEXT" "Text too long (max 10000 chars)"
  else
    match voice_sample with
    | Some p =>
        if file_exists p then Invoke
        else Reject "VOICE_NOT_FOUND" ("Voice sample not found: " ++ p)
    | None => Invoke
    end.

(** The same rules with an empty voice-sample string counted as no path. *)
Definition generate_verdict (file_exists : string -> bool)
    (text : string) (voice_sample : option string) : verdict :=
  if (text =? EmptyString)%string then Reject "INVALID_TEXT" "Text is empty"
  else if 10000 <? Z.of_nat (String.length text) then
    Reject "INVALID_TEXT" "Text too long (max 10000 chars)"
  else
    match voice_sample with
    | Some p =>
        if (p =? EmptyString)%string || file_exists p then Invoke
        else Reject "VOICE_NOT_FOUND" ("Voice sample not found: " ++ p)
    | None => Invoke
    end.

(** The validation rules of a caption request as the specification words
    them: a missing path is refused, a supplied path must exist. *)
Definition stated_caption_verdict (file_exists : string -> bool)
    (image_path : option string) : verdict :=
  match image_path with
  | None => Reject "INVALID_REQUEST" "image_path is required"
  | Some p =>
      if file_exists p then Invoke
      else Reject "IMAGE_NOT_FOUND" ("Image not found: " ++ p)
  end.

(** The same rules with an empty path string counted as missing. *)
Definition caption_verdict (file_exists : string -> bool)
    (image_path : option string) : verdict :=
  match image_path with
  | None => Reject "INVALID_REQUEST" "image_path is required"
  | Some p =>
      if (p =? EmptyString)%string then Reject "INVALID_REQUEST" "image_path is required"
      else if file_exists p then Invoke
      else Reject "IMAGE_NOT_FOUND" ("Image not found: " ++ p)
  end.

(** The error code of a model failure as the specification words it: by the
    message alone. *)
Definition stated_failure_code (e : exn) : string :=
  if contains "out of memory" (lower (exn_msg e)) then "OUT_OF_MEMORY"
  else "ENGINE_ERROR".

(** The error code with the class of the failure taken into account. *)
Definition failure_code (e : exn) : string :=
  if is_RuntimeError e && contains "out of memory" (lower (exn_msg e))
  then "OUT_OF_MEMORY" else "ENGINE_ERROR".

(** The prefix of a caption as the specification words it, for a position
    string, an index from zero and an optional page number. *)
Definition spec_ordinal (image_index : Z) : string :=
  if image_index <=? 9 then
    nth (Z.to_nat image_index)
      ["First"; "Second"; "Third"; "Fourth"; "Fifth";
       "Sixth"; "Seventh"; "Eighth"; "Ninth"; "Tenth"] EmptyString
  else "Image " ++ decimal (image_index + 1).

Definition spec_place (position : string) : string :=
  if (position =? "top")%string then "near the top of the page"
  else if (position =? "middle")%string then "in the middle of the page"
  else if (position =? "bottom")%string then "near the bottom of the page"
  else if (position =? "full-page")%string then "taking the full page"
  else if (position =? "inline")%string then "inline with the text"
  else "on the page".

Definition spec_prefix (position : string) (image_index : Z)
    (page_number : option Z) : string :=
  match page_number with
  | None | Some 0 => spec_ordinal image_index ++ " image, " ++ spec_place position
  | Some n =>
      spec_ordinal image_index ++ " image on page " ++ decimal n
      ++ ", " ++ spec_place position
  end.

Definition opt_int (o : option Z) : pyval :=
  match o with
  | Some n => PInt n
  | None => PNone
  end.

(** A response that carries the identifier [v]. *)
Definition has_id (v : pyval) (response : pyval) : Prop :=
  exists items, response = PDict items /\ assoc "id" items = Some v.

(** A line of stdin whose decoded type is shutdown. *)
Definition is_shutdown_line {E : Env} (raw : string) : Prop :=
  strip raw <> EmptyString /\
  exists d, json_loads E (strip raw) = Ok (PDict d)
            /\ field d "type" PNone = PStr "shutdown".

Definition shutdown_log (b : bridge) : event :=
  match b with
  | Tts => Stderr "[tts-bridge] Shutdown requested."
  | Vision_ => Stderr "[vision-bridge] Shutdown requested."
  end.

(** ** A concrete installation, for running the bridges on examples

    The world is [true] when the model can be loaded.  [json_loads] is
    [json.loads] on the lines listed in [documents]; any other text is
    rejected as malformed. *)

Module Example.
Definition q (s : string) : string := dquote ++ s ++ dquote.

Definition obj (fields : list (string * string)) : string :=
  "{" ++ String.concat "," (map (fun kv => q (fst kv) ++ ":" ++ snd kv) fields) ++ "}".

Definition line_array : string := "[]".
Definition line_shutdown : string := obj [("type", q "shutdown")].
Definition line_unknown : string := obj [("type", q "bogus"); ("id", q "r9")].
Definition line_malformed : string := "{" ++ q "type" ++ ":".
Definition line_empty_text : string :=
  obj [("type", q "generate"); ("id", q "r1"); ("text", q EmptyString)].
Definition line_int_text : string :=
  obj [("type", q "generate"); ("id", q "r2"); ("text", "5")].
Definition line_hello : string :=
  obj [("type", q "generate"); ("id", q "r3"); ("text", q "Hello")].
Definition line_oom : string :=
  obj [("type", q "generate"); ("id", q "r4"); ("text", q "oom")].
Definition line_memory_error : string :=
  obj [("type", q "generate"); ("id", q "r5"); ("text", q "memerr")].
Definition line_empty_voice : string :=
  obj [("type", q "generate"); ("id", q "r6"); ("text", q "hi");
       ("voice_sample", q EmptyString)].
Definition line_missing_voice : string :=
  obj [("type", q "generate"); ("id", q "r7"); ("text", q "hi");
       ("voice_sample", q "/missing.wav")].
Definition line_missing_image : string :=
  obj [("type", q "caption"); ("id", q "r2"); ("image_path", q "/missing.png")].
Definition line_empty_image : string :=
  obj [("type", q "caption"); ("id", q "r8"); ("image_path", q EmptyString)].
Definition line_no_image : string :=
  obj [("type", q "caption"); ("id", q "r9")].
Definition line_cat : string :=
  obj [("type", q "caption"); ("id", q "r10"); ("image_path", q "/img/cat.png");
       ("context", obj [("page_number", "0"); ("position", q "margin");
                        ("image_index", "11")])].
Definition line_cat_memory_error : string :=
  obj [("type", q "caption"); ("id", q "r11"); ("image_path", q "/img/big.png")].

Definition request_unknown : list (string * pyval) :=
  [("type", PStr "bogus"); ("id", PStr "r9")].
Definition request_empty_text : list (string * pyval) :=
  [("type", PStr "generate"); ("id", PStr "r1"); ("text", PStr EmptyString)].
Definition request_int_text : list (string * pyval) :=
  [("type", PStr "generate"); ("id", PStr "r2"); ("text", PInt 5)].
Definition request_hello : list (string * pyval) :=
  [("type", PStr "generate"); ("id", PStr "r3"); ("text", PStr "Hello")].
Definition request_oom : list (string * pyval) :=
  [("type", PStr "generate"); ("id", PStr "r4"); ("text", PStr "oom")].
Definition request_memory_error : list (string * pyval) :=
  [("type", PStr "generate"); ("id", PStr "r5"); ("text", PStr "memerr")].
Definition request_empty_voice : list (string * pyval) :=
  [("type", PStr "generate"); ("id", PStr "r6"); ("text", PStr "hi");
   ("voice_sample", PStr EmptyString)].
Definition request_missing_voice : list (string * pyval) :=
  [("type", PStr "generate"); ("id", PStr "r7"); ("text", PStr "hi");
   ("voice_sample", PStr "/missing.wav")].
Definition request_missing_image : list (string * pyval) :=
  [("type", PStr "caption"); ("id", PStr "r2"); ("image_path", PStr "/missing.png")].
Definition request_empty_image : list (string * pyval) :=
  [("type", PStr "caption"); ("id", PStr "r8"); ("image_path", PStr EmptyString)].
Definition request_no_image : list (string * pyval) :=
  [("type", PStr "caption"); ("id", PStr "r9")].
Definition context_cat : list (string * pyval) :=
  [("page_number", PInt 0); ("position", PStr "margin"); ("image_index", PInt 11)].
Definition request_cat : list (string * pyval) :=
  [("type", PStr "caption"); ("id", PStr "r10"); ("image_path", PStr "/img/cat.png");
   ("context", PDict context_cat)].
Definition request_cat_memory_error : list (string * pyval) :=
  [("type", PStr "caption"); ("id", PStr "r11"); ("image_path", PStr "/img/big.png")].

Definition documents : list (string * pyval) :=
  [(line_array, PList []);
   (line_shutdown, PDict [("type", PStr "shutdown")]);
   (line_unknown, PDict request_unknown);
   (line_empty_text, PDict request_empty_text);
   (line_int_text, PDict request_int_text);
   (line_hello, PDict request_hello);
   (line_oom, PDict request_oom);
   (line_memory_error, PDict request_memory_error);
   (line_empty_voice, PDict request_empty_voice);
   (line_missing_voice, PDict request_missing_voice);
   (line_missing_image, PDict request_missing_image);
   (line_empty_image, PDict request_empty_image);
   (line_no_image, PDict request_no_image);
   (line_cat, PDict request_cat);
   (line_cat_memory_error, PDict request_cat_memory_error)].

Definition loads (line : string) : result pyval :=
  match assoc line documents with
  | Some v => Ok v
  | None => Raise (mk_exn JSONDecodeError "Expecting value: line 1 column 1 (char 0)")
  end.

Definition files : list string := ["/img/cat.png"; "/img/big.png"; "/voices/ann.wav"].

Definition exists_file (p : string) : bool :=
  existsb (fun f => (f =? p)%string) files.

Definition load_error : exn :=
  mk_exn (OtherError "OSError") "weights not found".

Definition speak (text : pyval) : result Z :=
  if py_eq_str text "oom" then
    Raise (mk_exn RuntimeError "CUDA out of memory. Tried to allocate 2.00 GiB")
  else if py_eq_str text "memerr" then
    Raise (mk_exn (OtherError "MemoryError") "Out of memory")
  else Ok 36000.

Definition look (image_path : pyval) : result string :=
  if py_eq_str image_path "/img/big.png" then
    Raise (mk_exn (OtherError "MemoryError") "out of memory")
  else Ok "A photo of a cat.".

Definition env : Env := {|
  world := bool;
  wav := Z;
  json_loads := loads;
  repr_opaque := fun _ => "<repr>";
  path_exists := fun _ p => exists_file p;
  fd_exists := fun _ fd => Ok ((0 <=? fd) && (fd <=? 2));
  mkdtemp := fun w prefix => ("/tmp/" ++ prefix ++ "k3x9", w);
  detect_device := fun w => (Ok "cpu", w);
  chatterbox_from_pretrained :=
    fun w _ => (if w then Ok tt else Raise load_error, w);
  model_generate := fun w text _ _ _ _ => (speak text, w);
  ta_save := fun w _ _ => (Ok tt, w);
  wav_duration := fun _ _ => Ok (PFloat float_0_5);
  qwen_from_pretrained :=
    fun w _ => (if w then Ok tt else Raise load_error, w);
  describe_image := fun w p => (look p, w)
|}.

Definition healthy : world env := true.
Definition broken : world env := false.

(** The globals of the TTS bridge once it serves, and of the vision bridge. *)
Definition tts_serving : store env :=
  mk_store (E := env) healthy (Some "/tmp/actual_reader_tts_k3x9") 0.
Definition vision_serving : store env := mk_store (E := env) healthy None 0.
End Example.


(** ** Vocabulary of the further properties *)

(** A line of stdin that [strip] leaves empty. *)
Definition blank (raw : string) : bool := (strip raw =? EmptyString)%string.

(** A line that decodes to an object whose type is shutdown. *)
Definition shutdownb {E : Env} (raw : string) : bool :=
  match json_loads E (strip raw) with
  | Ok (PDict d) => py_eq_str (field d "type" PNone) "shutdown"
  | _ => false
  end.

(** A line the loop owes a response: neither blank nor a shutdown. *)
Definition answered {E : Env} (raw : string) : bool :=
  negb (blank raw) && negb (shutdownb (E := E) raw).

Definition handle_line_of {E : Env} (b : bridge) : string -> M E control :=
  match b with
  | Tts => TTS.handle_line
  | Vision_ => Vision.handle_line
  end.

Definition handler_of {E : Env} (b : bridge) : pyval -> M E pyval :=
  match b with
  | Tts => TTS.generate
  | Vision_ => Vision.caption
  end.

(** The type a bridge handles itself. *)
Definition own_type (b : bridge) : string :=
  match b with
  | Tts => "generate"
  | Vision_ => "caption"
  end.

(** The model is called at most once. *)
Definition at_most_one_call (t : list event) : Prop :=
  t = [] \/ exists args, t = [ModelCall args].

Definition audio_response (req_id : pyval) (path : string) (duration : pyval) : pyval :=
  PDict [("type", PStr "audio"); ("id", req_id);
         ("path", PStr path); ("duration", duration)].

Definition caption_response (req_id : pyval) (text : string) : pyval :=
  PDict [("type", PStr "caption"); ("id", req_id); ("caption", PStr text)].

(** The file the [n]-th generation is saved to. *)
Definition output_path (dir : string) (n : Z) : string :=
  path_join dir ("tts_" ++ format_04d n ++ ".wav").

(** The error codes a bridge can answer with. *)
Definition error_codes (b : bridge) : list string :=
  match b with
  | Tts => ["INVALID_REQUEST"; "INVALID_TEXT"; "VOICE_NOT_FOUND";
            "OUT_OF_MEMORY"; "ENGINE_ERROR"]
  | Vision_ => ["INVALID_REQUEST"; "IMAGE_NOT_FOUND"; "OUT_OF_MEMORY"; "ENGINE_ERROR"]
  end.

Definition success_type (b : bridge) : string :=
  match b with
  | Tts => "audio"
  | Vision_ => "caption"
  end.

(** A response object of the protocol: ready, the success of the bridge, or
    an error with one of its codes and a message. *)
Definition well_formed_response (b : bridge) (response : pyval) : Prop :=
  exists items,
    response = PDict items /\
    (assoc "type" items = Some (PStr "ready")
     \/ assoc "type" items = Some (PStr (success_type b))
     \/ (assoc "type" items = Some (PStr "error")
         /\ exists code message,
              assoc "code" items = Some (PStr code)
              /\ In code (error_codes b)
              /\ assoc "message" items = Some (PStr message))).

(** The type field of a response. *)
Definition response_type (response : pyval) : option pyval :=
  match response with
  | PDict items => assoc "type" items
  | _ => None
  end.

(** A response of the success type of the bridge. *)
Definition succeeded (b : bridge) (response : pyval) : bool :=
  match response_type response with
  | Some (PStr t) => (t =? success_type b)%string
  | _ => false
  end.

(** The file an audio response names, and the files named by the audio
    responses among the lines written on stdout. *)
Definition audio_path (response : pyval) : option string :=
  if succeeded Tts response then
    match response with
    | PDict items =>
        match assoc "path" items with
        | Some (PStr path) => Some path
        | _ => None
        end
    | _ => None
    end
  else None.

Definition audio_paths (rs : list pyval) : list string :=
  flat_map (fun response => match audio_path response with
                            | Some path => [path]
                            | None => []
                            end) rs.

(** What is known of a line the loop has answered: the globals before and
    after, the model calls made and the response written. *)
Definition answered_step {E : Env} (b : bridge) (s s1 : store E)
    (calls : list event) (response : pyval) : Prop :=
  at_most_one_call calls
  /\ well_formed_response b response
  /\ response_type response <> Some (PStr "ready")
  /\ temp_dir s1 = temp_dir s
  /\ request_counter s <= request_counter s1 <= request_counter s + 1
  /\ (calls = [] -> s1 = s)
  /\ (succeeded b response = true ->
      request_counter s1 = request_counter s + 1
      /\ (b = Tts ->
          exists req_id dir duration,
            temp_dir s = Some dir
            /\ response =
               audio_response req_id (output_path dir (request_counter s + 1)) duration))
  /\ (b = Vision_ -> succeeded b response = false ->
      request_counter s1 = request_counter s).

(** A line that decodes to a request of the bridge's own type with the id [v]. *)
Definition request_line {E : Env} (b : bridge) (raw : string) (v : pyval) : Prop :=
  blank raw = false /\
  exists d, json_loads E (strip raw) = Ok (PDict d)
            /\ field d "type" PNone = PStr (own_type b)
            /\ assoc "id" d = Some v.

(** The first and the last line [load_model] logs. *)
Definition loading_log (b : bridge) : event :=
  match b with
  | Tts => Stderr "[tts-bridge] Loading Chatterbox model..."
  | Vision_ => Stderr "[vision-bridge] Loading Qwen2.5-VL-7B model..."
  end.

Definition loaded_log (b : bridge) : event :=
  match b with
  | Tts => Stderr "[tts-bridge] Model loaded."
  | Vision_ => Stderr "[vision-bridge] Model loaded."
  end.

Definition device_log (b : bridge) (device : string) : event :=
  match b with
  | Tts => Stderr ("[tts-bridge] Using device: " ++ device)
  | Vision_ => Stderr ("[vision-bridge] Using device: " ++ device)
  end.

(** The number written in a run of decimal digits, leading zeros allowed. *)
Definition file_number (digits : string) : option Z :=
  option_map Z.of_uint (NilEmpty.uint_of_string digits).

(** The error response of the loop itself, which has no id. *)
Definition loop_error (message : string) : pyval :=
  PDict [("type", PStr "error"); ("code", PStr "INVALID_REQUEST");
         ("message", PStr message)].

(** Further requests for the concrete installation. *)
Module More.
Definition request_no_id : list (string * pyval) :=
  [("type", PStr "generate"); ("text", PStr "Hello")].
Definition context_last : list (string * pyval) :=
  [("page_number", PInt 3); ("position", PStr "top"); ("image_index", PInt (-1))].
Definition request_last_image : list (string * pyval) :=
  [("type", PStr "caption"); ("id", PStr "r20"); ("image_path", PStr "/img/cat.png");
   ("context", PDict context_last)].
Definition context_far : list (string * pyval) :=
  [("image_index", PInt (-11))].
Definition request_far_image : list (string * pyval) :=
  [("type", PStr "caption"); ("id", PStr "r21"); ("image_path", PStr "/img/cat.png");
   ("context", PDict context_far)].
End More.

(** * Reasoning about bridge code *)

Section Laws.
Context {E : Env}.

Local Abbreviation satisfies := (@satisfies E _).

Lemma bind_Ok {A B} (m : M E A) (k : A -> M E B) s a s1 t1 :
  m s = (Ok a, s1, t1) ->
  bind m k s = (let '(r, s2, t2) := k a s1 in (r, s2, (t1 ++ t2)%list)).
Proof. intros H. unfold bind. rewrite H. reflexivity. Qed.

Lemma bind_Raise {A B} (m : M E A) (k : A -> M E B) s e s1 t1 :
  m s = (Raise e, s1, t1) -> bind m k s = (Raise e, s1, t1).
Proof. intros H. unfold bind. rewrite H. reflexivity. Qed.

Lemma try_except_Ok {A} (body : M E A) handler s a s1 t1 :
  body s = (Ok a, s1, t1) -> try_except body handler s = (Ok a, s1, t1).
Proof. intros H. unfold try_except. rewrite H. reflexivity. Qed.

Lemma try_except_Raise {A} (body : M E A) handler s e s1 t1 :
  body s = (Raise e, s1, t1) ->
  try_except body handler s =
  (let '(r, s2, t2) := handler e s1 in (r, s2, (t1 ++ t2)%list)).
Proof. intros H. unfold try_except. rewrite H. reflexivity. Qed.

Lemma sat_ret {A} (a : A) P (Q : A -> Prop) : Q a -> satisfies (ret a) P Q.
Proof.
  intros Ha s. split; [constructor|]. split; [|reflexivity].
  cbn. intros b Hb. now inversion Hb; subst.
Qed.

Lemma sat_raise {A} e P (Q : A -> Prop) : satisfies (raise e) P Q.
Proof. intros s. split; [constructor|]. split; [cbn; discriminate | reflexivity]. Qed.

Lemma sat_emit ev (P : event -> Prop) (Q : unit -> Prop) :
  P ev -> Q tt -> satisfies (emit ev) P Q.
Proof.
  intros Hev Hq s. split; [repeat constructor; exact Hev|].
  split; [|reflexivity]. cbn. intros [] _. exact Hq.
Qed.

Lemma sat_bind {A B} (m : M E A) (k : A -> M E B) P Q1 Q :
  satisfies m P Q1 -> (forall a, Q1 a -> satisfies (k a) P Q) ->
  satisfies (bind m k) P Q.
Proof.
  intros Hm Hk s. unfold bind.
  destruct (Hm s) as (Ht & Hv & Hd).
  destruct (m s) as [[[a|e] s1] t1]; cbn in *.
  - destruct (Hk a (Hv a eq_refl) s1) as (Ht2 & Hv2 & Hd2).
    destruct (k a s1) as [[r s2] t2]; cbn in *.
    split; [apply Forall_app; split; assumption|].
    split; [exact Hv2 | congruence].
  - split; [assumption|]. split; [discriminate | assumption].
Qed.

Lemma sat_try_except {A} (body : M E A) handler P Q :
  satisfies body P Q -> (forall e, satisfies (handler e) P Q) ->
  satisfies (try_except body handler) P Q.
Proof.
  intros Hb Hh s. unfold try_except.
  destruct (Hb s) as (Ht & Hv & Hd).
  destruct (body s) as [[[a|e] s1] t1]; cbn in *.
  - repeat split; assumption.
  - destruct (Hh e s1) as (Ht2 & Hv2 & Hd2).
    destruct (handler e s1) as [[r s2] t2]; cbn in *.
    split; [apply Forall_app; split; assumption|].
    split; [exact Hv2 | congruence].
Qed.

Lemma sat_events {A} (m : M E A) (P P' : event -> Prop) Q :
  (forall ev, P ev -> P' ev) -> satisfies m P Q -> satisfies m P' Q.
Proof.
  intros Hp Hm s. destruct (Hm s) as (Ht & Hv & Hd).
  split; [|split; assumption]. eapply Forall_impl; [exact Hp | exact Ht].
Qed.

Lemma handling_serving ev : handling_event ev -> serving_event ev.
Proof. destruct ev; cbn; tauto. Qed.

Lemma sat_call {A} (f : world E -> result A * world E) P :
  satisfies (call f) P (fun _ => True).
Proof.
  intros s. unfold call. destruct (f (st_world s)) as [r w].
  split; [constructor|]. split; [trivial | reflexivity].
Qed.

Lemma sat_read_world {A} (f : world E -> A) P :
  satisfies (read_world f) P (fun _ => True).
Proof. intros s. split; [constructor|]. split; [trivial | reflexivity]. Qed.

Lemma sat_get_store P : satisfies get_store P (fun _ => True).
Proof. intros s. split; [constructor|]. split; [trivial | reflexivity]. Qed.

Lemma sat_set_request_counter c P :
  satisfies (set_request_counter c) P (fun _ => True).
Proof. intros s. split; [constructor|]. split; [trivial | reflexivity]. Qed.

Lemma sat_py_get obj key default P : satisfies (py_get obj key default) P (fun _ => True).
Proof. destruct obj; first [apply sat_raise | now apply sat_ret]. Qed.

Lemma sat_py_len v P : satisfies (py_len v) P (fun _ => True).
Proof. destruct v; first [apply sat_raise | now apply sat_ret]. Qed.

Lemma sat_os_path_exists v P : satisfies (os_path_exists v) P (fun _ => True).
Proof.
  destruct v; first [apply sat_raise | apply sat_call | apply sat_read_world].
Qed.

End Laws.

(** ** Equations of the monad *)

Section Equations.
Context {E : Env}.

Lemma bind_pure_Ok {A B} (m : M E A) (k : A -> M E B) s a :
  m s = (Ok a, s, []) -> bind m k s = k a s.
Proof.
  intros H. rewrite (bind_Ok _ _ _ _ _ _ H).
  destruct (k a s) as [[r s2] t2]. reflexivity.
Qed.

Lemma bind_ret {A B} (a : A) (k : A -> M E B) s : bind (ret a) k s = k a s.
Proof. now apply bind_pure_Ok. Qed.

Lemma bind_get_store {B} (k : store E -> M E B) s : bind get_store k s = k s s.
Proof. now apply bind_pure_Ok. Qed.

Lemma bind_raise {A B} e (k : A -> M E B) s :
  bind (raise e) k s = (Raise e, s, []).
Proof. reflexivity. Qed.

Lemma bind_py_get {B} d key default (k : pyval -> M E B) s :
  bind (py_get (PDict d) key default) k s = k (field d key default) s.
Proof. now apply bind_pure_Ok. Qed.

Lemma bind_emit {B} ev (k : unit -> M E B) s :
  bind (emit ev) k s = (let '(r, s2, t2) := k tt s in (r, s2, ev :: t2)).
Proof. reflexivity. Qed.

Lemma bind_assoc {A B C} (m : M E A) (k : A -> M E B) (h : B -> M E C) s :
  bind (bind m k) h s = bind m (fun a => bind (k a) h) s.
Proof.
  unfold bind. destruct (m s) as [[[a|e] s1] t1]; [|reflexivity].
  destruct (k a s1) as [[[b|e] s2] t2]; [|reflexivity].
  destruct (h b s2) as [[r s3] t3]. now rewrite app_assoc.
Qed.

Lemma exists_str p s :
  os_path_exists (PStr p) s = (Ok (path_exists E (st_world s) p), s, []).
Proof. reflexivity. Qed.
End Equations.

(** ** The handlers on well-typed requests *)

Section Handlers.
Context {E : Env}.

Lemma length_pos_nonempty t :
  0 < Z.of_nat (String.length t) -> (t =? EmptyString)%string = false.
Proof. destruct t; cbn; [lia | reflexivity]. Qed.

(** [generate] on a request whose text is a string, whose voice sample is
    a string or [None] and whose options are a dict. *)
Lemma generate_typed d s t vp o :
  field d "text" (PStr EmptyString) = PStr t ->
  field d "voice_sample" PNone = opt_str vp ->
  field d "options" (PDict []) = PDict o ->
  TTS.generate (PDict d) s =
  match generate_verdict (path_exists E (st_world s)) t vp with
  | Reject code message => (Ok (error_response (req_id_of s d) code message), s, [])
  | Invoke =>
      try_except
        (TTS.synthesize (req_id_of s d) (PStr t) (opt_str vp)
           (field o "exaggeration" (PFloat float_0_5))
           (field o "cfg_weight" (PFloat float_0_5))
           (field o "temperature" (PFloat float_0_8)))
        (TTS.classify (req_id_of s d)) s
  end.
Proof.
  intros Ht Hv Ho. unfold TTS.generate.
  rewrite bind_get_store. rewrite !bind_py_get. rewrite Ht, Hv, Ho.
  unfold generate_verdict. cbn [truthy].
  destruct (t =? EmptyString)%string eqn:Hempty; cbn [negb].
  - reflexivity.
  - rewrite (bind_pure_Ok _ _ _ (Z.of_nat (String.length t))) by reflexivity.
    destruct (10000 <? Z.of_nat (String.length t)) eqn:Hlong; [reflexivity|].
    destruct vp as [p|]; cbn [opt_str truthy].
    + destruct (p =? EmptyString)%string eqn:Hp; cbn [negb orb].
      * rewrite bind_ret. rewrite !bind_py_get. reflexivity.
      * rewrite bind_assoc.
        rewrite (bind_pure_Ok _ _ _ _ (exists_str p s)). rewrite bind_ret.
        destruct (path_exists E (st_world s) p); cbn [negb].
        -- rewrite !bind_py_get. reflexivity.
        -- reflexivity.
    + rewrite bind_ret. rewrite !bind_py_get. reflexivity.
Qed.

(** [caption] on a request whose image path is a string or [None] and
    whose context is a dict. *)
Lemma caption_typed d s ip c :
  field d "image_path" PNone = opt_str ip ->
  field d "context" (PDict []) = PDict c ->
  Vision.caption (PDict d) s =
  match caption_verdict (path_exists E (st_world s)) ip with
  | Reject code message => (Ok (error_response (req_id_of s d) code message), s, [])
  | Invoke =>
      try_except
        (Vision.describe (req_id_of s d) (opt_str ip)
           (field c "position" (PStr "middle"))
           (field c "image_index" (PInt 0))
           (field c "page_number" PNone))
        (Vision.classify (req_id_of s d)) s
  end.
Proof.
  intros Hp Hc. unfold Vision.caption.
  rewrite bind_get_store. rewrite !bind_py_get. rewrite Hp, Hc.
  rewrite !bind_py_get. unfold caption_verdict.
  destruct ip as [p|]; cbn [opt_str truthy]; [|reflexivity].
  destruct (p =? EmptyString)%string eqn:Hempty; cbn [negb]; [reflexivity|].
  rewrite (bind_pure_Ok _ _ _ _ (exists_str p s)).
  destruct (path_exists E (st_world s) p); reflexivity.
Qed.

Lemma tts_classify_code req_id e (s : store E) :
  TTS.classify req_id e s =
  (Ok (error_response req_id (failure_code e) (exn_msg e)), s, []).
Proof.
  unfold TTS.classify, failure_code.
  destruct (is_RuntimeError e); cbn [andb]; [|reflexivity].
  destruct (contains _ _); reflexivity.
Qed.

Lemma vision_classify_code req_id e (s : store E) :
  Vision.classify req_id e s =
  (Ok (error_response req_id (failure_code e) (exn_msg e)), s, []).
Proof.
  unfold Vision.classify, failure_code.
  destruct (is_RuntimeError e); cbn [andb]; [|reflexivity].
  destruct (contains _ _); reflexivity.
Qed.

(** A failure inside the [try] block becomes one classified response. *)
Lemma tts_try_Raise req_id text voice ex cfg temp (s : store E) e s1 t1 :
  TTS.synthesize req_id text voice ex cfg temp s = (Raise e, s1, t1) ->
  try_except (TTS.synthesize req_id text voice ex cfg temp) (TTS.classify req_id) s =
  (Ok (error_response req_id (failure_code e) (exn_msg e)), s1, t1).
Proof.
  intros H. rewrite (try_except_Raise _ _ _ _ _ _ H), tts_classify_code.
  now rewrite app_nil_r.
Qed.

Lemma vision_try_Raise req_id path pos idx page (s : store E) e s1 t1 :
  Vision.describe req_id path pos idx page s = (Raise e, s1, t1) ->
  try_except (Vision.describe req_id path pos idx page) (Vision.classify req_id) s =
  (Ok (error_response req_id (failure_code e) (exn_msg e)), s1, t1).
Proof.
  intros H. rewrite (try_except_Raise _ _ _ _ _ _ H), vision_classify_code.
  now rewrite app_nil_r.
Qed.

(** One iteration of the loop on a line that decodes to a request of the
    bridge's own type. *)
Lemma tts_handle_generate raw d (s : store E) :
  strip raw <> EmptyString ->
  json_loads E (strip raw) = Ok (PDict d) ->
  field d "type" PNone = PStr "generate" ->
  TTS.handle_line raw s =
  (let '(r, s1, t1) := TTS.generate (PDict d) s in
   match r with
   | Ok response => (Ok Continue, s1, (t1 ++ [Stdout response])%list)
   | Raise e => (Raise e, s1, t1)
   end).
Proof.
  intros Hne Hj Hty. unfold TTS.handle_line.
  apply String.eqb_neq in Hne. rewrite Hne, Hj, bind_py_get, Hty.
  cbn [py_eq_str]. change ("generate" =? "shutdown")%string with false.
  change ("generate" =? "generate")%string with true. cbv iota.
  unfold bind at 1.
  destruct (TTS.generate (PDict d) s) as [[[resp|e] s1] t1]; reflexivity.
Qed.

Lemma vision_handle_caption raw d (s : store E) :
  strip raw <> EmptyString ->
  json_loads E (strip raw) = Ok (PDict d) ->
  field d "type" PNone = PStr "caption" ->
  Vision.handle_line raw s =
  (let '(r, s1, t1) := Vision.caption (PDict d) s in
   match r with
   | Ok response => (Ok Continue, s1, (t1 ++ [Stdout response])%list)
   | Raise e => (Raise e, s1, t1)
   end).
Proof.
  intros Hne Hj Hty. unfold Vision.handle_line.
  apply String.eqb_neq in Hne. rewrite Hne, Hj, bind_py_get, Hty.
  cbn [py_eq_str]. change ("caption" =? "shutdown")%string with false.
  change ("caption" =? "caption")%string with true. cbv iota.
  unfold bind at 1.
  destruct (Vision.caption (PDict d) s) as [[[resp|e] s1] t1]; reflexivity.
Qed.

(** The loop, one line at a time. *)
Lemma tts_serve_cons raw rest (s : store E) :
  TTS.serve (raw :: rest) s =
  (let '(r, s1, t1) := TTS.handle_line raw s in
   match r with
   | Ok Continue =>
       let '(r2, s2, t2) := TTS.serve rest s1 in (r2, s2, ReadLine raw :: (t1 ++ t2)%list)
   | Ok Break => (Ok tt, s1, ReadLine raw :: t1)
   | Raise e => (Raise e, s1, ReadLine raw :: t1)
   end).
Proof.
  cbn [TTS.serve]. rewrite bind_emit. unfold bind.
  destruct (TTS.handle_line raw s) as [[[[|]|e] s1] t1]; cbn.
  - destruct (TTS.serve rest s1) as [[r2 s2] t2]. reflexivity.
  - now rewrite app_nil_r.
  - reflexivity.
Qed.

Lemma vision_serve_cons raw rest (s : store E) :
  Vision.serve (raw :: rest) s =
  (let '(r, s1, t1) := Vision.handle_line raw s in
   match r with
   | Ok Continue =>
       let '(r2, s2, t2) := Vision.serve rest s1 in
       (r2, s2, ReadLine raw :: (t1 ++ t2)%list)
   | Ok Break => (Ok tt, s1, ReadLine raw :: t1)
   | Raise e => (Raise e, s1, ReadLine raw :: t1)
   end).
Proof.
  cbn [Vision.serve]. rewrite bind_emit. unfold bind.
  destruct (Vision.handle_line raw s) as [[[[|]|e] s1] t1]; cbn.
  - destruct (Vision.serve rest s1) as [[r2 s2] t2]. reflexivity.
  - now rewrite app_nil_r.
  - reflexivity.
Qed.
End Handlers.

(** ** What the serving loop can emit *)

Ltac sat_step :=
  match goal with
  | |- @satisfies _ _ (ret _) _ _ => apply sat_ret
  | |- @satisfies _ _ (raise _) _ _ => apply sat_raise
  | |- @satisfies _ _ (py_get _ _ _) _ _ => apply sat_py_get
  | |- @satisfies _ _ (py_len _) _ _ => apply sat_py_len
  | |- @satisfies _ _ (os_path_exists _) _ _ => apply sat_os_path_exists
  | |- @satisfies _ _ (call _) _ _ => apply sat_call
  | |- @satisfies _ _ (read_world _) _ _ => apply sat_read_world
  | |- @satisfies _ _ get_store _ _ => apply sat_get_store
  | |- @satisfies _ _ (set_request_counter _) _ _ => apply sat_set_request_counter
  | |- @satisfies _ _ (emit _) _ _ => apply sat_emit
  | |- @satisfies _ _ (send _) _ _ => apply sat_emit
  | |- @satisfies _ _ (bind _ _) _ _ =>
      eapply sat_bind with (Q1 := fun _ => True); [ | intros ? _ ]
  | |- @satisfies _ _ (try_except _ _) _ _ => apply sat_try_except; [ | intros ? ]
  | |- @satisfies _ _ (if ?b then _ else _) _ _ => destruct b
  | |- @satisfies _ _ (match ?x with _ => _ end) _ _ => destruct x
  end.

Ltac sat := repeat sat_step; try (cbn; unfold ready; easy).

Section Serving.
Context {E : Env}.

Local Abbreviation satisfies := (@satisfies E _).

Lemma sat_tts_synthesize req_id text voice ex cfg temp :
  satisfies (TTS.synthesize req_id text voice ex cfg temp)
    handling_event (fun r => r <> ready).
Proof. unfold TTS.synthesize. sat. Qed.

Lemma sat_tts_classify req_id e :
  satisfies (TTS.classify req_id e) handling_event (fun r => r <> ready).
Proof. unfold TTS.classify. sat. Qed.

Lemma sat_tts_generate request :
  satisfies (TTS.generate request) handling_event (fun r => r <> ready).
Proof.
  unfold TTS.generate. sat; first [apply sat_tts_synthesize | apply sat_tts_classify].
Qed.

Lemma sat_tts_handle_line raw :
  satisfies (TTS.handle_line raw) handling_event (fun _ => True).
Proof.
  unfold TTS.handle_line.
  destruct (strip raw =? EmptyString)%string; [sat|].
  destruct (json_loads E (strip raw)) as [request|e].
  - eapply sat_bind with (Q1 := fun _ => True); [apply sat_py_get|intros req_type _].
    destruct (py_eq_str req_type "shutdown"); [unfold TTS.log; sat|].
    destruct (py_eq_str req_type "generate"); [|unfold send; sat].
    eapply sat_bind; [apply sat_tts_generate|]. intros response Hr.
    unfold send. sat.
  - unfold send. sat.
Qed.

Lemma sat_tts_serve stdin :
  satisfies (TTS.serve stdin) serving_event (fun _ => True).
Proof.
  induction stdin as [|raw rest IH]; cbn [TTS.serve]; [sat|].
  eapply sat_bind with (Q1 := fun _ => True); [sat|intros _ _].
  eapply sat_bind with (Q1 := fun _ => True); [apply sat_events with (1 := handling_serving), sat_tts_handle_line|].
  intros [|] _; [exact IH | sat].
Qed.

Lemma sat_vision_format_position position image_index page_number P :
  satisfies (Vision.format_position position image_index page_number)
    P (fun _ => True).
Proof.
  unfold Vision.format_position, Vision.describe_position, Vision.below_ordinals,
    Vision.ordinals_item, Vision.ordinals_at, Vision.plus_one.
  sat.
Qed.

Lemma sat_vision_describe req_id path pos idx page :
  satisfies (Vision.describe req_id path pos idx page)
    handling_event (fun r => r <> ready).
Proof.
  unfold Vision.describe.
  eapply sat_bind with (Q1 := fun _ => True); [sat|intros _ _].
  eapply sat_bind with (Q1 := fun _ => True); [sat|intros description _].
  eapply sat_bind with (Q1 := fun _ => True);
    [apply sat_vision_format_position|intros prefix _].
  sat.
Qed.

Lemma sat_vision_classify req_id e :
  satisfies (Vision.classify req_id e) handling_event (fun r => r <> ready).
Proof. unfold Vision.classify. sat. Qed.

Lemma sat_vision_caption request :
  satisfies (Vision.caption request) handling_event (fun r => r <> ready).
Proof.
  unfold Vision.caption. sat;
    first [apply sat_vision_describe | apply sat_vision_classify].
Qed.

Lemma sat_vision_handle_line raw :
  satisfies (Vision.handle_line raw) handling_event (fun _ => True).
Proof.
  unfold Vision.handle_line.
  destruct (strip raw =? EmptyString)%string; [sat|].
  destruct (json_loads E (strip raw)) as [request|e].
  - eapply sat_bind with (Q1 := fun _ => True); [apply sat_py_get|intros req_type _].
    destruct (py_eq_str req_type "shutdown"); [unfold Vision.log; sat|].
    destruct (py_eq_str req_type "caption"); [|unfold send; sat].
    eapply sat_bind; [apply sat_vision_caption|]. intros response Hr.
    unfold send. sat.
  - unfold send. sat.
Qed.

Lemma sat_vision_serve stdin :
  satisfies (Vision.serve stdin) serving_event (fun _ => True).
Proof.
  induction stdin as [|raw rest IH]; cbn [Vision.serve]; [sat|].
  eapply sat_bind with (Q1 := fun _ => True); [sat|intros _ _].
  eapply sat_bind with (Q1 := fun _ => True); [apply sat_events with (1 := handling_serving), sat_vision_handle_line|].
  intros [|] _; [exact IH | sat].
Qed.

Lemma sat_tts_load_model : satisfies TTS.load_model is_log (fun _ => True).
Proof. unfold TTS.load_model, TTS.log. sat. Qed.

Lemma sat_vision_load_model : satisfies Vision.load_model is_log (fun _ => True).
Proof. unfold Vision.load_model, Vision.log. sat. Qed.
End Serving.

(** ** The two processes from start to exit *)

Section Mains.
Context {E : Env}.

Lemma tts_main_eq (w : world E) stdin :
  TTS.main stdin (initial w) =
  (let '(d, w1) := mkdtemp E w "actual_reader_tts_" in
   let head := [Mkdtemp d; Stderr ("[tts-bridge] Temp directory: " ++ d)] in
   let '(r2, s2, t2) := TTS.load_model (mk_store w1 (Some d) 0) in
   match r2 with
   | Raise e =>
       (Ok 1, s2,
        head ++ t2 ++
        [Stdout (error_response (PStr "init") "ENGINE_ERROR"
                   ("Failed to load model: " ++ exn_msg e))])
   | Ok _ =>
       let '(r3, s3, t3) := TTS.serve stdin s2 in
       match r3 with
       | Raise e =>
           (Raise e, s3,
            head ++ t2 ++ Stdout ready
              :: Stderr "[tts-bridge] Listening for requests..." :: t3)
       | Ok _ =>
           (Ok 0, s3,
            head ++ t2 ++ Stdout ready
              :: Stderr "[tts-bridge] Listening for requests..."
              :: t3 ++ Stderr "[tts-bridge] Cleaning up..."
              :: match temp_dir s3 with
                 | Some d' => [Rmtree d' true]
                 | None => []
                 end)
       end
   end)%list.
Proof.
  unfold TTS.main, initial. unfold bind at 1. unfold call at 1. cbn [st_world].
  destruct (mkdtemp E w "actual_reader_tts_") as [d w1]. cbn [temp_dir request_counter].
  rewrite bind_emit. unfold bind at 1. cbn [set_temp_dir st_world request_counter].
  unfold TTS.log at 1. rewrite bind_emit.
  unfold bind at 1, try_except at 1. unfold bind at 1.
  destruct (TTS.load_model _) as [[[[]|e] s2] t2]; cbn.
  - unfold bind at 1.
    destruct (TTS.serve stdin s2) as [[[[]|e] s3] t3]; cbn.
    + destruct (temp_dir s3); cbn; rewrite ?app_nil_r; reflexivity.
    + now rewrite app_nil_r.
  - now rewrite !app_nil_r.
Qed.

Lemma vision_main_eq (w : world E) stdin :
  Vision.main stdin (initial w) =
  (let '(r2, s2, t2) := Vision.load_model (initial w) in
   match r2 with
   | Raise e =>
       (Ok 1, s2,
        t2 ++
        [Stdout (error_response (PStr "init") "ENGINE_ERROR"
                   ("Failed to load model: " ++ exn_msg e))])
   | Ok _ =>
       let '(r3, s3, t3) := Vision.serve stdin s2 in
       match r3 with
       | Raise e =>
           (Raise e, s3,
            t2 ++ Stdout ready
              :: Stderr "[vision-bridge] Listening for requests..." :: t3)
       | Ok _ =>
           (Ok 0, s3,
            t2 ++ Stdout ready
              :: Stderr "[vision-bridge] Listening for requests..."
              :: t3 ++ [Stderr "[vision-bridge] Shutting down..."])
       end
   end)%list.
Proof.
  unfold Vision.main.
  unfold bind at 1, try_except at 1. unfold bind at 1.
  destruct (Vision.load_model _) as [[[[]|e] s2] t2]; cbn.
  - unfold bind at 1.
    destruct (Vision.serve stdin s2) as [[[[]|e] s3] t3]; cbn.
    + now rewrite !app_nil_r.
    + now rewrite app_nil_r.
  - now rewrite !app_nil_r.
Qed.

Lemma responses_app t1 t2 : responses (t1 ++ t2) = (responses t1 ++ responses t2)%list.
Proof.
  induction t1 as [|[] t1 IH]; cbn; rewrite ?IH; reflexivity.
Qed.

Lemma lines_read_app t1 t2 :
  lines_read (t1 ++ t2) = (lines_read t1 ++ lines_read t2)%list.
Proof.
  induction t1 as [|[] t1 IH]; cbn; rewrite ?IH; reflexivity.
Qed.

Lemma count_app p t1 t2 : count p (t1 ++ t2) = (count p t1 + count p t2)%nat.
Proof. unfold count. now rewrite filter_app, length_app. Qed.

Lemma count_cons p ev t :
  count p (ev :: t) = ((if p ev then 1 else 0) + count p t)%nat.
Proof. unfold count. cbn. destruct (p ev); reflexivity. Qed.

Lemma count_nil p : count p [] = 0%nat.
Proof. reflexivity. Qed.

(** A trace of log lines holds no response, no read and no use of the
    temporary directory. *)
Lemma logs_silent t :
  Forall is_log t ->
  responses t = [] /\ lines_read t = [] /\
  count is_acquire t = 0%nat /\ count is_release t = 0%nat.
Proof.
  induction 1 as [|ev t Hev _ IH]; [repeat split|].
  destruct ev; cbn in Hev; try contradiction. exact IH.
Qed.

(** A trace of the serving loop answers with no ready signal and leaves the
    temporary directory alone. *)
Lemma serving_quiet t :
  Forall serving_event t ->
  ~ In ready (responses t) /\
  count is_acquire t = 0%nat /\ count is_release t = 0%nat.
Proof.
  induction 1 as [|ev t Hev _ IH]; [repeat split; auto|].
  destruct ev; cbn in Hev; try contradiction; try exact IH.
  destruct IH as (Hr & Ha & Hl). repeat split; try assumption.
  cbn. intros [Heq|Hin]; [now apply Hev | now apply Hr].
Qed.
End Mains.

(** * The claims *)

Ltac count_events :=
  cbn [app];
  repeat first [rewrite count_app | rewrite count_cons | rewrite count_nil];
  cbn [is_acquire is_release].

Section Lifecycle.
Context {E : Env}.

Lemma loading_logs b (w : world E) r s2 t2 :
  loading b w = (r, s2, t2) ->
  Forall is_log t2 /\ temp_dir s2 = temp_dir (before_load b w).
Proof.
  intros H. destruct b; unfold loading in H.
  - destruct (sat_tts_load_model (before_load Tts w)) as (Ht & _ & Hd).
    rewrite H in Ht, Hd. now split.
  - destruct (sat_vision_load_model (before_load Vision_ w)) as (Ht & _ & Hd).
    rewrite H in Ht, Hd. now split.
Qed.

Lemma serve_of_serving b stdin (s : store E) :
  Forall serving_event (snd (serve_of b stdin s)) /\
  temp_dir (snd (fst (serve_of b stdin s))) = temp_dir s.
Proof.
  destruct b; cbn [serve_of].
  - destruct (sat_tts_serve stdin s) as (Ht & _ & Hd). now split.
  - destruct (sat_vision_serve stdin s) as (Ht & _ & Hd). now split.
Qed.

(** The run of either bridge, split at the end of [load_model]. *)
Lemma run_eq b (w : world E) :
  exists head tail_ok,
    count is_release head = 0%nat /\
    responses head = [] /\ lines_read head = [] /\
    count is_release tail_ok = match b with Tts => 1%nat | Vision_ => 0%nat end /\
    responses tail_ok = [] /\ lines_read tail_ok = [] /\
    count is_acquire tail_ok = 0%nat /\
    forall stdin,
    run (main_of b) w stdin =
    (let '(r2, s2, t2) := loading b w in
     match r2 with
     | Raise e =>
         (head ++ t2 ++
          [Stdout (error_response (PStr "init") "ENGINE_ERROR"
                     ("Failed to load model: " ++ exn_msg e))], Exit 1)
     | Ok _ =>
         let '(r3, s3, t3) := serve_of b stdin s2 in
         match r3 with
         | Raise e =>
             (head ++ t2 ++ Stdout ready
                :: Stderr (match b with
                           | Tts => "[tts-bridge] Listening for requests..."
                           | Vision_ => "[vision-bridge] Listening for requests..."
                           end) :: t3, Traceback e)
         | Ok _ =>
             (head ++ t2 ++ Stdout ready
                :: Stderr (match b with
                           | Tts => "[tts-bridge] Listening for requests..."
                           | Vision_ => "[vision-bridge] Listening for requests..."
                           end) :: t3 ++ tail_ok, Exit 0)
         end
     end)%list.
Proof.
  destruct b; unfold run; cbn [main_of serve_of].
  - unfold loading. cbn [before_load].
    destruct (mkdtemp E w "actual_reader_tts_") as [d w1] eqn:Hmk.
    exists [Mkdtemp d; Stderr ("[tts-bridge] Temp directory: " ++ d)].
    exists [Stderr "[tts-bridge] Cleaning up..."; Rmtree d true].
    repeat (split; [reflexivity|]).
    intros stdin. rewrite tts_main_eq, Hmk.
    destruct (TTS.load_model (mk_store w1 (Some d) 0)) as [[[[]|e] s2] t2] eqn:Hload;
      [|reflexivity].
    assert (Hd2 : temp_dir s2 = Some d).
    { destruct (sat_tts_load_model (mk_store w1 (Some d) 0)) as (_ & _ & Hd).
      now rewrite Hload in Hd. }
    destruct (sat_tts_serve stdin s2) as (_ & _ & Hd3).
    destruct (TTS.serve stdin s2) as [[[[]|e] s3] t3]; [|reflexivity].
    cbn in Hd3. rewrite Hd3, Hd2. reflexivity.
  - unfold loading. cbn [before_load].
    exists []. exists [Stderr "[vision-bridge] Shutting down..."].
    repeat (split; [reflexivity|]).
    intros stdin. rewrite vision_main_eq.
    destruct (Vision.load_model (initial w)) as [[[[]|e] s2] t2]; [|reflexivity].
    destruct (Vision.serve stdin s2) as [[[[]|e] s3] t3]; reflexivity.
Qed.
End Lifecycle.

(** C7.  If loading the model fails during initialization, the process (the
    TTS bridge or the vision bridge) writes exactly one response, the error
    with id ["init"] and code [ENGINE_ERROR]; it never writes the ready
    signal, reads no line of stdin, and exits with the non-zero code 1. *)
Theorem C7_init_failure_is_fatal {E : Env} (b : bridge) (w : world E)
    (stdin : list string) (e : exn) (s2 : store E) (t2 : list event) :
  loading b w = (Raise e, s2, t2) ->
  responses (fst (run (main_of b) w stdin)) =
    [error_response (PStr "init") "ENGINE_ERROR" ("Failed to load model: " ++ exn_msg e)]
  /\ ~ In ready (responses (fst (run (main_of b) w stdin)))
  /\ lines_read (fst (run (main_of b) w stdin)) = []
  /\ snd (run (main_of b) w stdin) = Exit 1
  /\ exit_code (snd (run (main_of b) w stdin)) <> 0.
Proof.
  intros Hload.
  destruct (run_eq b w) as (head & tail_ok & _ & Hr & Hl & _ & _ & _ & _ & Hrun).
  rewrite Hrun, Hload. cbn [fst snd exit_code].
  destruct (loading_logs _ _ _ _ _ Hload) as [Hlogs _].
  destruct (logs_silent _ Hlogs) as (Hr2 & Hl2 & _).
  rewrite !responses_app, !lines_read_app, Hr, Hl, Hr2, Hl2. cbn.
  repeat split; try reflexivity; try lia.
  intros [H|[]]. discriminate H.
Qed.

Lemma C7_init_failure_is_fatal_witness :
  loading (E := Example.env) Tts Example.broken =
    (Raise Example.load_error,
     mk_store (E := Example.env) Example.broken (Some "/tmp/actual_reader_tts_k3x9") 0,
     [Stderr "[tts-bridge] Loading Chatterbox model...";
      Stderr "[tts-bridge] Using device: cpu"])
  /\ responses (fst (run (E := Example.env) (main_of Tts) Example.broken
                       [Example.line_hello])) =
     [error_response (PStr "init") "ENGINE_ERROR" "Failed to load model: weights not found"]
  /\ snd (run (E := Example.env) (main_of Tts) Example.broken [Example.line_hello]) = Exit 1.
Proof.
  split; [reflexivity|].
  destruct (C7_init_failure_is_fatal (E := Example.env) Tts Example.broken
              [Example.line_hello] _ _ _ eq_refl) as (Hr & _ & _ & Hx & _).
  split; [exact Hr | exact Hx].
Defined.

(** C8.  On every successful start-up (either bridge), the first line written
    on stdout is the object with the single field ["type": "ready"]; it is
    written once, and no line of stdin has been read before it. *)
Theorem C8_ready_first_and_once {E : Env} (b : bridge) (w : world E)
    (stdin : list string) (s2 : store E) (t2 : list event) :
  loading b w = (Ok tt, s2, t2) ->
  exists before after,
    fst (run (main_of b) w stdin) = (before ++ Stdout ready :: after)%list
    /\ ready = PDict [("type", PStr "ready")]
    /\ responses before = []
    /\ lines_read before = []
    /\ responses (fst (run (main_of b) w stdin)) = ready :: responses after
    /\ ~ In ready (responses after).
Proof.
  intros Hload.
  destruct (run_eq b w) as (head & tail_ok & _ & Hr & Hl & _ & Hrt & _ & _ & Hrun).
  rewrite Hrun, Hload.
  destruct (loading_logs _ _ _ _ _ Hload) as [Hlogs _].
  destruct (logs_silent _ Hlogs) as (Hr2 & Hl2 & _).
  destruct (serve_of_serving b stdin s2) as [Hserve _].
  destruct (serving_quiet _ Hserve) as (Hnr & _).
  destruct (serve_of b stdin s2) as [[[[]|e] s3] t3]; cbn [fst snd] in *.
  - exists (head ++ t2)%list. eexists. split; [now rewrite <- app_assoc|].
    split; [reflexivity|].
    rewrite !responses_app, !lines_read_app, Hr, Hl, Hr2, Hl2. cbn.
    repeat split; try reflexivity.
    rewrite responses_app, Hrt, app_nil_r. exact Hnr.
  - exists (head ++ t2)%list. eexists. split; [now rewrite <- app_assoc|].
    split; [reflexivity|].
    rewrite !responses_app, !lines_read_app, Hr, Hl, Hr2, Hl2. cbn.
    repeat split; try reflexivity. exact Hnr.
Qed.

Lemma C8_ready_first_and_once_witness :
  loading (E := Example.env) Vision_ Example.healthy =
    (Ok tt, initial (E := Example.env) Example.healthy,
     [Stderr "[vision-bridge] Loading Qwen2.5-VL-7B model...";
      Stderr "[vision-bridge] Using device: cpu";
      Stderr "[vision-bridge] Model loaded."])
  /\ exists before after,
       fst (run (E := Example.env) (main_of Vision_) Example.healthy
              [Example.line_missing_image]) = (before ++ Stdout ready :: after)%list
       /\ lines_read before = [] /\ ~ In ready (responses after).
Proof.
  split; [reflexivity|].
  destruct (C8_ready_first_and_once (E := Example.env) Vision_ Example.healthy
              [Example.line_missing_image] _ _ eq_refl)
    as (before & after & Ht & _ & _ & Hl & _ & Hn).
  exists before, after. repeat split; assumption.
Defined.

(** C3, as stated, fails: a run of the vision bridge never makes a temporary
    directory, so none is acquired once and released once. *)
Lemma C3_vision_has_no_temp_dir :
  ~ (count is_acquire
       (fst (run (E := Example.env) Vision.main Example.healthy
               [Example.line_missing_image; Example.line_shutdown])) = 1%nat
     /\ count is_release
          (fst (run (E := Example.env) Vision.main Example.healthy
                  [Example.line_missing_image; Example.line_shutdown])) = 1%nat).
Proof. vm_compute. intros [H _]. discriminate H. Qed.

(** C3, amended.  Every run of the TTS bridge makes one temporary directory,
    as its first action; when the process exits with code 0 (the model was
    loaded and the loop ended by shutdown or end of input) the directory is
    removed once, recursively and with errors ignored, as the last action, so
    it is there for the whole of serving.  The vision bridge makes and
    removes no temporary directory. *)
Theorem C3_temp_dir_lifecycle {E : Env} (w : world E) (stdin : list string) :
  (exists d rest,
      fst (run TTS.main w stdin) = Mkdtemp d :: rest
      /\ count is_acquire rest = 0%nat
      /\ (snd (run TTS.main w stdin) = Exit 0 ->
          exists mid, rest = (mid ++ [Rmtree d true])%list
                      /\ count is_release mid = 0%nat))
  /\ count is_acquire (fst (run Vision.main w stdin)) = 0%nat
  /\ count is_release (fst (run Vision.main w stdin)) = 0%nat.
Proof.
  split.
  - unfold run. rewrite tts_main_eq.
    destruct (mkdtemp E w "actual_reader_tts_") as [d w1].
    pose proof (sat_tts_load_model (mk_store w1 (Some d) 0)) as (Hlogs & _ & Hd2).
    destruct (TTS.load_model (mk_store w1 (Some d) 0)) as [[r2 s2] t2].
    cbn [fst snd temp_dir] in Hlogs, Hd2.
    destruct (logs_silent _ Hlogs) as (_ & _ & Ha2 & Hl2).
    exists d. destruct r2 as [[]|e].
    + pose proof (sat_tts_serve stdin s2) as (Hserve & _ & Hd3).
      destruct (TTS.serve stdin s2) as [[r3 s3] t3].
      cbn [fst snd] in Hserve, Hd3.
      destruct (serving_quiet _ Hserve) as (_ & Ha3 & Hl3).
      destruct r3 as [[]|e]; cbn [fst snd].
      * rewrite Hd3, Hd2. eexists. split; [reflexivity|]. split.
        -- count_events. rewrite Ha2, Ha3. reflexivity.
        -- intros _.
           exists (Stderr ("[tts-bridge] Temp directory: " ++ d)
                     :: t2 ++ Stdout ready
                     :: Stderr "[tts-bridge] Listening for requests..."
                     :: t3 ++ [Stderr "[tts-bridge] Cleaning up..."])%list.
           split.
           ++ cbn [app]. f_equal. rewrite <- !app_assoc. cbn [app].
              rewrite <- !app_assoc. reflexivity.
           ++ count_events. rewrite Hl2, Hl3. reflexivity.
      * eexists. split; [reflexivity|]. split; [|discriminate].
        count_events. rewrite Ha2, Ha3. reflexivity.
    + eexists. split; [reflexivity|]. split; [|discriminate].
      count_events. rewrite Ha2. reflexivity.
  - unfold run. rewrite vision_main_eq.
    pose proof (sat_vision_load_model (initial w)) as (Hlogs & _ & _).
    destruct (Vision.load_model (initial w)) as [[r2 s2] t2].
    cbn [fst snd] in Hlogs.
    destruct (logs_silent _ Hlogs) as (_ & _ & Ha2 & Hl2).
    destruct r2 as [[]|e].
    + pose proof (sat_vision_serve stdin s2) as (Hserve & _ & _).
      destruct (Vision.serve stdin s2) as [[r3 s3] t3].
      cbn [fst snd] in Hserve.
      destruct (serving_quiet _ Hserve) as (_ & Ha3 & Hl3).
      destruct r3 as [[]|e]; cbn [fst snd]; split; count_events;
        rewrite ?Ha2, ?Ha3, ?Hl2, ?Hl3; reflexivity.
    + cbn [fst snd]; split; count_events; rewrite ?Ha2, ?Hl2; reflexivity.
Qed.

Lemma C3_temp_dir_lifecycle_witness :
  snd (run (E := Example.env) TTS.main Example.healthy
         [Example.line_hello; Example.line_shutdown]) = Exit 0
  /\ exists d mid,
       fst (run (E := Example.env) TTS.main Example.healthy
              [Example.line_hello; Example.line_shutdown]) =
       (Mkdtemp d :: mid ++ [Rmtree d true])%list
       /\ count is_release mid = 0%nat.
Proof.
  split; [reflexivity|].
  destruct (C3_temp_dir_lifecycle (E := Example.env) Example.healthy
              [Example.line_hello; Example.line_shutdown])
    as ((d & rest & Ht & _ & Hexit) & _).
  destruct (Hexit eq_refl) as (mid & Hrest & Hmid).
  exists d, mid. split; [now rewrite Ht, Hrest | exact Hmid].
Defined.


Section Shutdown.
Context {E : Env}.

Lemma serve_of_cons b raw rest (s : store E) :
  serve_of b (raw :: rest) s =
  (let '(r, s1, t1) :=
     match b with
     | Tts => TTS.handle_line raw s
     | Vision_ => Vision.handle_line raw s
     end in
   match r with
   | Ok Continue =>
       let '(r2, s2, t2) := serve_of b rest s1 in (r2, s2, ReadLine raw :: (t1 ++ t2)%list)
   | Ok Break => (Ok tt, s1, ReadLine raw :: t1)
   | Raise e => (Raise e, s1, ReadLine raw :: t1)
   end).
Proof. destruct b; [apply tts_serve_cons | apply vision_serve_cons]. Qed.

Lemma handle_shutdown b raw (s : store E) :
  is_shutdown_line (E := E) raw ->
  match b with
  | Tts => TTS.handle_line raw s
  | Vision_ => Vision.handle_line raw s
  end = (Ok Break, s, [shutdown_log b]).
Proof.
  intros (Hne & d & Hj & Hty). apply String.eqb_neq in Hne.
  destruct b; [unfold TTS.handle_line | unfold Vision.handle_line];
    rewrite Hne, Hj, bind_py_get, Hty; reflexivity.
Qed.

Lemma serve_shutdown b raw rest (s : store E) :
  is_shutdown_line (E := E) raw ->
  serve_of b (raw :: rest) s = (Ok tt, s, [ReadLine raw; shutdown_log b]).
Proof.
  intros H. rewrite serve_of_cons, (handle_shutdown b raw s H). reflexivity.
Qed.

(** Nothing after a shutdown line matters. *)
Lemma serve_after_shutdown b raw pre rest (s : store E) :
  is_shutdown_line (E := E) raw ->
  serve_of b (pre ++ raw :: rest) s = serve_of b (pre ++ [raw]) s.
Proof.
  intros H. revert s. induction pre as [|a pre IH]; intros s; cbn [app].
  - now rewrite !serve_shutdown.
  - rewrite !serve_of_cons.
    destruct (match b with
              | Tts => TTS.handle_line a s
              | Vision_ => Vision.handle_line a s
              end) as [[[[|]|e] s1] t1]; try reflexivity.
    now rewrite IH.
Qed.

Lemma effects_app t1 t2 : effects (t1 ++ t2) = (effects t1 ++ effects t2)%list.
Proof. apply filter_app. Qed.

(** A shutdown line at the end leaves the loop as the end of input does. *)
Lemma serve_shutdown_as_eof b raw pre (s : store E) :
  is_shutdown_line (E := E) raw ->
  fst (serve_of b (pre ++ [raw]) s) = fst (serve_of b pre s)
  /\ effects (snd (serve_of b (pre ++ [raw]) s)) = effects (snd (serve_of b pre s)).
Proof.
  intros H. revert s. induction pre as [|a pre IH]; intros s; cbn [app].
  - rewrite serve_shutdown by assumption. destruct b; split; reflexivity.
  - rewrite !serve_of_cons.
    destruct (match b with
              | Tts => TTS.handle_line a s
              | Vision_ => Vision.handle_line a s
              end) as [[[[|]|e] s1] t1]; try (split; reflexivity).
    destruct (IH s1) as [Hf He].
    destruct (serve_of b (pre ++ [raw]) s1) as [[r2 s2] t2].
    destruct (serve_of b pre s1) as [[r3 s3] t3].
    cbn [fst snd] in *. split.
    + congruence.
    + change (ReadLine a :: ?x) with ([ReadLine a] ++ x)%list.
      rewrite !effects_app, He. reflexivity.
Qed.

(** The loop takes its lines from the front of stdin, in order. *)
Lemma serve_reads_prefix b stdin (s : store E) :
  exists k, lines_read (snd (serve_of b stdin s)) = firstn k stdin.
Proof.
  revert s. induction stdin as [|a rest IH]; intros s.
  - exists 0%nat. destruct b; reflexivity.
  - rewrite serve_of_cons.
    assert (Hq : Forall handling_event
                   (snd (match b with
                         | Tts => TTS.handle_line a s
                         | Vision_ => Vision.handle_line a s
                         end))).
    { destruct b; [apply sat_tts_handle_line | apply sat_vision_handle_line]. }
    destruct (match b with
              | Tts => TTS.handle_line a s
              | Vision_ => Vision.handle_line a s
              end) as [[r s1] t1]. cbn [snd] in Hq.
    assert (Hl : lines_read t1 = []).
    { clear -Hq. induction Hq as [|ev t Hev _ IHq]; [reflexivity|].
      destruct ev; cbn in Hev; try contradiction; exact IHq. }
    destruct r as [[|]|e].
    + destruct (IH s1) as [k Hk].
      destruct (serve_of b rest s1) as [[r2 s2] t2]. cbn [snd] in *.
      exists (S k). cbn. now rewrite lines_read_app, Hl, Hk.
    + exists 1%nat. cbn. now rewrite Hl.
    + exists 1%nat. cbn. now rewrite Hl.
Qed.
End Shutdown.


(** C9.  When a line whose decoded type is shutdown is read (either bridge),
    the loop ends with no response for it and without reading any line after
    it; the end of stdin ends the loop the same way: the responses, the model
    calls, the use of the temporary directory and the exit are those of the
    run whose stdin stops just before the shutdown line. *)
Theorem C9_shutdown_and_end_of_input {E : Env} (b : bridge) (w : world E)
    (raw : string) (pre rest : list string) :
  is_shutdown_line (E := E) raw ->
  (forall s : store E,
      serve_of b (raw :: rest) s = (Ok tt, s, [ReadLine raw; shutdown_log b]))
  /\ (forall s : store E, serve_of b [] s = (Ok tt, s, []))
  /\ run (main_of b) w (pre ++ raw :: rest) = run (main_of b) w (pre ++ [raw])
  /\ (exists k,
        lines_read (fst (run (main_of b) w (pre ++ raw :: rest))) = firstn k (pre ++ [raw]))
  /\ effects (fst (run (main_of b) w (pre ++ [raw]))) = effects (fst (run (main_of b) w pre))
  /\ snd (run (main_of b) w (pre ++ [raw])) = snd (run (main_of b) w pre).
Proof.
  intros Hsd.
  destruct (run_eq b w) as (head & tail_ok & _ & _ & Hlh & _ & _ & Hlt & _ & Hrun).
  split; [intros s; now apply serve_shutdown|].
  split; [intros s; destruct b; reflexivity|].
  assert (Hsame : run (main_of b) w (pre ++ raw :: rest) = run (main_of b) w (pre ++ [raw])).
  { rewrite !Hrun. destruct (loading b w) as [[[[]|e] s2] t2]; [|reflexivity].
    now rewrite serve_after_shutdown. }
  split; [exact Hsame|]. rewrite Hsame, !Hrun.
  destruct (loading b w) as [[r2 s2] t2] eqn:Hload.
  destruct (loading_logs _ _ _ _ _ Hload) as [Hlogs _].
  destruct (logs_silent _ Hlogs) as (_ & Hl2 & _).
  destruct r2 as [[]|e].
  - destruct (serve_shutdown_as_eof b raw pre s2 Hsd) as [Hf He].
    destruct (serve_reads_prefix b (pre ++ [raw]) s2) as [k Hk].
    destruct (serve_of b (pre ++ [raw]) s2) as [[r3 s3] t3].
    destruct (serve_of b pre s2) as [[r4 s4] t4].
    cbn [fst snd] in Hf, He, Hk. inversion Hf; subst r4 s4.
    destruct r3 as [[]|e3]; cbn [fst snd].
    + split; [|split; [|reflexivity]].
      * exists k. rewrite !lines_read_app, Hlh, Hl2. cbn.
        now rewrite lines_read_app, Hlt, app_nil_r.
      * rewrite !effects_app.
        change (Stdout ready :: ?x) with ([Stdout ready] ++ x)%list.
        rewrite !effects_app.
        match goal with
        | |- context [Stderr ?m :: (t3 ++ tail_ok)%list] =>
            change (Stderr m :: (t3 ++ tail_ok)%list)
              with ([Stderr m] ++ (t3 ++ tail_ok))%list;
            change (Stderr m :: (t4 ++ tail_ok)%list)
              with ([Stderr m] ++ (t4 ++ tail_ok))%list
        end.
        rewrite !effects_app, He. reflexivity.
    + split; [|split; [|reflexivity]].
      * exists k. rewrite !lines_read_app, Hlh, Hl2. cbn. exact Hk.
      * rewrite !effects_app.
        change (Stdout ready :: ?x) with ([Stdout ready] ++ x)%list.
        rewrite !effects_app.
        match goal with
        | |- context [Stderr ?m :: t3] =>
            change (Stderr m :: t3) with ([Stderr m] ++ t3)%list;
            change (Stderr m :: t4) with ([Stderr m] ++ t4)%list
        end.
        rewrite !effects_app, He. reflexivity.
  - cbn [fst snd]. split; [|split; reflexivity].
    exists 0%nat. rewrite !lines_read_app, Hlh, Hl2. reflexivity.
Qed.

Lemma C9_shutdown_and_end_of_input_witness :
  is_shutdown_line (E := Example.env) Example.line_shutdown
  /\ run (E := Example.env) (main_of Tts) Example.healthy
       [Example.line_hello; Example.line_shutdown; Example.line_oom] =
     run (E := Example.env) (main_of Tts) Example.healthy
       [Example.line_hello; Example.line_shutdown]
  /\ snd (run (E := Example.env) (main_of Tts) Example.healthy
            [Example.line_hello; Example.line_shutdown]) =
     snd (run (E := Example.env) (main_of Tts) Example.healthy [Example.line_hello]).
Proof.
  assert (H : is_shutdown_line (E := Example.env) Example.line_shutdown).
  { split; [discriminate|]. exists [("type", PStr "shutdown")]. split; reflexivity. }
  split; [exact H|].
  destruct (C9_shutdown_and_end_of_input (E := Example.env) Tts Example.healthy
              Example.line_shutdown [Example.line_hello] [Example.line_oom] H)
    as (_ & _ & Hsame & _ & _ & Hexit).
  split; [exact Hsame | exact Hexit].
Defined.

Section Validation.
Context {E : Env}.

Lemma try_except_emit_first {A} ev (k : unit -> M E A) handler (s : store E) :
  exists r s1 t1, try_except (bind (emit ev) k) handler s = (r, s1, ev :: t1).
Proof.
  unfold try_except. rewrite bind_emit.
  destruct (k tt s) as [[[a|e] s2] t2]; [eauto|].
  destruct (handler e s2) as [[r s3] t3]. cbn. eauto.
Qed.

(** Once validation lets a request through, the model is the first thing called. *)
Lemma tts_try_calls_model req_id text voice ex cfg temp (s : store E) :
  exists r s1 t1,
    try_except (TTS.synthesize req_id text voice ex cfg temp) (TTS.classify req_id) s =
    (r, s1, ModelCall [text; voice; ex; cfg; temp] :: t1).
Proof. unfold TTS.synthesize. apply try_except_emit_first. Qed.

Lemma vision_try_calls_model req_id path pos idx page (s : store E) :
  exists r s1 t1,
    try_except (Vision.describe req_id path pos idx page) (Vision.classify req_id) s =
    (r, s1, ModelCall [path] :: t1).
Proof. unfold Vision.describe. apply try_except_emit_first. Qed.
End Validation.

(** C5, as stated, fails: a generate request that supplies the empty string
    as its voice-sample path, which names no file, is not refused with
    [VOICE_NOT_FOUND]; the model is called and an audio response comes back. *)
Lemma C5_empty_voice_sample_reaches_the_model :
  field Example.request_empty_voice "voice_sample" PNone = PStr EmptyString
  /\ path_exists Example.env Example.healthy EmptyString = false
  /\ stated_generate_verdict (path_exists Example.env Example.healthy)
       "hi" (Some EmptyString) = Reject "VOICE_NOT_FOUND" "Voice sample not found: "
  /\ TTS.generate (E := Example.env) (PDict Example.request_empty_voice)
       Example.tts_serving =
     (Ok (PDict [("type", PStr "audio"); ("id", PStr "r6");
                 ("path", PStr "/tmp/actual_reader_tts_k3x9/tts_0001.wav");
                 ("duration", PFloat float_0_5)]),
      mk_store (E := Example.env) Example.healthy (Some "/tmp/actual_reader_tts_k3x9") 1,
      [ModelCall [PStr "hi"; PStr EmptyString; PFloat float_0_5; PFloat float_0_5;
                  PFloat float_0_8]])
  /\ ~ (exists message s1 t1,
          TTS.generate (E := Example.env) (PDict Example.request_empty_voice)
            Example.tts_serving =
          (Ok (error_response (PStr "r6") "VOICE_NOT_FOUND" message), s1, t1)).
Proof.
  repeat (split; [reflexivity|]).
  intros (message & s1 & t1 & H). vm_compute in H. discriminate H.
Qed.

(** C5, amended.  For every generate request whose text, when present, is a
    string, whose voice sample, when present, is a string or null, and whose
    options, when present, are an object, validation applies its rules in
    order and the first failing rule wins: an empty text gives [INVALID_TEXT]
    "Text is empty"; a text of more than 10,000 characters gives
    [INVALID_TEXT] "Text too long (max 10000 chars)", and one of exactly
    10,000 passes; a non-empty voice-sample path that does not exist gives
    [VOICE_NOT_FOUND]; an empty voice-sample string counts as no path; a
    request that passes goes on to the model call.  An error response
    changes nothing and emits nothing. *)
Theorem C5_generate_validation {E : Env} (d : list (string * pyval)) (s : store E)
    (t : string) (vp : option string) (o : list (string * pyval)) :
  field d "text" (PStr EmptyString) = PStr t ->
  field d "voice_sample" PNone = opt_str vp ->
  field d "options" (PDict []) = PDict o ->
  TTS.generate (PDict d) s =
    match generate_verdict (path_exists E (st_world s)) t vp with
    | Reject code message => (Ok (error_response (req_id_of s d) code message), s, [])
    | Invoke =>
        try_except
          (TTS.synthesize (req_id_of s d) (PStr t) (opt_str vp)
             (field o "exaggeration" (PFloat float_0_5))
             (field o "cfg_weight" (PFloat float_0_5))
             (field o "temperature" (PFloat float_0_8)))
          (TTS.classify (req_id_of s d)) s
    end
  /\ (generate_verdict (path_exists E (st_world s)) t vp = Invoke ->
      exists r s1 t1,
        TTS.generate (PDict d) s =
        (r, s1,
         ModelCall [PStr t; opt_str vp;
                    field o "exaggeration" (PFloat float_0_5);
                    field o "cfg_weight" (PFloat float_0_5);
                    field o "temperature" (PFloat float_0_8)] :: t1))
  /\ (t = EmptyString ->
      generate_verdict (path_exists E (st_world s)) t vp =
      Reject "INVALID_TEXT" "Text is empty")
  /\ (10000 < Z.of_nat (String.length t) ->
      generate_verdict (path_exists E (st_world s)) t vp =
      Reject "INVALID_TEXT" "Text too long (max 10000 chars)")
  /\ (0 < Z.of_nat (String.length t) <= 10000 ->
      forall p, vp = Some p -> p <> EmptyString ->
                path_exists E (st_world s) p = false ->
      generate_verdict (path_exists E (st_world s)) t vp =
      Reject "VOICE_NOT_FOUND" ("Voice sample not found: " ++ p))
  /\ (0 < Z.of_nat (String.length t) <= 10000 ->
      vp = None \/ vp = Some EmptyString
      \/ (exists p, vp = Some p /\ path_exists E (st_world s) p = true) ->
      generate_verdict (path_exists E (st_world s)) t vp = Invoke).
Proof.
  intros Ht Hv Ho. pose proof (generate_typed d s t vp o Ht Hv Ho) as Hgen.
  split; [exact Hgen|]. split.
  { intros Hin. rewrite Hgen, Hin. apply tts_try_calls_model. }
  unfold generate_verdict. split; [intros ->; reflexivity|].
  split.
  { intros Hlong. rewrite length_pos_nonempty by lia.
    apply Z.ltb_lt in Hlong. now rewrite Hlong. }
  split.
  - intros [Hpos Hle] p -> Hp Hex. rewrite length_pos_nonempty by lia.
    apply Z.ltb_ge in Hle. rewrite Hle. apply String.eqb_neq in Hp.
    now rewrite Hp, Hex.
  - intros [Hpos Hle] Hvp. rewrite length_pos_nonempty by lia.
    apply Z.ltb_ge in Hle. rewrite Hle.
    destruct Hvp as [->|[->|(p & -> & Hex)]]; try reflexivity.
    rewrite Hex. now rewrite orb_true_r.
Qed.

Lemma C5_generate_validation_witness :
  field Example.request_missing_voice "text" (PStr EmptyString) = PStr "hi"
  /\ field Example.request_missing_voice "voice_sample" PNone = opt_str (Some "/missing.wav")
  /\ field Example.request_missing_voice "options" (PDict []) = PDict []
  /\ TTS.generate (E := Example.env) (PDict Example.request_missing_voice)
       Example.tts_serving =
     (Ok (error_response (PStr "r7") "VOICE_NOT_FOUND"
            "Voice sample not found: /missing.wav"),
      Example.tts_serving, []).
Proof.
  repeat (split; [reflexivity|]).
  destruct (C5_generate_validation (E := Example.env) Example.request_missing_voice
              Example.tts_serving "hi" (Some "/missing.wav") []
              eq_refl eq_refl eq_refl) as (Hgen & _).
  exact Hgen.
Defined.

(** C6, as stated, fails: a caption request that supplies the empty string
    as its image path, which names no file, is not answered with
    [IMAGE_NOT_FOUND] but with [INVALID_REQUEST], as if the path were missing. *)
Lemma C6_empty_image_path_counts_as_missing :
  field Example.request_empty_image "image_path" PNone = PStr EmptyString
  /\ path_exists Example.env Example.healthy EmptyString = false
  /\ stated_caption_verdict (path_exists Example.env Example.healthy)
       (Some EmptyString) = Reject "IMAGE_NOT_FOUND" "Image not found: "
  /\ Vision.caption (E := Example.env) (PDict Example.request_empty_image)
       Example.vision_serving =
     (Ok (error_response (PStr "r8") "INVALID_REQUEST" "image_path is required"),
      Example.vision_serving, [])
  /\ ~ (exists message s1 t1,
          Vision.caption (E := Example.env) (PDict Example.request_empty_image)
            Example.vision_serving =
          (Ok (error_response (PStr "r8") "IMAGE_NOT_FOUND" message), s1, t1)).
Proof.
  repeat (split; [reflexivity|]).
  intros (message & s1 & t1 & H). vm_compute in H. discriminate H.
Qed.

(** C6, amended.  For every caption request whose image path, when present,
    is a string or null and whose context, when present, is an object: a
    missing, null or empty image path gives [INVALID_REQUEST] "image_path is
    required", whatever the filesystem holds; a non-empty image path that
    does not exist gives [IMAGE_NOT_FOUND] "Image not found: <path>"; and a
    request that passes goes on to the model call with the position and the
    image index of its context, which are ["middle"] and [0] when absent. *)
Theorem C6_caption_validation {E : Env} (d : list (string * pyval)) (s : store E)
    (ip : option string) (c : list (string * pyval)) :
  field d "image_path" PNone = opt_str ip ->
  field d "context" (PDict []) = PDict c ->
  Vision.caption (PDict d) s =
    match caption_verdict (path_exists E (st_world s)) ip with
    | Reject code message => (Ok (error_response (req_id_of s d) code message), s, [])
    | Invoke =>
        try_except
          (Vision.describe (req_id_of s d) (opt_str ip)
             (field c "position" (PStr "middle"))
             (field c "image_index" (PInt 0))
             (field c "page_number" PNone))
          (Vision.classify (req_id_of s d)) s
    end
  /\ (ip = None \/ ip = Some EmptyString ->
      forall file_exists,
        caption_verdict file_exists ip = Reject "INVALID_REQUEST" "image_path is required")
  /\ (forall p, ip = Some p -> p <> EmptyString ->
                path_exists E (st_world s) p = false ->
      caption_verdict (path_exists E (st_world s)) ip =
      Reject "IMAGE_NOT_FOUND" ("Image not found: " ++ p))
  /\ (forall p, ip = Some p -> p <> EmptyString ->
                path_exists E (st_world s) p = true ->
      caption_verdict (path_exists E (st_world s)) ip = Invoke)
  /\ (assoc "position" c = None -> field c "position" (PStr "middle") = PStr "middle")
  /\ (assoc "image_index" c = None -> field c "image_index" (PInt 0) = PInt 0)
  /\ (assoc "context" d = None -> c = []).
Proof.
  intros Hp Hc. split; [now apply caption_typed|].
  unfold caption_verdict. split.
  { intros [->| ->] f; reflexivity. }
  split.
  { intros p -> Hne Hex. apply String.eqb_neq in Hne. now rewrite Hne, Hex. }
  split.
  { intros p -> Hne Hex. apply String.eqb_neq in Hne. now rewrite Hne, Hex. }
  unfold field in *.
  split; [intros ->; reflexivity|].
  split; [intros ->; reflexivity|].
  intros Hnone. rewrite Hnone in Hc. now inversion Hc.
Qed.

Lemma C6_caption_validation_witness :
  field Example.request_missing_image "image_path" PNone = opt_str (Some "/missing.png")
  /\ field Example.request_missing_image "context" (PDict []) = PDict []
  /\ Vision.caption (E := Example.env) (PDict Example.request_missing_image)
       Example.vision_serving =
     (Ok (error_response (PStr "r2") "IMAGE_NOT_FOUND" "Image not found: /missing.png"),
      Example.vision_serving, []).
Proof.
  repeat (split; [reflexivity|]).
  destruct (C6_caption_validation (E := Example.env) Example.request_missing_image
              Example.vision_serving (Some "/missing.png") [] eq_refl eq_refl)
    as (Hcap & _).
  exact Hcap.
Defined.

(** C4, as stated, fails: a model failure that is not a [RuntimeError] is
    answered with [ENGINE_ERROR] even though its message says "out of memory". *)
Lemma C4_memory_error_is_an_engine_error :
  is_RuntimeError (mk_exn (OtherError "MemoryError") "Out of memory") = false
  /\ model_generate Example.env Example.healthy (PStr "memerr") None
       (PFloat float_0_5) (PFloat float_0_5) (PFloat float_0_8) =
     (Raise (mk_exn (OtherError "MemoryError") "Out of memory"), Example.healthy)
  /\ stated_failure_code (mk_exn (OtherError "MemoryError") "Out of memory") =
     "OUT_OF_MEMORY"
  /\ TTS.generate (E := Example.env) (PDict Example.request_memory_error)
       Example.tts_serving =
     (Ok (error_response (PStr "r5") "ENGINE_ERROR" "Out of memory"),
      Example.tts_serving,
      [ModelCall [PStr "memerr"; PNone; PFloat float_0_5; PFloat float_0_5;
                  PFloat float_0_8]])
  /\ stated_failure_code (mk_exn (OtherError "MemoryError") "out of memory") =
     "OUT_OF_MEMORY"
  /\ Vision.caption (E := Example.env) (PDict Example.request_cat_memory_error)
       Example.vision_serving =
     (Ok (error_response (PStr "r11") "ENGINE_ERROR" "out of memory"),
      Example.vision_serving, [ModelCall [PStr "/img/big.png"]])
  /\ ~ (exists message s1 t1,
          TTS.generate (E := Example.env) (PDict Example.request_memory_error)
            Example.tts_serving =
          (Ok (error_response (PStr "r5") "OUT_OF_MEMORY" message), s1, t1)).
Proof.
  repeat (split; [reflexivity|]).
  intros (message & s1 & t1 & H). vm_compute in H. discriminate H.
Qed.

(** C4, amended.  For every failure of the model while a request is handled
    (either bridge), the error response has code [OUT_OF_MEMORY] when the
    failure is a [RuntimeError] whose message contains "out of memory" in
    any letter case, and [ENGINE_ERROR] otherwise, whatever the message of a
    failure of another kind says; in both cases the response carries the
    message of the failure and the loop goes on to the next line.  The last
    two parts state the classification for the [try] block of each handler,
    whatever the request. *)
Theorem C4_model_failure_classification {E : Env} :
  (forall raw rest d (s : store E) t vp o e s1 t1,
      strip raw <> EmptyString ->
      json_loads E (strip raw) = Ok (PDict d) ->
      field d "type" PNone = PStr "generate" ->
      field d "text" (PStr EmptyString) = PStr t ->
      field d "voice_sample" PNone = opt_str vp ->
      field d "options" (PDict []) = PDict o ->
      generate_verdict (path_exists E (st_world s)) t vp = Invoke ->
      TTS.synthesize (req_id_of s d) (PStr t) (opt_str vp)
        (field o "exaggeration" (PFloat float_0_5))
        (field o "cfg_weight" (PFloat float_0_5))
        (field o "temperature" (PFloat float_0_8)) s = (Raise e, s1, t1) ->
      TTS.serve (raw :: rest) s =
      (let '(r, s2, t2) := TTS.serve rest s1 in
       (r, s2,
        ReadLine raw
          :: t1 ++ Stdout (error_response (req_id_of s d) (failure_code e) (exn_msg e))
          :: t2)%list))
  /\ (forall raw rest d (s : store E) ip c e s1 t1,
      strip raw <> EmptyString ->
      json_loads E (strip raw) = Ok (PDict d) ->
      field d "type" PNone = PStr "caption" ->
      field d "image_path" PNone = opt_str ip ->
      field d "context" (PDict []) = PDict c ->
      caption_verdict (path_exists E (st_world s)) ip = Invoke ->
      Vision.describe (req_id_of s d) (opt_str ip)
        (field c "position" (PStr "middle"))
        (field c "image_index" (PInt 0))
        (field c "page_number" PNone) s = (Raise e, s1, t1) ->
      Vision.serve (raw :: rest) s =
      (let '(r, s2, t2) := Vision.serve rest s1 in
       (r, s2,
        ReadLine raw
          :: t1 ++ Stdout (error_response (req_id_of s d) (failure_code e) (exn_msg e))
          :: t2)%list))
  /\ (forall e,
      failure_code e = "OUT_OF_MEMORY" <->
      is_RuntimeError e = true /\ contains "out of memory" (lower (exn_msg e)) = true)
  /\ (forall e, failure_code e = "OUT_OF_MEMORY" \/ failure_code e = "ENGINE_ERROR")
  /\ (forall req_id text voice_sample exaggeration cfg_weight temperature
             (s : store E) e s1 t1,
      TTS.synthesize req_id text voice_sample exaggeration cfg_weight temperature s =
        (Raise e, s1, t1) ->
      try_except
        (TTS.synthesize req_id text voice_sample exaggeration cfg_weight temperature)
        (TTS.classify req_id) s =
      (Ok (error_response req_id (failure_code e) (exn_msg e)), s1, t1))
  /\ (forall req_id image_path position image_index page_number (s : store E) e s1 t1,
      Vision.describe req_id image_path position image_index page_number s =
        (Raise e, s1, t1) ->
      try_except
        (Vision.describe req_id image_path position image_index page_number)
        (Vision.classify req_id) s =
      (Ok (error_response req_id (failure_code e) (exn_msg e)), s1, t1)).
Proof.
  split; [|split; [|split; [|split; [|split]]]];
    [| | | | intros; now apply tts_try_Raise | intros; now apply vision_try_Raise].
  - intros raw rest d s t vp o e s1 t1 Hne Hj Hty Ht Hv Ho Hin Hfail.
    rewrite tts_serve_cons, (tts_handle_generate raw d s Hne Hj Hty).
    rewrite (generate_typed d s t vp o Ht Hv Ho), Hin.
    rewrite (tts_try_Raise _ _ _ _ _ _ _ _ _ _ Hfail).
    destruct (TTS.serve rest s1) as [[r s2] t2]. now rewrite <- app_assoc.
  - intros raw rest d s ip c e s1 t1 Hne Hj Hty Hp Hc Hin Hfail.
    rewrite vision_serve_cons, (vision_handle_caption raw d s Hne Hj Hty).
    rewrite (caption_typed d s ip c Hp Hc), Hin.
    rewrite (vision_try_Raise _ _ _ _ _ _ _ _ _ Hfail).
    destruct (Vision.serve rest s1) as [[r s2] t2]. now rewrite <- app_assoc.
  - intros e. unfold failure_code.
    destruct (is_RuntimeError e), (contains _ _); cbn; split;
      try discriminate; try tauto; intros [? ?]; discriminate.
  - intros e. unfold failure_code.
    destruct (is_RuntimeError e && contains _ _); [now left | now right].
Qed.

Lemma C4_model_failure_classification_witness :
  TTS.synthesize (E := Example.env) (PStr "r4") (PStr "oom") PNone
    (PFloat float_0_5) (PFloat float_0_5) (PFloat float_0_8) Example.tts_serving =
    (Raise (mk_exn RuntimeError "CUDA out of memory. Tried to allocate 2.00 GiB"),
     Example.tts_serving,
     [ModelCall [PStr "oom"; PNone; PFloat float_0_5; PFloat float_0_5; PFloat float_0_8]])
  /\ TTS.serve (E := Example.env) [Example.line_oom; Example.line_shutdown]
       Example.tts_serving =
     (Ok tt, Example.tts_serving,
      [ReadLine Example.line_oom;
       ModelCall [PStr "oom"; PNone; PFloat float_0_5; PFloat float_0_5; PFloat float_0_8];
       Stdout (error_response (PStr "r4") "OUT_OF_MEMORY"
                 "CUDA out of memory. Tried to allocate 2.00 GiB");
       ReadLine Example.line_shutdown;
       Stderr "[tts-bridge] Shutdown requested."]).
Proof.
  split; [reflexivity|].
  destruct (C4_model_failure_classification (E := Example.env)) as (Htts & _).
  rewrite (Htts Example.line_oom [Example.line_shutdown] Example.request_oom
             Example.tts_serving "oom" None []
             (mk_exn RuntimeError "CUDA out of memory. Tried to allocate 2.00 GiB")
             Example.tts_serving
             [ModelCall [PStr "oom"; PNone; PFloat float_0_5; PFloat float_0_5;
                         PFloat float_0_8]]);
    try reflexivity.
  discriminate.
Defined.

Section Captions.
Context {E : Env}.

Lemma describe_position_spec p (s : store E) :
  Vision.describe_position (PStr p) s = (Ok (spec_place p), s, []).
Proof.
  unfold Vision.describe_position, spec_place, position_map. cbn [lookup].
  rewrite !(String.eqb_sym _ p).
  repeat match goal with
         | |- context [(p =? ?k)%string] => destruct (p =? k)%string; [reflexivity|]
         end.
  reflexivity.
Qed.

Lemma ordinal_spec i (s : store E) :
  0 <= i ->
  (if i <? Z.of_nat (List.length ordinals) then Vision.ordinals_item (PInt i)
   else bind (Vision.plus_one (PInt i)) (fun next => ret ("Image " ++ py_str E next))) s =
  (Ok (spec_ordinal i), s, []).
Proof.
  intros Hi. unfold spec_ordinal. change (Z.of_nat (List.length ordinals)) with 10.
  destruct (i <? 10) eqn:Hlt.
  - apply Z.ltb_lt in Hlt. assert (Hle : (i <=? 9) = true) by (apply Z.leb_le; lia).
    rewrite Hle. unfold Vision.ordinals_item, Vision.ordinals_at.
    change (Z.of_nat (List.length ordinals)) with 10.
    assert (Hneg : (i <? 0) = false) by (apply Z.ltb_ge; lia). rewrite Hneg.
    assert (Hin : ((0 <=? i) && (i <? 10)) = true).
    { apply andb_true_intro. split; [apply Z.leb_le | apply Z.ltb_lt]; lia. }
    rewrite Hin. reflexivity.
  - apply Z.ltb_ge in Hlt. assert (Hle : (i <=? 9) = false) by (apply Z.leb_gt; lia).
    rewrite Hle. reflexivity.
Qed.

(** [format_position] on a position string, an index from zero and a page
    number that is an integer or [None] is the prefix the specification words. *)
Lemma format_position_spec p i pg (s : store E) :
  0 <= i ->
  Vision.format_position (PStr p) (PInt i) (opt_int pg) s = (Ok (spec_prefix p i pg), s, []).
Proof.
  intros Hi. unfold Vision.format_position.
  rewrite (bind_pure_Ok _ _ _ _ (describe_position_spec p s)).
  cbn [Vision.below_ordinals]. rewrite bind_ret.
  rewrite (bind_pure_Ok _ _ _ _ (ordinal_spec i s Hi)).
  unfold spec_prefix. destruct pg as [[|n|n]|]; reflexivity.
Qed.

(** [format_position] only computes: it reads no global and emits nothing. *)
Lemma format_position_pure position image_index page_number :
  exists r, forall s : store E,
    Vision.format_position position image_index page_number s = (r, s, []).
Proof.
  unfold Vision.format_position, Vision.describe_position, Vision.below_ordinals,
    Vision.ordinals_item, Vision.ordinals_at, Vision.plus_one.
  destruct (truthy page_number);
    destruct position, image_index; cbn;
    repeat match goal with
           | |- context [if ?b then _ else _] => destruct b; cbn
           end;
    eexists; intros st; reflexivity.
Qed.

(** A model description and a prefix make the caption of the response. *)
Lemma describe_success req_id path pos idx page (s : store E) description w1 prefix :
  describe_image E (st_world s) path = (Ok description, w1) ->
  Vision.format_position pos idx page s = (Ok prefix, s, []) ->
  try_except (Vision.describe req_id path pos idx page) (Vision.classify req_id) s =
  (Ok (PDict [("type", PStr "caption"); ("id", req_id);
              ("caption", PStr (prefix ++ ": " ++ description))]),
   mk_store w1 (temp_dir s) (request_counter s + 1),
   [ModelCall [path]]).
Proof.
  intros Hdesc Hfmt.
  destruct (format_position_pure pos idx page) as [r Hpure].
  assert (Hr : r = Ok prefix) by (rewrite Hpure in Hfmt; now inversion Hfmt).
  subst r.
  unfold try_except, Vision.describe. rewrite bind_emit.
  unfold bind at 1. unfold call at 1. rewrite Hdesc.
  rewrite (bind_pure_Ok _ _ _ _ (Hpure _)). reflexivity.
Qed.
End Captions.

(** C10.  For every caption request that succeeds, the caption is
    "<prefix>: <description>", with the description of the model and the
    prefix of [format_position] (last part, for context fields of any type).
    For a position string, an index from zero and a page number that is an
    integer or absent, the prefix names the image by the words First to
    Tenth for the indices 0 to 9 and by "Image <index + 1>" for larger ones,
    names a position outside the table as "on the page", and leaves "on page
    N" out when the page number is absent or 0. *)
Theorem C10_caption_text {E : Env} (d : list (string * pyval)) (s : store E)
    (path : string) (c : list (string * pyval)) (p : string) (i : Z)
    (pg : option Z) (description : string) (w1 : world E) :
  field d "image_path" PNone = PStr path ->
  path <> EmptyString ->
  path_exists E (st_world s) path = true ->
  field d "context" (PDict []) = PDict c ->
  field c "position" (PStr "middle") = PStr p ->
  field c "image_index" (PInt 0) = PInt i ->
  0 <= i ->
  field c "page_number" PNone = opt_int pg ->
  describe_image E (st_world s) (PStr path) = (Ok description, w1) ->
  Vision.caption (PDict d) s =
    (Ok (PDict [("type", PStr "caption"); ("id", req_id_of s d);
                ("caption", PStr (spec_prefix p i pg ++ ": " ++ description))]),
     mk_store w1 (temp_dir s) (request_counter s + 1),
     [ModelCall [PStr path]])
  /\ (i <= 9 -> spec_ordinal i = nth (Z.to_nat i) ordinals EmptyString)
  /\ (10 <= i -> spec_ordinal i = "Image " ++ decimal (i + 1))
  /\ (lookup p position_map = None -> spec_place p = "on the page")
  /\ (pg = None \/ pg = Some 0 ->
      spec_prefix p i pg = spec_ordinal i ++ " image, " ++ spec_place p)
  /\ (forall n, pg = Some n -> n <> 0 ->
      spec_prefix p i pg =
      spec_ordinal i ++ " image on page " ++ decimal n ++ ", " ++ spec_place p)
  /\ (forall req_id image_path position image_index page_number (s' : store E)
             description' w' prefix,
      describe_image E (st_world s') image_path = (Ok description', w') ->
      Vision.format_position position image_index page_number s' = (Ok prefix, s', []) ->
      try_except (Vision.describe req_id image_path position image_index page_number)
        (Vision.classify req_id) s' =
      (Ok (PDict [("type", PStr "caption"); ("id", req_id);
                  ("caption", PStr (prefix ++ ": " ++ description'))]),
       mk_store w' (temp_dir s') (request_counter s' + 1),
       [ModelCall [image_path]])).
Proof.
  intros Hpath Hne Hex Hc Hp Hi Hpos Hpg Hdesc. split.
  { rewrite (caption_typed d s (Some path) c Hpath Hc).
    unfold caption_verdict. apply String.eqb_neq in Hne. rewrite Hne, Hex.
    rewrite Hp, Hi, Hpg. cbn [opt_str].
    apply describe_success; [exact Hdesc | now apply format_position_spec]. }
  split.
  { intros Hle. unfold spec_ordinal. apply Z.leb_le in Hle. now rewrite Hle. }
  split.
  { intros Hge. unfold spec_ordinal.
    assert (Hle : (i <=? 9) = false) by (apply Z.leb_gt; lia). now rewrite Hle. }
  split.
  { intros Hl. pose proof (describe_position_spec p s) as Hd.
    unfold Vision.describe_position in Hd. rewrite Hl in Hd. now inversion Hd. }
  split.
  { intros [->| ->]; reflexivity. }
  split.
  { intros n -> Hn. destruct n; [contradiction| |]; reflexivity. }
  intros. now apply describe_success.
Qed.

Lemma C10_caption_text_witness :
  field Example.request_cat "image_path" PNone = PStr "/img/cat.png"
  /\ path_exists Example.env Example.healthy "/img/cat.png" = true
  /\ field Example.context_cat "image_index" (PInt 0) = PInt 11
  /\ field Example.context_cat "page_number" PNone = opt_int (Some 0)
  /\ Vision.caption (E := Example.env) (PDict Example.request_cat) Example.vision_serving =
     (Ok (PDict [("type", PStr "caption"); ("id", PStr "r10");
                 ("caption", PStr "Image 12 image, on the page: A photo of a cat.")]),
      mk_store (E := Example.env) Example.healthy None 1,
      [ModelCall [PStr "/img/cat.png"]]).
Proof.
  repeat (split; [reflexivity|]).
  assert (Hne : "/img/cat.png" <> EmptyString) by discriminate.
  assert (Hpos : 0 <= 11) by discriminate.
  exact (proj1 (C10_caption_text (E := Example.env) Example.request_cat
                  Example.vision_serving "/img/cat.png" Example.context_cat
                  "margin" 11 (Some 0) "A photo of a cat." Example.healthy
                  eq_refl Hne eq_refl eq_refl eq_refl eq_refl Hpos eq_refl eq_refl)).
Defined.

Section Identifiers.
Context {E : Env}.

Local Abbreviation satisfies := (@satisfies E _).

Ltac sat_id := sat; try (eexists; split; reflexivity).

Lemma tts_synthesize_id v text voice ex cfg temp :
  satisfies (TTS.synthesize v text voice ex cfg temp) (fun _ => True) (has_id v).
Proof. unfold TTS.synthesize. sat_id. Qed.

Lemma tts_classify_id v e :
  satisfies (TTS.classify v e) (fun _ => True) (has_id v).
Proof. unfold TTS.classify. sat_id. Qed.

Lemma vision_describe_id v path pos idx page :
  satisfies (Vision.describe v path pos idx page) (fun _ => True) (has_id v).
Proof.
  unfold Vision.describe.
  eapply sat_bind with (Q1 := fun _ => True); [sat|intros _ _].
  eapply sat_bind with (Q1 := fun _ => True); [sat|intros description _].
  eapply sat_bind with (Q1 := fun _ => True);
    [apply sat_vision_format_position|intros prefix _].
  sat_id.
Qed.

Lemma vision_classify_id v e :
  satisfies (Vision.classify v e) (fun _ => True) (has_id v).
Proof. unfold Vision.classify. sat_id. Qed.

(** Every response the handler [generate] returns for a request that
    supplies an id carries that id. *)
Lemma generate_echoes_id d v (s : store E) response s1 t1 :
  assoc "id" d = Some v ->
  TTS.generate (PDict d) s = (Ok response, s1, t1) ->
  has_id v response.
Proof.
  intros Hid Hgen.
  assert (Hsat : satisfies (TTS.generate (PDict d)) (fun _ => True) (has_id v)).
  { intros s'. unfold TTS.generate. rewrite bind_get_store, bind_py_get.
    replace (field d "id" _) with v by (unfold field; now rewrite Hid).
    revert s'.
    match goal with
    | |- forall s0, Forall _ (snd (@?m s0)) /\ _ =>
        match eval cbv beta in (m s) with
        | ?m' s => change (satisfies m' (fun _ => True) (has_id v))
        end
    end.
    sat_id; first [apply tts_synthesize_id | apply tts_classify_id]. }
  destruct (Hsat s) as (_ & Hv & _). apply Hv. now rewrite Hgen.
Qed.

(** The same for the handler [caption]. *)
Lemma caption_echoes_id d v (s : store E) response s1 t1 :
  assoc "id" d = Some v ->
  Vision.caption (PDict d) s = (Ok response, s1, t1) ->
  has_id v response.
Proof.
  intros Hid Hcap.
  assert (Hsat : satisfies (Vision.caption (PDict d)) (fun _ => True) (has_id v)).
  { intros s'. unfold Vision.caption. rewrite bind_get_store, bind_py_get.
    replace (field d "id" _) with v by (unfold field; now rewrite Hid).
    revert s'.
    match goal with
    | |- forall s0, Forall _ (snd (@?m s0)) /\ _ =>
        match eval cbv beta in (m s) with
        | ?m' s => change (satisfies m' (fun _ => True) (has_id v))
        end
    end.
    sat_id; first [apply vision_describe_id | apply vision_classify_id]. }
  destruct (Hsat s) as (_ & Hv & _). apply Hv. now rewrite Hcap.
Qed.

(** A line that decodes to anything but an object raises in the loop body,
    outside every [try]. *)
Lemma non_object_line_raises raw v (s : store E) :
  strip raw <> EmptyString ->
  json_loads E (strip raw) = Ok v ->
  (forall d, v <> PDict d) ->
  TTS.handle_line raw s =
    (Raise (mk_exn AttributeError ("'" ++ type_name v ++ "' object has no attribute 'get'")),
     s, [])
  /\ Vision.handle_line raw s =
    (Raise (mk_exn AttributeError ("'" ++ type_name v ++ "' object has no attribute 'get'")),
     s, []).
Proof.
  intros Hne Hj Hv. apply String.eqb_neq in Hne.
  unfold TTS.handle_line, Vision.handle_line. rewrite Hne, Hj.
  destruct v; try (split; reflexivity). now destruct (Hv d).
Qed.
End Identifiers.

(** C1 fails on the code.  A line that is valid JSON but not an object, and
    a generate request whose text is a number, are neither the empty line
    nor a shutdown; each ends the TTS bridge with a traceback, with no
    response for the line and before the next line is read. *)
Theorem C1_unexpected_types_end_the_process :
  json_loads Example.env (strip Example.line_array) = Ok (PList [])
  /\ responses (fst (run (E := Example.env) TTS.main Example.healthy
                       [Example.line_array; Example.line_hello])) = [ready]
  /\ lines_read (fst (run (E := Example.env) TTS.main Example.healthy
                        [Example.line_array; Example.line_hello])) = [Example.line_array]
  /\ snd (run (E := Example.env) TTS.main Example.healthy
            [Example.line_array; Example.line_hello]) =
     Traceback (mk_exn AttributeError "'list' object has no attribute 'get'")
  /\ json_loads Example.env (strip Example.line_int_text) =
     Ok (PDict Example.request_int_text)
  /\ responses (fst (run (E := Example.env) TTS.main Example.healthy
                       [Example.line_int_text; Example.line_hello])) = [ready]
  /\ snd (run (E := Example.env) TTS.main Example.healthy
            [Example.line_int_text; Example.line_hello]) =
     Traceback (mk_exn TypeError "object of type 'int' has no len()").
Proof. repeat split. Qed.

(** C2 fails on the code.  A request with an unknown type that supplies the
    id "r9" is answered, by either bridge, with an error response that has
    no id field at all. *)
Theorem C2_unknown_type_response_has_no_id :
  json_loads Example.env (strip Example.line_unknown) = Ok (PDict Example.request_unknown)
  /\ assoc "id" Example.request_unknown = Some (PStr "r9")
  /\ responses (fst (run (E := Example.env) TTS.main Example.healthy
                       [Example.line_unknown])) =
     [ready;
      PDict [("type", PStr "error"); ("code", PStr "INVALID_REQUEST");
             ("message", PStr "Unknown request type: bogus")]]
  /\ responses (fst (run (E := Example.env) Vision.main Example.healthy
                       [Example.line_unknown])) =
     [ready;
      PDict [("type", PStr "error"); ("code", PStr "INVALID_REQUEST");
             ("message", PStr "Unknown request type: bogus")]]
  /\ assoc "id" [("type", PStr "error"); ("code", PStr "INVALID_REQUEST");
                 ("message", PStr "Unknown request type: bogus")] = None.
Proof. repeat split. Qed.

(** * Further properties of the bridges *)

Section TryBlocks.
Context {E : Env}.

(** The [try] statement of [generate]: one model call, then an audio
    response or one classified error; never an exception. *)
Lemma tts_try_cases req_id text voice ex cfg temp (s : store E) :
  exists response s1,
    try_except (TTS.synthesize req_id text voice ex cfg temp) (TTS.classify req_id) s =
      (Ok response, s1, [ModelCall [text; voice; ex; cfg; temp]])
    /\ temp_dir s1 = temp_dir s
    /\ ((exists dir duration,
            temp_dir s = Some dir
            /\ response =
               audio_response req_id (output_path dir (request_counter s + 1)) duration
            /\ request_counter s1 = request_counter s + 1)
        \/ (exists e,
               response = error_response req_id (failure_code e) (exn_msg e)
               /\ (request_counter s1 = request_counter s
                   \/ request_counter s1 = request_counter s + 1))).
Proof.
  destruct s as [w td c].
  unfold try_except, TTS.synthesize. rewrite bind_emit.
  unfold bind at 1. unfold call at 1. cbn [st_world temp_dir request_counter].
  destruct (model_generate E w text _ ex cfg temp) as [[wav0|e] w1].
  - rewrite bind_get_store. cbn [request_counter temp_dir].
    unfold bind at 1. cbn [set_request_counter st_world temp_dir request_counter].
    destruct td as [dir|].
    + rewrite bind_ret. unfold bind at 1. unfold call at 1.
      cbn [st_world temp_dir request_counter].
      destruct (ta_save E w1 _ wav0) as [[[]|e] w2].
      * unfold bind at 1. unfold call at 1. cbn [st_world temp_dir request_counter].
        destruct (wav_duration E w2 wav0) as [duration|e]; cbv beta iota.
        -- do 2 eexists. split; [reflexivity|]. split; [reflexivity|].
           left. exists dir, duration. repeat split.
        -- rewrite tts_classify_code. cbn.
           do 2 eexists. split; [reflexivity|]. split; [reflexivity|].
           right. exists e. split; [reflexivity | now right].
      * cbv beta iota. rewrite tts_classify_code. cbn.
        do 2 eexists. split; [reflexivity|]. split; [reflexivity|].
        right. exists e. split; [reflexivity | now right].
    + rewrite bind_raise. cbv beta iota. cbn [app]. rewrite tts_classify_code. cbn.
      do 2 eexists. split; [reflexivity|]. split; [reflexivity|].
      right.
      exists (mk_exn TypeError "expected str, bytes or os.PathLike object, not NoneType").
      split; [reflexivity | now right].
  - cbv beta iota. rewrite tts_classify_code. cbn.
    do 2 eexists. split; [reflexivity|]. split; [reflexivity|].
    right. exists e. split; [reflexivity | now left].
Qed.
End TryBlocks.

Section TryBlocks2.
Context {E : Env}.

(** The [try] statement of [caption]: one model call, then a caption
    response, which alone advances the counter, or one classified error;
    never an exception. *)
Lemma vision_try_cases req_id path pos idx page (s : store E) :
  exists response s1,
    try_except (Vision.describe req_id path pos idx page) (Vision.classify req_id) s =
      (Ok response, s1, [ModelCall [path]])
    /\ temp_dir s1 = temp_dir s
    /\ ((exists description prefix w1,
            describe_image E (st_world s) path = (Ok description, w1)
            /\ Vision.format_position pos idx page s = (Ok prefix, s, [])
            /\ response = caption_response req_id (prefix ++ ": " ++ description)
            /\ request_counter s1 = request_counter s + 1)
        \/ (exists e,
               response = error_response req_id (failure_code e) (exn_msg e)
               /\ request_counter s1 = request_counter s)).
Proof.
  destruct (format_position_pure (E := E) pos idx page) as [r Hpure].
  destruct s as [w td c].
  unfold try_except, Vision.describe. rewrite bind_emit.
  unfold bind at 1. unfold call at 1. cbn [st_world temp_dir request_counter].
  destruct (describe_image E w path) as [[description|e] w1] eqn:Hdesc.
  - unfold bind at 1. rewrite Hpure. destruct r as [prefix|e].
    + cbn. do 2 eexists. split; [reflexivity|]. split; [reflexivity|].
      left. exists description, prefix, w1. rewrite Hpure. repeat split.
    + cbv beta iota. cbn [app]. rewrite vision_classify_code. cbn.
      do 2 eexists. split; [reflexivity|]. split; [reflexivity|].
      right. exists e. split; reflexivity.
  - cbv beta iota. rewrite vision_classify_code. cbn.
    do 2 eexists. split; [reflexivity|]. split; [reflexivity|].
    right. exists e. split; reflexivity.
Qed.
End TryBlocks2.

Section AnyRequest.
Context {E : Env}.

Lemma bind_silent {A B} (m : M E A) (k : A -> M E B) s r :
  m s = (r, s, []) ->
  bind m k s = match r with Ok a => k a s | Raise e => (Raise e, s, []) end.
Proof.
  intros H. destruct r as [a|e].
  - now apply bind_pure_Ok.
  - now apply bind_Raise.
Qed.

Lemma py_get_silent obj key default (s : store E) :
  exists r, py_get obj key default s = (r, s, []).
Proof. destruct obj; eexists; reflexivity. Qed.

Lemma py_len_silent v (s : store E) : exists r, py_len v s = (r, s, []).
Proof. destruct v; eexists; reflexivity. Qed.

Lemma os_path_exists_silent v (s : store E) :
  exists r, os_path_exists v s = (r, s, []).
Proof.
  destruct s as [w td c]. destruct v; try (eexists; reflexivity);
    unfold os_path_exists, call; cbn [st_world temp_dir request_counter];
    eexists; reflexivity.
Qed.

(** What [generate] can do with any request: raise before anything
    happened, answer a validation error with nothing touched, or enter its
    [try] statement. *)
Lemma tts_generate_cases request (s : store E) :
  (exists e, TTS.generate request s = (Raise e, s, []))
  \/ (exists d code message,
         request = PDict d
         /\ TTS.generate request s =
            (Ok (error_response (req_id_of s d) code message), s, [])
         /\ In code ["INVALID_TEXT"; "VOICE_NOT_FOUND"])
  \/ (exists d text voice ex cfg temp,
         request = PDict d
         /\ TTS.generate request s =
            try_except
              (TTS.synthesize (req_id_of s d) text voice ex cfg temp)
              (TTS.classify (req_id_of s d)) s).
Proof.
  unfold TTS.generate. rewrite bind_get_store.
  destruct request as [| | | | |l|d]; try (left; eexists; reflexivity).
  rewrite !bind_py_get. fold (req_id_of s d).
  set (text := field d "text" _). set (voice := field d "voice_sample" _).
  set (options := field d "options" _).
  destruct (truthy text); cbn [negb].
  2:{ right; left. exists d. do 2 eexists. split; [reflexivity|].
      split; [reflexivity | cbn; tauto]. }
  destruct (py_len_silent text s) as [rl Hl]. rewrite (bind_silent _ _ _ _ Hl).
  destruct rl as [n|e]; [|left; eauto].
  destruct (10000 <? n).
  { right; left. exists d. do 2 eexists. split; [reflexivity|].
    split; [reflexivity | cbn; tauto]. }
  assert (Hmiss : exists r,
             (if truthy voice
              then bind (os_path_exists voice) (fun found => ret (negb found))
              else ret false) s = (r, s, [])).
  { destruct (truthy voice); [|eexists; reflexivity].
    destruct (os_path_exists_silent voice s) as [r Hr].
    rewrite (bind_silent _ _ _ _ Hr). destruct r; eexists; reflexivity. }
  destruct Hmiss as [rm Hm]. rewrite (bind_silent _ _ _ _ Hm).
  destruct rm as [[|]|e]; [| |left; eauto].
  { right; left. exists d. do 2 eexists. split; [reflexivity|].
    split; [reflexivity | cbn; tauto]. }
  destruct options as [| | | | |l|o]; try (left; eexists; reflexivity).
  rewrite !bind_py_get. right; right. exists d. do 5 eexists.
  split; reflexivity.
Qed.

(** The same for [caption]. *)
Lemma vision_caption_cases request (s : store E) :
  (exists e, Vision.caption request s = (Raise e, s, []))
  \/ (exists d code message,
         request = PDict d
         /\ Vision.caption request s =
            (Ok (error_response (req_id_of s d) code message), s, [])
         /\ In code ["INVALID_REQUEST"; "IMAGE_NOT_FOUND"])
  \/ (exists d path pos idx page,
         request = PDict d
         /\ Vision.caption request s =
            try_except
              (Vision.describe (req_id_of s d) path pos idx page)
              (Vision.classify (req_id_of s d)) s).
Proof.
  unfold Vision.caption. rewrite bind_get_store.
  destruct request as [| | | | |l|d]; try (left; eexists; reflexivity).
  rewrite !bind_py_get. fold (req_id_of s d).
  set (image_path := field d "image_path" _). set (context := field d "context" _).
  destruct context as [| | | | |l|c]; try (left; eexists; reflexivity).
  rewrite !bind_py_get.
  destruct (truthy image_path); cbn [negb].
  2:{ right; left. exists d. do 2 eexists. split; [reflexivity|].
      split; [reflexivity | cbn; tauto]. }
  destruct (os_path_exists_silent image_path s) as [r Hr].
  rewrite (bind_silent _ _ _ _ Hr). destruct r as [[|]|e]; [| |left; eauto].
  - right; right. exists d. do 4 eexists. split; reflexivity.
  - right; left. exists d. do 2 eexists. split; [reflexivity|].
    split; [reflexivity | cbn; tauto].
Qed.
End AnyRequest.

Section AnyLine.
Context {E : Env}.

Lemma failure_code_cases e :
  failure_code e = "OUT_OF_MEMORY" \/ failure_code e = "ENGINE_ERROR".
Proof.
  unfold failure_code. destruct (is_RuntimeError e && contains _ _); [now left | now right].
Qed.

Lemma error_response_well_formed b req_id code message :
  In code (error_codes b) ->
  well_formed_response b (error_response req_id code message).
Proof.
  intros Hin. eexists. split; [reflexivity|]. right; right.
  split; [reflexivity|]. exists code, message. repeat split. exact Hin.
Qed.

Lemma failure_code_known b e : In (failure_code e) (error_codes b).
Proof.
  destruct (failure_code_cases e) as [-> | ->]; destruct b; cbn; tauto.
Qed.

(** What a handler can do with any request: raise before anything
    happened, or return one well-formed response that carries the id of the
    request, after at most one model call. *)
Lemma handler_cases b request (s : store E) :
  (exists e, handler_of b request s = (Raise e, s, []))
  \/ (exists d response s1 calls,
         request = PDict d
         /\ handler_of b request s = (Ok response, s1, calls)
         /\ at_most_one_call calls
         /\ well_formed_response b response
         /\ response_type response <> Some (PStr "ready")
         /\ has_id (req_id_of s d) response
         /\ temp_dir s1 = temp_dir s
         /\ request_counter s <= request_counter s1 <= request_counter s + 1
         /\ (calls = [] -> s1 = s)
         /\ (succeeded b response = true ->
             request_counter s1 = request_counter s + 1
             /\ (b = Tts ->
                 exists dir duration,
                   temp_dir s = Some dir
                   /\ response =
                      audio_response (req_id_of s d)
                        (output_path dir (request_counter s + 1)) duration))
         /\ (b = Vision_ -> succeeded b response = false ->
             request_counter s1 = request_counter s)).
Proof.
  destruct b; cbn [handler_of].
  - destruct (tts_generate_cases request s)
      as [He|[(d & code & message & -> & Hgen & Hin)
             |(d & text & voice & ex & cfg & temp & -> & Hgen)]];
      [now left| |]; right; exists d.
    + exists (error_response (req_id_of s d) code message), s, [].
      split; [reflexivity|]. split; [exact Hgen|]. split; [now left|].
      split; [apply error_response_well_formed; cbn in *; tauto|].
      split; [discriminate|]. split; [eexists; split; reflexivity|].
      split; [reflexivity|]. split; [lia|]. split; [reflexivity|].
      split; [discriminate | reflexivity].
    + destruct (tts_try_cases (req_id_of s d) text voice ex cfg temp s)
        as (response & s1 & Htry & Htd & Hcase).
      exists response, s1. eexists. split; [reflexivity|].
      split; [rewrite Hgen; exact Htry|]. split; [right; eauto|].
      destruct Hcase as [(dir & duration & Hdir & -> & Hc)|(e & -> & Hc)].
      * split; [eexists; split; [reflexivity | right; left; reflexivity]|].
        split; [discriminate|]. split; [eexists; split; reflexivity|].
        split; [exact Htd|]. split; [lia|]. split; [discriminate|].
        split; [|discriminate]. intros _. split; [exact Hc|]. intros _.
        exists dir, duration. split; [exact Hdir | reflexivity].
      * split; [apply error_response_well_formed, failure_code_known|].
        split; [discriminate|]. split; [eexists; split; reflexivity|].
        split; [exact Htd|]. split; [lia|]. split; [discriminate|].
        split; discriminate.
  - destruct (vision_caption_cases request s)
      as [He|[(d & code & message & -> & Hcap & Hin)
             |(d & path & pos & idx & page & -> & Hcap)]];
      [now left| |]; right; exists d.
    + exists (error_response (req_id_of s d) code message), s, [].
      split; [reflexivity|]. split; [exact Hcap|]. split; [now left|].
      split; [apply error_response_well_formed; cbn in *; tauto|].
      split; [discriminate|]. split; [eexists; split; reflexivity|].
      split; [reflexivity|]. split; [lia|]. split; [reflexivity|].
      split; [discriminate | reflexivity].
    + destruct (vision_try_cases (req_id_of s d) path pos idx page s)
        as (response & s1 & Htry & Htd & Hcase).
      exists response, s1. eexists. split; [reflexivity|].
      split; [rewrite Hcap; exact Htry|]. split; [right; eauto|].
      destruct Hcase as [(description & prefix & w1 & _ & _ & -> & Hc)|(e & -> & Hc)].
      * split; [eexists; split; [reflexivity | right; left; reflexivity]|].
        split; [discriminate|]. split; [eexists; split; reflexivity|].
        split; [exact Htd|]. split; [lia|]. split; [discriminate|].
        split; [|discriminate]. intros _. split; [exact Hc | discriminate].
      * split; [apply error_response_well_formed, failure_code_known|].
        split; [discriminate|]. split; [eexists; split; reflexivity|].
        split; [exact Htd|]. split; [lia|]. split; [discriminate|].
        split; [discriminate|]. intros _ _. exact Hc.
Qed.
End AnyLine.

Section Lines.
Context {E : Env}.

Lemma answer_with_handler b request (s : store E) :
  bind (handler_of b request) (fun response => bind (send response) (fun _ => ret Continue)) s =
  (let '(r, s1, calls) := handler_of b request s in
   match r with
   | Ok response => (Ok Continue, s1, (calls ++ [Stdout response])%list)
   | Raise e => (Raise e, s1, calls)
   end).
Proof.
  unfold bind at 1.
  destruct (handler_of b request s) as [[[response|e] s1] calls]; reflexivity.
Qed.

Lemma loop_error_well_formed b message : well_formed_response b (loop_error message).
Proof.
  eexists. split; [reflexivity|]. right; right. split; [reflexivity|].
  exists "INVALID_REQUEST", message. repeat split. destruct b; cbn; tauto.
Qed.

(** What one iteration of the loop can do with any line. *)
Lemma handle_cases b raw (s : store E) :
  (blank raw = true /\ handle_line_of b raw s = (Ok Continue, s, []))
  \/ (blank raw = false /\ shutdownb (E := E) raw = false
      /\ exists e, handle_line_of b raw s = (Raise e, s, []))
  \/ (blank raw = false /\ shutdownb (E := E) raw = true
      /\ handle_line_of b raw s = (Ok Break, s, [shutdown_log b]))
  \/ (blank raw = false /\ shutdownb (E := E) raw = false
      /\ exists response s1 calls,
           handle_line_of b raw s = (Ok Continue, s1, (calls ++ [Stdout response])%list)
           /\ at_most_one_call calls
           /\ well_formed_response b response
           /\ response_type response <> Some (PStr "ready")
           /\ temp_dir s1 = temp_dir s
           /\ request_counter s <= request_counter s1 <= request_counter s + 1
           /\ (calls = [] -> s1 = s)
           /\ (succeeded b response = true ->
               request_counter s1 = request_counter s + 1
               /\ (b = Tts ->
                   exists req_id dir duration,
                     temp_dir s = Some dir
                     /\ response =
                        audio_response req_id
                          (output_path dir (request_counter s + 1)) duration))
           /\ (b = Vision_ -> succeeded b response = false ->
               request_counter s1 = request_counter s)).
Proof.
  assert (Hloop : forall message,
             exists response s1 calls,
               (Ok Continue, s, [Stdout (loop_error message)]) =
               (Ok Continue, s1, (calls ++ [Stdout response])%list)
               /\ at_most_one_call calls
               /\ well_formed_response b response
               /\ response_type response <> Some (PStr "ready")
               /\ temp_dir s1 = temp_dir s
               /\ request_counter s <= request_counter s1 <= request_counter s + 1
               /\ (calls = [] -> s1 = s)
               /\ (succeeded b response = true ->
                   request_counter s1 = request_counter s + 1
                   /\ (b = Tts ->
                       exists req_id dir duration,
                         temp_dir s = Some dir
                         /\ response =
                            audio_response req_id
                              (output_path dir (request_counter s + 1)) duration))
               /\ (b = Vision_ -> succeeded b response = false ->
                   request_counter s1 = request_counter s)).
  { intros message. exists (loop_error message), s, [].
    split; [reflexivity|]. split; [now left|].
    split; [apply loop_error_well_formed|]. split; [discriminate|].
    split; [reflexivity|]. split; [lia|]. split; [reflexivity|].
    split; [destruct b; discriminate | reflexivity]. }
  unfold blank, shutdownb.
  assert (Hunfold :
    handle_line_of b raw s =
    (if (strip raw =? EmptyString)%string then ret Continue
     else
       match json_loads E (strip raw) with
       | Raise e =>
           if is_JSONDecodeError e then
             bind (send (loop_error ("Invalid JSON: " ++ exn_msg e)))
               (fun _ => ret Continue)
           else raise e
       | Ok request =>
           bind (py_get request "type" PNone) (fun req_type =>
             if py_eq_str req_type "shutdown" then
               bind (emit (shutdown_log b)) (fun _ => ret Break)
             else if py_eq_str req_type (own_type b) then
               bind (handler_of b request)
                 (fun response => bind (send response) (fun _ => ret Continue))
             else
               bind (send (loop_error ("Unknown request type: " ++ py_str E req_type)))
                 (fun _ => ret Continue))
       end) s) by (destruct b; reflexivity).
  rewrite Hunfold. clear Hunfold.
  destruct (strip raw =? EmptyString)%string; [left; split; reflexivity|].
  right. destruct (json_loads E (strip raw)) as [request|e].
  - destruct request as [| | | | |l|d];
      try (left; split; [reflexivity|]; split; [reflexivity|]; eexists; reflexivity).
    rewrite bind_py_get.
    destruct (py_eq_str (field d "type" PNone) "shutdown").
    { right; left. repeat split. }
    destruct (py_eq_str (field d "type" PNone) (own_type b)).
    + rewrite answer_with_handler.
      destruct (handler_cases b (PDict d) s)
        as [[e He]|(d' & response & s1 & calls & _ & Hh & Hrest)].
      * left. rewrite He. split; [reflexivity|]. split; [reflexivity|]. eauto.
      * right; right. rewrite Hh. split; [reflexivity|]. split; [reflexivity|].
        exists response, s1, calls. split; [reflexivity|].
        destruct Hrest as (H1 & H2 & H3 & _ & H5 & H6 & H7 & H8 & H9).
        repeat (split; [assumption|]). split; [|exact H9].
        intros Hs. destruct (H8 Hs) as [Hc Hp]. split; [exact Hc|].
        intros Hb. destruct (Hp Hb) as (dir & duration & Hd & Hr). eauto.
    + right; right. split; [reflexivity|]. split; [reflexivity|]. apply Hloop.
  - destruct (is_JSONDecodeError e).
    + right; right. split; [reflexivity|]. split; [reflexivity|]. apply Hloop.
    + left. split; [reflexivity|]. split; [reflexivity|]. eexists; reflexivity.
Qed.
End Lines.

Section Loop.
Context {E : Env}.

Lemma serve_of_step b raw rest (s : store E) :
  serve_of b (raw :: rest) s =
  (let '(r, s1, t1) := handle_line_of b raw s in
   match r with
   | Ok Continue =>
       let '(r2, s2, t2) := serve_of b rest s1 in (r2, s2, ReadLine raw :: (t1 ++ t2)%list)
   | Ok Break => (Ok tt, s1, ReadLine raw :: t1)
   | Raise e => (Raise e, s1, ReadLine raw :: t1)
   end).
Proof. destruct b; [apply tts_serve_cons | apply vision_serve_cons]. Qed.

(** Induction on the loop: a blank line, a line that raises, a shutdown
    line, and a line that is answered. *)
Lemma serve_of_cases b
    (P : list string -> store E -> result unit -> store E -> list event -> Prop) :
  (forall s, P [] s (Ok tt) s []) ->
  (forall raw rest s r2 s2 t2,
      blank raw = true ->
      serve_of b rest s = (r2, s2, t2) -> P rest s r2 s2 t2 ->
      P (raw :: rest) s r2 s2 (ReadLine raw :: t2)) ->
  (forall raw rest s e,
      blank raw = false -> shutdownb (E := E) raw = false ->
      handle_line_of b raw s = (Raise e, s, []) ->
      P (raw :: rest) s (Raise e) s [ReadLine raw]) ->
  (forall raw rest s,
      blank raw = false -> shutdownb (E := E) raw = true ->
      P (raw :: rest) s (Ok tt) s [ReadLine raw; shutdown_log b]) ->
  (forall raw rest s response s1 calls r2 s2 t2,
      blank raw = false -> shutdownb (E := E) raw = false ->
      handle_line_of b raw s = (Ok Continue, s1, (calls ++ [Stdout response])%list) ->
      answered_step b s s1 calls response ->
      serve_of b rest s1 = (r2, s2, t2) -> P rest s1 r2 s2 t2 ->
      P (raw :: rest) s r2 s2 (ReadLine raw :: calls ++ Stdout response :: t2)%list) ->
  forall stdin s r s1 t, serve_of b stdin s = (r, s1, t) -> P stdin s r s1 t.
Proof.
  intros Hnil Hblank Hraise Hshut Hans.
  induction stdin as [|raw rest IH]; intros s r s1 t Hserve.
  - assert (Hs : serve_of b [] s = (Ok tt, s, [])) by (destruct b; reflexivity).
    rewrite Hs in Hserve. inversion Hserve; subst. apply Hnil.
  - rewrite serve_of_step in Hserve.
    destruct (handle_cases b raw s)
      as [[Hb Hh]|[(Hb & Hsd & e & Hh)|[(Hb & Hsd & Hh)
         |(Hb & Hsd & response & s' & calls & Hh & Hstep)]]];
      rewrite Hh in Hserve.
    + destruct (serve_of b rest s) as [[r2 s2] t2] eqn:Hrest.
      inversion Hserve; subst. eapply Hblank; eauto.
    + inversion Hserve; subst. eapply Hraise; eauto.
    + inversion Hserve; subst. now apply Hshut.
    + destruct (serve_of b rest s') as [[r2 s2] t2] eqn:Hrest.
      inversion Hserve; subst. rewrite <- app_assoc. cbn [app].
      eapply Hans; eauto.
Qed.
End Loop.

(** X1.  Every response a handler ([generate] or [caption]) returns for an
    object request carries the id of the request, whatever the other fields
    hold; when the request has no id, the response carries "req_<n>", with
    [n] the value of the request counter. *)
Theorem X1_handler_answers_with_the_request_id {E : Env} (b : bridge)
    (d : list (string * pyval)) (s : store E) (response : pyval)
    (s1 : store E) (t1 : list event) :
  handler_of b (PDict d) s = (Ok response, s1, t1) ->
  (forall v, assoc "id" d = Some v -> has_id v response)
  /\ (assoc "id" d = None ->
      has_id (PStr ("req_" ++ decimal (request_counter s))) response).
Proof.
  intros Hh.
  destruct (handler_cases b (PDict d) s)
    as [[e He]|(d' & response' & s' & calls & Hd & Hh' & _ & _ & _ & Hid & _)].
  - rewrite He in Hh. discriminate Hh.
  - inversion Hd; subst d'. rewrite Hh' in Hh. inversion Hh; subst.
    unfold req_id_of, field in Hid.
    split; [intros v Hv | intros Hv]; now rewrite Hv in Hid.
Qed.

Lemma X1_handler_answers_with_the_request_id_witness :
  handler_of (E := Example.env) Tts (PDict More.request_no_id) Example.tts_serving =
    (Ok (audio_response (PStr "req_0") "/tmp/actual_reader_tts_k3x9/tts_0001.wav"
           (PFloat float_0_5)),
     mk_store (E := Example.env) Example.healthy (Some "/tmp/actual_reader_tts_k3x9") 1,
     [ModelCall [PStr "Hello"; PNone; PFloat float_0_5; PFloat float_0_5;
                 PFloat float_0_8]])
  /\ has_id (PStr "req_0")
       (audio_response (PStr "req_0") "/tmp/actual_reader_tts_k3x9/tts_0001.wav"
          (PFloat float_0_5)).
Proof.
  split; [reflexivity|].
  exact (proj2 (X1_handler_answers_with_the_request_id (E := Example.env) Tts
                  More.request_no_id Example.tts_serving _ _ _ eq_refl) eq_refl).
Defined.

(** X2.  When a handler raises instead of returning a response, nothing has
    happened yet: no model call was made, nothing was emitted, and the
    request counter, the temporary directory and the outside world are as
    before.  Every failure after validation is turned into a response. *)
Theorem X2_handler_raises_before_anything_happens {E : Env} (b : bridge)
    (request : pyval) (s : store E) (e : exn) (s1 : store E) (t1 : list event) :
  handler_of b request s = (Raise e, s1, t1) ->
  s1 = s /\ t1 = [].
Proof.
  intros Hh.
  destruct (handler_cases b request s)
    as [[e' He]|(d & response & s' & calls & _ & Hh' & _)].
  - rewrite He in Hh. inversion Hh. now split.
  - rewrite Hh' in Hh. discriminate Hh.
Qed.

Lemma X2_handler_raises_before_anything_happens_witness :
  handler_of (E := Example.env) Tts (PDict Example.request_int_text) Example.tts_serving =
    (Raise (mk_exn TypeError "object of type 'int' has no len()"), Example.tts_serving, [])
  /\ (Example.tts_serving = Example.tts_serving /\ @nil event = []).
Proof.
  split; [reflexivity|].
  exact (X2_handler_raises_before_anything_happens (E := Example.env) Tts
           (PDict Example.request_int_text) Example.tts_serving
           (mk_exn TypeError "object of type 'int' has no len()")
           Example.tts_serving [] eq_refl).
Defined.

(** X3.  A handler calls the model at most once for a request, and when it
    does not call it (a request refused by validation) the request counter,
    the temporary directory and the outside world are left as they were. *)
Theorem X3_at_most_one_model_call {E : Env} (b : bridge) (request : pyval)
    (s : store E) :
  at_most_one_call (snd (handler_of b request s))
  /\ (snd (handler_of b request s) = [] -> snd (fst (handler_of b request s)) = s).
Proof.
  destruct (handler_cases b request s)
    as [[e He]|(d & response & s' & calls & _ & Hh & Hone & _ & _ & _ & _ & _ & Hsame & _)].
  - rewrite He. split; [now left | reflexivity].
  - rewrite Hh. split; [exact Hone | exact Hsame].
Qed.

Section Runs.
Context {E : Env}.

Lemma calls_hold_no_line calls :
  at_most_one_call calls -> responses calls = [] /\ lines_read calls = [].
Proof. intros [->|[args ->]]; split; reflexivity. Qed.

Lemma shutdown_log_silent b :
  responses [shutdown_log b] = [] /\ lines_read [shutdown_log b] = [].
Proof. destruct b; split; reflexivity. Qed.

Lemma responses_answered raw calls response t2 :
  at_most_one_call calls ->
  responses (ReadLine raw :: calls ++ Stdout response :: t2) = response :: responses t2
  /\ lines_read (ReadLine raw :: calls ++ Stdout response :: t2) = raw :: lines_read t2.
Proof.
  intros Hc. destruct (calls_hold_no_line calls Hc) as [Hr Hl].
  cbn [responses lines_read]. rewrite responses_app, lines_read_app, Hr, Hl.
  split; reflexivity.
Qed.

Lemma serve_well_formed b stdin (s : store E) r s1 t :
  serve_of b stdin s = (r, s1, t) -> Forall (well_formed_response b) (responses t).
Proof.
  revert stdin s r s1 t.
  apply (serve_of_cases b (fun _ _ _ _ t => Forall (well_formed_response b) (responses t))).
  - constructor.
  - intros raw rest s r2 s2 t2 _ _ IH. exact IH.
  - constructor.
  - intros raw rest s _ _. destruct b; constructor.
  - intros raw rest s response s1 calls r2 s2 t2 _ _ _ Hstep _ IH.
    destruct Hstep as (Hone & Hwf & _).
    destruct (responses_answered raw calls response t2 Hone) as [-> _].
    now constructor.
Qed.

Lemma ready_well_formed b : well_formed_response b ready.
Proof. eexists. split; [reflexivity | now left]. Qed.
End Runs.

(** X4.  Every line either bridge writes on stdout, in any run, is an object
    of the protocol: the ready signal, a success of the bridge (audio for
    the TTS bridge, caption for the vision bridge), or an error with a
    message and a code out of the list of the bridge. *)
Theorem X4_responses_are_well_formed {E : Env} (b : bridge) (w : world E)
    (stdin : list string) :
  Forall (well_formed_response b) (responses (fst (run (main_of b) w stdin))).
Proof.
  destruct (run_eq b w) as (head & tail_ok & _ & Hrh & _ & _ & Hrt & _ & _ & Hrun).
  rewrite Hrun.
  destruct (loading b w) as [[r2 s2] t2] eqn:Hload.
  destruct (loading_logs _ _ _ _ _ Hload) as [Hlogs _].
  destruct (logs_silent _ Hlogs) as (Hr2 & _).
  destruct r2 as [[]|e].
  - destruct (serve_of b stdin s2) as [[r3 s3] t3] eqn:Hserve.
    pose proof (serve_well_formed b stdin s2 r3 s3 t3 Hserve) as Hwf.
    destruct r3 as [[]|e]; cbn [fst];
      rewrite !responses_app, Hrh, Hr2; cbn [app responses];
      constructor; try apply ready_well_formed.
    + now rewrite responses_app, Hrt, app_nil_r.
    + exact Hwf.
  - cbn [fst]. rewrite !responses_app, Hrh, Hr2. cbn.
    constructor; [|constructor].
    apply error_response_well_formed. destruct b; cbn; tauto.
Qed.

(** X5.  Whenever [generate] returns an audio response, the file it names
    is [tts_<n>.wav] in the temporary directory of the process, with [n] the
    request counter plus one, zero-padded to four digits, and the counter
    has advanced by exactly one. *)
Theorem X5_audio_file_name {E : Env} (request : pyval) (s : store E)
    (response : pyval) (s1 : store E) (t1 : list event) :
  TTS.generate request s = (Ok response, s1, t1) ->
  succeeded Tts response = true ->
  exists d dir duration,
    request = PDict d
    /\ temp_dir s = Some dir
    /\ response =
       audio_response (req_id_of s d)
         (path_join dir ("tts_" ++ format_04d (request_counter s + 1) ++ ".wav")) duration
    /\ request_counter s1 = request_counter s + 1
    /\ temp_dir s1 = Some dir.
Proof.
  intros Hgen Hok.
  destruct (handler_cases Tts request s)
    as [[e He]|(d & response' & s' & calls & Hd & Hh & _ & _ & _ & _ & Htd & _ & _ & Hs & _)];
    cbn [handler_of] in *.
  - rewrite He in Hgen. discriminate Hgen.
  - rewrite Hh in Hgen. inversion Hgen; subst.
    destruct (Hs Hok) as [Hc Hp]. destruct (Hp eq_refl) as (dir & duration & Hdir & Hr).
    exists d, dir, duration. repeat split; try assumption. congruence.
Qed.

Lemma X5_audio_file_name_witness :
  TTS.generate (E := Example.env) (PDict Example.request_hello) Example.tts_serving =
    (Ok (audio_response (PStr "r3") "/tmp/actual_reader_tts_k3x9/tts_0001.wav"
           (PFloat float_0_5)),
     mk_store (E := Example.env) Example.healthy (Some "/tmp/actual_reader_tts_k3x9") 1,
     [ModelCall [PStr "Hello"; PNone; PFloat float_0_5; PFloat float_0_5;
                 PFloat float_0_8]])
  /\ exists d dir duration,
       PDict Example.request_hello = PDict d
       /\ temp_dir Example.tts_serving = Some dir
       /\ audio_response (PStr "r3") "/tmp/actual_reader_tts_k3x9/tts_0001.wav"
            (PFloat float_0_5) =
          audio_response (req_id_of Example.tts_serving d)
            (path_join dir ("tts_" ++ format_04d (request_counter Example.tts_serving + 1)
                            ++ ".wav")) duration.
Proof.
  split; [reflexivity|].
  destruct (X5_audio_file_name (E := Example.env) (PDict Example.request_hello)
              Example.tts_serving _ _ _ eq_refl eq_refl)
    as (d & dir & duration & Hd & Hdir & Hr & _).
  exists d, dir, duration. repeat split; assumption.
Defined.

Section Counters.
Context {E : Env}.

Lemma serve_counter b stdin (s : store E) r s1 t :
  serve_of b stdin s = (r, s1, t) ->
  temp_dir s1 = temp_dir s
  /\ request_counter s + Z.of_nat (List.length (filter (succeeded b) (responses t)))
     <= request_counter s1
     <= request_counter s + Z.of_nat (List.length (responses t))
  /\ (b = Vision_ ->
      request_counter s1 =
      request_counter s + Z.of_nat (List.length (filter (succeeded b) (responses t)))).
Proof.
  revert stdin s r s1 t.
  apply (serve_of_cases b
           (fun _ s _ s1 t =>
              temp_dir s1 = temp_dir s
              /\ request_counter s
                 + Z.of_nat (List.length (filter (succeeded b) (responses t)))
                 <= request_counter s1
                 <= request_counter s + Z.of_nat (List.length (responses t))
              /\ (b = Vision_ ->
                  request_counter s1 =
                  request_counter s
                  + Z.of_nat (List.length (filter (succeeded b) (responses t)))))).
  - intros s. cbn. repeat split; lia.
  - intros raw rest s r2 s2 t2 _ _ IH. exact IH.
  - intros raw rest s e _ _ _. cbn. repeat split; lia.
  - intros raw rest s _ _. destruct b; cbn; repeat split; lia.
  - intros raw rest s response s1 calls r2 s2 t2 _ _ _ Hstep _ (IHd & IHc & IHv).
    destruct Hstep as (Hone & _ & _ & Htd & Hc & _ & Hs & Hv).
    destruct (responses_answered raw calls response t2 Hone) as [-> _].
    cbn [filter List.length]. split; [congruence|].
    destruct (succeeded b response) eqn:Hok; cbn [List.length].
    + destruct (Hs eq_refl) as [Hc1 _]. split; [lia|]. intros Hb.
      specialize (IHv Hb). lia.
    + split; [lia|]. intros Hb. specialize (IHv Hb). specialize (Hv Hb eq_refl). lia.
Qed.
End Counters.

(** X6.  Over any stretch of the serving loop the temporary directory in use
    stays the same and the request counter only grows: by at least the
    number of success responses written and at most the number of responses
    written.  In the vision bridge it grows by exactly the number of caption
    responses, so the id "req_<n>" given to a request without id counts the
    captions made so far. *)
Theorem X6_request_counter_counts_successes {E : Env} (b : bridge)
    (stdin : list string) (s : store E) :
  temp_dir (snd (fst (serve_of b stdin s))) = temp_dir s
  /\ request_counter s
     + Z.of_nat (List.length (filter (succeeded b) (responses (snd (serve_of b stdin s)))))
     <= request_counter (snd (fst (serve_of b stdin s)))
     <= request_counter s + Z.of_nat (List.length (responses (snd (serve_of b stdin s))))
  /\ request_counter (snd (fst (Vision.serve stdin s))) =
     request_counter s
     + Z.of_nat (List.length
                   (filter (succeeded Vision_) (responses (snd (Vision.serve stdin s))))).
Proof.
  destruct (serve_of b stdin s) as [[r s1] t] eqn:Hb.
  destruct (serve_counter b stdin s r s1 t Hb) as (Hd & Hc & _).
  destruct (Vision.serve stdin s) as [[rv sv] tv] eqn:Hv.
  destruct (serve_counter Vision_ stdin s rv sv tv Hv) as (_ & _ & Hvc).
  cbn [fst snd]. repeat split; try assumption; try lia. now apply Hvc.
Qed.

Section BlankLines.
Context {E : Env}.

Lemma handle_blank b raw (s : store E) :
  blank raw = true -> handle_line_of b raw s = (Ok Continue, s, []).
Proof.
  intros Hb.
  destruct (handle_cases b raw s) as [[_ H]|[(H & _)|[(H & _)|(H & _)]]];
    [exact H | congruence | congruence | congruence].
Qed.

(** Dropping the blank lines changes neither how the loop ends, nor the
    globals it leaves, nor what it does besides reading and logging. *)
Lemma serve_skips_blank b stdin (s : store E) :
  fst (serve_of b (filter (fun raw => negb (blank raw)) stdin) s) = fst (serve_of b stdin s)
  /\ effects (snd (serve_of b (filter (fun raw => negb (blank raw)) stdin) s)) =
     effects (snd (serve_of b stdin s)).
Proof.
  revert s. induction stdin as [|raw rest IH]; intros s; [split; reflexivity|].
  cbn [filter]. destruct (blank raw) eqn:Hb; cbn [negb].
  - rewrite (serve_of_step b raw rest), (handle_blank b raw s Hb).
    destruct (IH s) as [Hf He].
    destruct (serve_of b rest s) as [[r2 s2] t2]. cbn [fst snd app] in *.
    split; [exact Hf|]. rewrite He. reflexivity.
  - rewrite !serve_of_step.
    destruct (handle_line_of b raw s) as [[[[|]|e] s1] t1]; try (split; reflexivity).
    destruct (IH s1) as [Hf He].
    destruct (serve_of b (filter (fun raw0 => negb (blank raw0)) rest) s1) as [[r2 s2] t2].
    destruct (serve_of b rest s1) as [[r3 s3] t3]. cbn [fst snd] in *.
    split; [congruence|].
    change (ReadLine raw :: ?x) with ([ReadLine raw] ++ x)%list.
    rewrite !effects_app, He. reflexivity.
Qed.
End BlankLines.

(** X7.  Lines that are empty or hold only whitespace are skipped without a
    trace: a run on any stdin has the responses, the model calls, the use of
    the temporary directory and the exit of the run on the same stdin with
    its blank lines removed (either bridge). *)
Theorem X7_blank_lines_are_skipped {E : Env} (b : bridge) (w : world E)
    (stdin : list string) :
  effects (fst (run (main_of b) w (filter (fun raw => negb (blank raw)) stdin))) =
  effects (fst (run (main_of b) w stdin))
  /\ snd (run (main_of b) w (filter (fun raw => negb (blank raw)) stdin)) =
     snd (run (main_of b) w stdin).
Proof.
  destruct (run_eq b w) as (head & tail_ok & _ & _ & _ & _ & _ & _ & _ & Hrun).
  rewrite !Hrun.
  destruct (loading b w) as [[[[]|e] s2] t2]; [|split; reflexivity].
  destruct (serve_skips_blank b stdin s2) as [Hf He].
  destruct (serve_of b (filter (fun raw => negb (blank raw)) stdin) s2) as [[r3 s3] t3].
  destruct (serve_of b stdin s2) as [[r4 s4] t4].
  cbn [fst snd] in Hf, He. inversion Hf; subst r4 s4.
  destruct r3 as [[]|e3]; cbn [fst snd]; (split; [|reflexivity]);
    rewrite !effects_app;
    change (Stdout ready :: ?x) with ([Stdout ready] ++ x)%list;
    rewrite !effects_app.
  - match goal with
    | |- context [Stderr ?m :: (t3 ++ tail_ok)%list] =>
        change (Stderr m :: (t3 ++ tail_ok)%list)
          with ([Stderr m] ++ (t3 ++ tail_ok))%list;
        change (Stderr m :: (t4 ++ tail_ok)%list)
          with ([Stderr m] ++ (t4 ++ tail_ok))%list
    end.
    rewrite !effects_app, He. reflexivity.
  - match goal with
    | |- context [Stderr ?m :: t3] =>
        change (Stderr m :: t3) with ([Stderr m] ++ t3)%list;
        change (Stderr m :: t4) with ([Stderr m] ++ t4)%list
    end.
    rewrite !effects_app, He. reflexivity.
Qed.

(** X8.  A non-blank line that [json.loads] rejects with a [JSONDecodeError]
    gets exactly one response, the error [INVALID_REQUEST] with the message
    "Invalid JSON: <diagnostic>" and no id; the globals are untouched, the
    model is not called and the loop goes on with the next line.  Any other
    exception of [json.loads] ends the loop. *)
Theorem X8_malformed_line {E : Env} (b : bridge) (raw : string)
    (rest : list string) (s : store E) (e : exn) :
  blank raw = false ->
  json_loads E (strip raw) = Raise e ->
  (is_JSONDecodeError e = true ->
   serve_of b (raw :: rest) s =
   (let '(r, s2, t2) := serve_of b rest s in
    (r, s2, ReadLine raw :: Stdout (loop_error ("Invalid JSON: " ++ exn_msg e)) :: t2)))
  /\ (is_JSONDecodeError e = false ->
      serve_of b (raw :: rest) s = (Raise e, s, [ReadLine raw])).
Proof.
  intros Hb Hj. unfold blank in Hb.
  assert (Hh : handle_line_of b raw s =
               if is_JSONDecodeError e
               then (Ok Continue, s, [Stdout (loop_error ("Invalid JSON: " ++ exn_msg e))])
               else (Raise e, s, [])).
  { destruct b; cbn [handle_line_of];
      [unfold TTS.handle_line | unfold Vision.handle_line];
      rewrite Hb, Hj; destruct (is_JSONDecodeError e); reflexivity. }
  rewrite serve_of_step, Hh. split; intros ->; [|reflexivity].
  destruct (serve_of b rest s) as [[r s2] t2]. reflexivity.
Qed.

Lemma X8_malformed_line_witness :
  blank Example.line_malformed = false
  /\ json_loads Example.env (strip Example.line_malformed) =
     Raise (mk_exn JSONDecodeError "Expecting value: line 1 column 1 (char 0)")
  /\ serve_of (E := Example.env) Tts [Example.line_malformed; Example.line_empty_text]
       Example.tts_serving =
     (Ok tt, Example.tts_serving,
      [ReadLine Example.line_malformed;
       Stdout (loop_error "Invalid JSON: Expecting value: line 1 column 1 (char 0)");
       ReadLine Example.line_empty_text;
       Stdout (error_response (PStr "r1") "INVALID_TEXT" "Text is empty")]).
Proof.
  split; [reflexivity|]. split; [reflexivity|].
  rewrite (proj1 (X8_malformed_line (E := Example.env) Tts Example.line_malformed
                    [Example.line_empty_text] Example.tts_serving _ eq_refl eq_refl)
             eq_refl).
  reflexivity.
Defined.

(** X9.  A non-blank line that decodes to an object whose type is neither
    shutdown nor the type of the bridge (generate for the TTS bridge, caption
    for the vision bridge) gets exactly one response, the error
    [INVALID_REQUEST] with the message "Unknown request type: <type>"; a
    missing type reads "None".  The globals are untouched, the model is not
    called and the loop goes on with the next line. *)
Theorem X9_unknown_request_type {E : Env} (b : bridge) (raw : string)
    (rest : list string) (s : store E) (d : list (string * pyval)) :
  blank raw = false ->
  json_loads E (strip raw) = Ok (PDict d) ->
  py_eq_str (field d "type" PNone) "shutdown" = false ->
  py_eq_str (field d "type" PNone) (own_type b) = false ->
  serve_of b (raw :: rest) s =
    (let '(r, s2, t2) := serve_of b rest s in
     (r, s2,
      ReadLine raw
        :: Stdout (loop_error ("Unknown request type: " ++ py_str E (field d "type" PNone)))
        :: t2))
  /\ (assoc "type" d = None -> py_str E (field d "type" PNone) = "None").
Proof.
  intros Hb Hj Hsd Hown. unfold blank in Hb.
  assert (Hh : handle_line_of b raw s =
               (Ok Continue, s,
                [Stdout (loop_error ("Unknown request type: "
                                     ++ py_str E (field d "type" PNone)))])).
  { destruct b; cbn [handle_line_of own_type] in *;
      [unfold TTS.handle_line | unfold Vision.handle_line];
      rewrite Hb, Hj, bind_py_get, Hsd, Hown; reflexivity. }
  rewrite serve_of_step, Hh. split.
  - destruct (serve_of b rest s) as [[r s2] t2]. reflexivity.
  - intros Hnone. unfold field. now rewrite Hnone.
Qed.

Lemma X9_unknown_request_type_witness :
  blank Example.line_missing_image = false
  /\ json_loads Example.env (strip Example.line_missing_image) =
     Ok (PDict Example.request_missing_image)
  /\ serve_of (E := Example.env) Tts [Example.line_missing_image] Example.tts_serving =
     (Ok tt, Example.tts_serving,
      [ReadLine Example.line_missing_image;
       Stdout (loop_error "Unknown request type: caption")]).
Proof.
  split; [reflexivity|]. split; [reflexivity|].
  rewrite (proj1 (X9_unknown_request_type (E := Example.env) Tts
                    Example.line_missing_image [] Example.tts_serving
                    Example.request_missing_image eq_refl eq_refl eq_refl eq_refl)).
  reflexivity.
Defined.

Section OneForOne.
Context {E : Env}.

Lemma answered_blank raw : blank raw = true -> answered (E := E) raw = false.
Proof. unfold answered. now intros ->. Qed.

Lemma answered_shutdown raw : shutdownb (E := E) raw = true -> answered (E := E) raw = false.
Proof. unfold answered. intros ->. now rewrite andb_false_r. Qed.

Lemma answered_other raw :
  blank raw = false -> shutdownb (E := E) raw = false -> answered (E := E) raw = true.
Proof. unfold answered. now intros -> ->. Qed.

Lemma lines_read_shutdown b raw :
  lines_read [ReadLine raw; shutdown_log b] = [raw]
  /\ responses [ReadLine raw; shutdown_log b] = [].
Proof. destruct b; split; reflexivity. Qed.

(** In the loop, every line read that is neither blank nor a shutdown has
    its response, except the line on which the loop raised. *)
Lemma serve_one_for_one b stdin (s : store E) r s1 t :
  serve_of b stdin s = (r, s1, t) ->
  match r with
  | Ok _ =>
      List.length (responses t) = List.length (filter (answered (E := E)) (lines_read t))
  | Raise _ =>
      S (List.length (responses t)) =
      List.length (filter (answered (E := E)) (lines_read t))
  end.
Proof.
  revert stdin s r s1 t.
  apply (serve_of_cases b
           (fun _ _ r _ t =>
              match r with
              | Ok _ =>
                  List.length (responses t) =
                  List.length (filter (answered (E := E)) (lines_read t))
              | Raise _ =>
                  S (List.length (responses t)) =
                  List.length (filter (answered (E := E)) (lines_read t))
              end)).
  - reflexivity.
  - intros raw rest s r2 s2 t2 Hb _ IH. cbn [responses lines_read filter].
    now rewrite (answered_blank raw Hb).
  - intros raw rest s e Hb Hsd _. cbn [responses lines_read filter].
    now rewrite (answered_other raw Hb Hsd).
  - intros raw rest s Hb Hsd. destruct (lines_read_shutdown b raw) as [-> ->].
    cbn [filter]. now rewrite (answered_shutdown raw Hsd).
  - intros raw rest s response s1 calls r2 s2 t2 Hb Hsd _ Hstep _ IH.
    destruct Hstep as (Hone & _).
    destruct (responses_answered raw calls response t2 Hone) as [-> ->].
    cbn [filter]. rewrite (answered_other raw Hb Hsd). cbn [List.length].
    destruct r2; lia.
Qed.
End OneForOne.

(** X10.  One line in, one line out.  In any run of either bridge, the
    responses written after the ready signal are as many as the lines read
    that are neither blank nor a shutdown, when the process exits with code
    0; when it ends with a traceback exactly one such line, the one being
    handled, is left without a response; when initialization fails no line
    is read. *)
Theorem X10_one_response_per_line {E : Env} (b : bridge) (w : world E)
    (stdin : list string) :
  match snd (run (main_of b) w stdin) with
  | Exit 0 =>
      List.length (responses (fst (run (main_of b) w stdin))) =
      S (List.length (filter (answered (E := E))
                        (lines_read (fst (run (main_of b) w stdin)))))
  | Exit _ =>
      List.length (responses (fst (run (main_of b) w stdin))) = 1%nat
      /\ lines_read (fst (run (main_of b) w stdin)) = []
  | Traceback _ =>
      List.length (responses (fst (run (main_of b) w stdin))) =
      List.length (filter (answered (E := E))
                     (lines_read (fst (run (main_of b) w stdin))))
  end.
Proof.
  destruct (run_eq b w) as (head & tail_ok & _ & Hrh & Hlh & _ & Hrt & Hlt & _ & Hrun).
  rewrite Hrun.
  destruct (loading b w) as [[r2 s2] t2] eqn:Hload.
  destruct (loading_logs _ _ _ _ _ Hload) as [Hlogs _].
  destruct (logs_silent _ Hlogs) as (Hr2 & Hl2 & _).
  destruct r2 as [[]|e].
  - destruct (serve_of b stdin s2) as [[r3 s3] t3] eqn:Hserve.
    pose proof (serve_one_for_one b stdin s2 r3 s3 t3 Hserve) as Hone.
    destruct r3 as [[]|e]; cbn [fst snd];
      rewrite !responses_app, !lines_read_app, Hrh, Hlh, Hr2, Hl2;
      cbn [app responses lines_read List.length].
    + rewrite responses_app, lines_read_app, Hrt, Hlt, !app_nil_r. now rewrite Hone.
    + exact Hone.
  - cbn [fst snd]. rewrite !responses_app, !lines_read_app, Hrh, Hlh, Hr2, Hl2.
    split; reflexivity.
Qed.

Section Ordering.
Context {E : Env}.

Lemma handle_own b raw d (s : store E) :
  blank raw = false ->
  json_loads E (strip raw) = Ok (PDict d) ->
  field d "type" PNone = PStr (own_type b) ->
  handle_line_of b raw s =
  (let '(r, s1, t1) := handler_of b (PDict d) s in
   match r with
   | Ok response => (Ok Continue, s1, (t1 ++ [Stdout response])%list)
   | Raise e => (Raise e, s1, t1)
   end).
Proof.
  intros Hb Hj Hty. unfold blank in Hb. apply String.eqb_neq in Hb.
  destruct b; cbn [handle_line_of handler_of own_type] in *.
  - now apply tts_handle_generate.
  - now apply vision_handle_caption.
Qed.

(** On requests of the bridge's own type that carry ids, the responses come
    in the order of the lines, each with the id of its line, up to the line
    on which the loop raised, if any. *)
Lemma serve_in_order b (lines : list (string * pyval)) (s : store E) r s1 t :
  Forall (fun line => request_line (E := E) b (fst line) (snd line)) lines ->
  serve_of b (map fst lines) s = (r, s1, t) ->
  Forall2 has_id (firstn (List.length (responses t)) (map snd lines)) (responses t)
  /\ (r = Ok tt -> List.length (responses t) = List.length lines).
Proof.
  intros Hall. revert s r s1 t.
  induction Hall as [|[raw v] lines (Hb & d & Hj & Hty & Hid) _ IH];
    intros s r s1 t Hserve.
  - assert (Hs : serve_of b [] s = (Ok tt, s, [])) by (destruct b; reflexivity).
    cbn [map] in Hserve. rewrite Hs in Hserve. inversion Hserve; subst.
    split; [constructor | reflexivity].
  - cbn [map fst snd] in *. rewrite serve_of_step in Hserve.
    rewrite (handle_own b raw d s Hb Hj Hty) in Hserve.
    destruct (handler_cases b (PDict d) s)
      as [[e He]|(d' & response & s' & calls & Hd & Hh & Hone & _ & _ & Hhas & _)].
    + rewrite He in Hserve. inversion Hserve; subst.
      split; [constructor | discriminate].
    + inversion Hd; subst d'. rewrite Hh in Hserve.
      destruct (serve_of b (map fst lines) s') as [[r2 s2] t2] eqn:Hrest.
      inversion Hserve; subst. destruct (IH _ _ _ _ Hrest) as [IHo IHn].
      rewrite <- app_assoc. cbn [app].
      destruct (responses_answered raw calls response t2 Hone) as [-> _].
      cbn [List.length firstn]. split.
      * constructor; [|exact IHo].
        unfold req_id_of, field in Hhas. now rewrite Hid in Hhas.
      * intros Hok. now rewrite (IHn Hok).
Qed.
End Ordering.

(** X11.  Responses come in the order of the requests, one for one.  When
    stdin holds only requests of the bridge's own type, each with an id, the
    responses of the loop carry the ids of the lines in the same order, up
    to the line on which the loop raised; when the loop ends normally there
    is a response for every line. *)
Theorem X11_responses_follow_the_requests {E : Env} (b : bridge)
    (lines : list (string * pyval)) (s : store E) :
  Forall (fun line => request_line (E := E) b (fst line) (snd line)) lines ->
  Forall2 has_id
    (firstn (List.length (responses (snd (serve_of b (map fst lines) s)))) (map snd lines))
    (responses (snd (serve_of b (map fst lines) s)))
  /\ (fst (fst (serve_of b (map fst lines) s)) = Ok tt ->
      Forall2 has_id (map snd lines) (responses (snd (serve_of b (map fst lines) s)))).
Proof.
  intros Hall.
  destruct (serve_of b (map fst lines) s) as [[r s1] t] eqn:Hserve.
  destruct (serve_in_order b lines s r s1 t Hall Hserve) as [Ho Hn].
  cbn [fst snd]. split; [exact Ho|]. intros Hok.
  rewrite (Hn Hok) in Ho.
  now rewrite <- (length_map snd lines), firstn_all in Ho.
Qed.

Lemma X11_responses_follow_the_requests_witness :
  Forall (fun line => request_line (E := Example.env) Tts (fst line) (snd line))
    [(Example.line_empty_text, PStr "r1"); (Example.line_hello, PStr "r3");
     (Example.line_oom, PStr "r4")]
  /\ Forall2 has_id [PStr "r1"; PStr "r3"; PStr "r4"]
       (responses (snd (serve_of (E := Example.env) Tts
                          [Example.line_empty_text; Example.line_hello; Example.line_oom]
                          Example.tts_serving))).
Proof.
  assert (H : Forall (fun line => request_line (E := Example.env) Tts (fst line) (snd line))
                [(Example.line_empty_text, PStr "r1"); (Example.line_hello, PStr "r3");
                 (Example.line_oom, PStr "r4")]).
  { repeat constructor; eexists; repeat split; reflexivity. }
  split; [exact H|].
  exact (proj2 (X11_responses_follow_the_requests (E := Example.env) Tts _
                  Example.tts_serving H) eq_refl).
Defined.


Section Indices.
Context {E : Env}.

(** The exceptions [format_position] raises are never [RuntimeError]s. *)
Lemma format_position_raises position image_index page_number (s : store E) e s1 t1 :
  Vision.format_position position image_index page_number s = (Raise e, s1, t1) ->
  is_RuntimeError e = false.
Proof.
  unfold Vision.format_position, Vision.describe_position, Vision.below_ordinals,
    Vision.ordinals_item, Vision.ordinals_at, Vision.plus_one.
  destruct (truthy page_number);
    destruct position, image_index; cbn;
    repeat match goal with
           | |- context [if ?b then _ else _] => destruct b; cbn
           end;
    intros H; inversion H; reflexivity.
Qed.
End Indices.

(** X13.  A negative image index counts from the end of the ordinal words,
    as Python list indexing does: for an index from -10 to -1 the prefix is
    the one of the index plus ten, so -1 reads "Tenth" and -10 "First". *)
Theorem X13_negative_index_counts_from_the_end {E : Env} (p : string) (i : Z)
    (pg : option Z) (s : store E) :
  -10 <= i < 0 ->
  Vision.format_position (PStr p) (PInt i) (opt_int pg) s =
  (Ok (spec_prefix p (i + 10) pg), s, []).
Proof.
  intros Hi. unfold Vision.format_position.
  rewrite (bind_pure_Ok _ _ _ _ (describe_position_spec p s)).
  cbn [Vision.below_ordinals]. rewrite bind_ret.
  change (Z.of_nat (List.length ordinals)) with 10.
  assert (Hlt : (i <? 10) = true) by (apply Z.ltb_lt; lia). rewrite Hlt.
  assert (Hord : Vision.ordinals_item (PInt i) s = (Ok (spec_ordinal (i + 10)), s, [])).
  { unfold Vision.ordinals_item, Vision.ordinals_at, spec_ordinal.
    change (Z.of_nat (List.length ordinals)) with 10.
    assert (Hneg : (i <? 0) = true) by (apply Z.ltb_lt; lia). rewrite Hneg.
    assert (Hin : ((0 <=? i + 10) && (i + 10 <? 10)) = true).
    { apply andb_true_intro. split; [apply Z.leb_le | apply Z.ltb_lt]; lia. }
    rewrite Hin.
    assert (Hle : (i + 10 <=? 9) = true) by (apply Z.leb_le; lia).
    now rewrite Hle. }
  rewrite (bind_pure_Ok _ _ _ _ Hord).
  unfold spec_prefix. destruct pg as [[|n|n]|]; reflexivity.
Qed.

Lemma X13_negative_index_counts_from_the_end_witness :
  -10 <= -1 < 0
  /\ Vision.format_position (E := Example.env) (PStr "top") (PInt (-1)) (PInt 3)
       Example.vision_serving =
     (Ok "Tenth image on page 3, near the top of the page", Example.vision_serving, []).
Proof.
  assert (H : -10 <= -1 < 0) by lia.
  split; [exact H|].
  exact (X13_negative_index_counts_from_the_end (E := Example.env) "top" (-1) (Some 3)
           Example.vision_serving H).
Defined.

(** X14.  The context of a caption request is looked at only after the
    model has described the image.  When [format_position] then fails (an
    index below -10 gives "list index out of range"; an index that is no
    number, or a position that is a list or an object, gives a type error),
    the request is answered [ENGINE_ERROR] with the message of that failure,
    never [OUT_OF_MEMORY]; the model call is spent and the request counter
    is not advanced. *)
Theorem X14_bad_context_is_an_engine_error {E : Env} (req_id path position
    image_index page_number : pyval) (s : store E) (description : string)
    (w1 : world E) (e : exn) :
  describe_image E (st_world s) path = (Ok description, w1) ->
  Vision.format_position position image_index page_number s = (Raise e, s, []) ->
  try_except (Vision.describe req_id path position image_index page_number)
    (Vision.classify req_id) s =
    (Ok (error_response req_id "ENGINE_ERROR" (exn_msg e)),
     mk_store w1 (temp_dir s) (request_counter s),
     [ModelCall [path]])
  /\ (forall p i pg,
      i < -10 ->
      Vision.format_position (PStr p) (PInt i) pg s =
      (Raise (mk_exn IndexError "list index out of range"), s, [])).
Proof.
  intros Hdesc Hfmt. split.
  - pose proof (format_position_raises _ _ _ _ _ _ _ Hfmt) as Hrt.
    destruct (format_position_pure (E := E) position image_index page_number) as [r Hpure].
    assert (Hr : r = Raise e) by (rewrite Hpure in Hfmt; now inversion Hfmt).
    subst r.
    unfold try_except, Vision.describe. rewrite bind_emit.
    unfold bind at 1. unfold call at 1. rewrite Hdesc.
    unfold bind at 1. rewrite Hpure. cbv beta iota. cbn [app].
    rewrite vision_classify_code. unfold failure_code. rewrite Hrt. reflexivity.
  - intros p i pg Hi. unfold Vision.format_position.
    rewrite (bind_pure_Ok _ _ _ _ (describe_position_spec p s)).
    cbn [Vision.below_ordinals]. rewrite bind_ret.
    change (Z.of_nat (List.length ordinals)) with 10.
    assert (Hlt : (i <? 10) = true) by (apply Z.ltb_lt; lia). rewrite Hlt.
    unfold Vision.ordinals_item, Vision.ordinals_at.
    change (Z.of_nat (List.length ordinals)) with 10.
    assert (Hneg : (i <? 0) = true) by (apply Z.ltb_lt; lia). rewrite Hneg.
    assert (Hout : (0 <=? i + 10) = false) by (apply Z.leb_gt; lia).
    rewrite Hout. reflexivity.
Qed.

Lemma X14_bad_context_is_an_engine_error_witness :
  describe_image Example.env Example.healthy (PStr "/img/cat.png") =
    (Ok "A photo of a cat.", Example.healthy)
  /\ Vision.format_position (E := Example.env) (PStr "middle") (PInt (-11)) PNone
       Example.vision_serving =
     (Raise (mk_exn IndexError "list index out of range"), Example.vision_serving, [])
  /\ Vision.caption (E := Example.env) (PDict More.request_far_image)
       Example.vision_serving =
     (Ok (error_response (PStr "r21") "ENGINE_ERROR" "list index out of range"),
      Example.vision_serving, [ModelCall [PStr "/img/cat.png"]])
  /\ try_except
       (Vision.describe (E := Example.env) (PStr "r21") (PStr "/img/cat.png")
          (PStr "middle") (PInt (-11)) PNone)
       (Vision.classify (PStr "r21")) Example.vision_serving =
     (Ok (error_response (PStr "r21") "ENGINE_ERROR" "list index out of range"),
      Example.vision_serving, [ModelCall [PStr "/img/cat.png"]]).
Proof.
  split; [reflexivity|]. split; [reflexivity|]. split; [reflexivity|].
  exact (proj1 (X14_bad_context_is_an_engine_error (E := Example.env) (PStr "r21")
                  (PStr "/img/cat.png") (PStr "middle") (PInt (-11)) PNone
                  Example.vision_serving "A photo of a cat." Example.healthy
                  (mk_exn IndexError "list index out of range") eq_refl eq_refl)).
Defined.

Section Loading.
Context {E : Env}.

(** [load_model] stops at the first step that fails: the choice of the
    device, then the loading of the weights. *)
Lemma loading_cases b (w : world E) :
  (exists e w2,
      loading b w =
      (Raise e,
       mk_store w2 (temp_dir (before_load b w)) (request_counter (before_load b w)),
       [loading_log b]))
  \/ (exists device e w3,
         loading b w =
         (Raise e,
          mk_store w3 (temp_dir (before_load b w)) (request_counter (before_load b w)),
          [loading_log b; device_log b device]))
  \/ (exists device w3,
         loading b w =
         (Ok tt,
          mk_store w3 (temp_dir (before_load b w)) (request_counter (before_load b w)),
          [loading_log b; device_log b device; loaded_log b])).
Proof.
  destruct b; unfold loading; cbn [before_load].
  - destruct (mkdtemp E w "actual_reader_tts_") as [d w1].
    unfold TTS.load_model, TTS.log, bind, call, emit.
    cbn [st_world temp_dir request_counter].
    destruct (detect_device E w1) as [[device|e] w2];
      [|left; do 2 eexists; reflexivity].
    cbn [st_world temp_dir request_counter].
    destruct (chatterbox_from_pretrained E w2 device) as [[[]|e] w3];
      right; [right; do 2 eexists | left; do 3 eexists]; reflexivity.
  - unfold Vision.load_model, Vision.log, initial, bind, call, emit.
    cbn [st_world temp_dir request_counter].
    destruct (detect_device E w) as [[device|e] w2];
      [|left; do 2 eexists; reflexivity].
    cbn [st_world temp_dir request_counter].
    destruct (qwen_from_pretrained E w2 device) as [[[]|e] w3];
      right; [right; do 2 eexists | left; do 3 eexists]; reflexivity.
Qed.
End Loading.

(** X15.  [load_model] writes on stderr only and leaves the temporary
    directory and the request counter alone.  Its first log line is always
    the "Loading ..." one, and "Model loaded." is logged exactly when the
    model was loaded (either bridge). *)
Theorem X15_load_model_logs {E : Env} (b : bridge) (w : world E) :
  Forall is_log (snd (loading b w))
  /\ (exists rest, snd (loading b w) = loading_log b :: rest)
  /\ (In (loaded_log b) (snd (loading b w)) <-> fst (fst (loading b w)) = Ok tt)
  /\ temp_dir (snd (fst (loading b w))) = temp_dir (before_load b w)
  /\ request_counter (snd (fst (loading b w))) = request_counter (before_load b w).
Proof.
  destruct (loading_cases b w)
    as [(e & w2 & ->)|[(device & e & w3 & ->)|(device & w3 & ->)]]; cbn [fst snd].
  - split; [destruct b; repeat constructor|]. split; [eauto|].
    split; [|split; reflexivity]. split; [|discriminate].
    destruct b; intros [H|[]]; discriminate H.
  - split; [destruct b; repeat constructor|]. split; [eauto|].
    split; [|split; reflexivity]. split; [|discriminate].
    destruct b; intros [H|[H|[]]]; discriminate H.
  - split; [destruct b; repeat constructor|]. split; [eauto|].
    split; [|split; reflexivity]. split; [reflexivity|].
    intros _. right; right; now left.
Qed.

Section FileNames.
Context {E : Env}.

Lemma append_inv_head (a b c : string) : (a ++ b = a ++ c)%string -> b = c.
Proof.
  induction a as [|x a IH]; cbn [append]; intros H; [exact H|].
  injection H as H. exact (IH H).
Qed.

Lemma length_append (a b : string) :
  String.length (a ++ b) = (String.length a + String.length b)%nat.
Proof. induction a as [|x a IH]; cbn [append String.length]; [reflexivity|now rewrite IH]. Qed.

Lemma append_inv_tail (a b c : string) : (a ++ c = b ++ c)%string -> a = b.
Proof.
  revert b. induction a as [|x a IH]; intros [|y b] H; cbn [append] in H.
  - reflexivity.
  - apply (f_equal String.length) in H. cbn [String.length] in H.
    rewrite length_append in H. lia.
  - apply (f_equal String.length) in H. cbn [String.length] in H.
    rewrite length_append in H. lia.
  - injection H as Hx H. f_equal; [exact Hx|exact (IH _ H)].
Qed.

Lemma length_zeros k : String.length (zeros k) = k.
Proof.
  unfold zeros. induction k as [|k IH]; cbn [repeat string_of_list_ascii String.length];
    [reflexivity|now rewrite IH].
Qed.

Lemma file_number_zeros k digits : file_number (zeros k ++ digits) = file_number digits.
Proof.
  unfold file_number, zeros. induction k as [|k IH]; [reflexivity|].
  cbn [repeat string_of_list_ascii append NilEmpty.uint_of_string].
  rewrite <- IH.
  now destruct (NilEmpty.uint_of_string (string_of_list_ascii (repeat "0"%char k) ++ digits)).
Qed.

Lemma file_number_decimal n : 0 <= n -> file_number (decimal n) = Some n.
Proof.
  intros Hn. unfold file_number, decimal. destruct n as [|p|p]; [reflexivity| |lia].
  cbn [Z.to_int NilZero.string_of_int]. unfold NilZero.string_of_uint.
  pose proof (DecimalPos.Unsigned.to_uint_nonnil p) as Hnil.
  assert (Hp : NilEmpty.uint_of_string (NilEmpty.string_of_uint (Pos.to_uint p)) =
               Some (Pos.to_uint p)) by apply NilEmpty.usu.
  destruct (Pos.to_uint p) eqn:Hd; [congruence|..];
    rewrite Hp; cbn [option_map]; rewrite <- Hd; unfold Z.of_uint;
    now rewrite DecimalPos.Unsigned.of_to.
Qed.

Lemma format_04d_nonneg n :
  0 <= n -> format_04d n = (zeros (4 - String.length (decimal n)) ++ decimal n)%string.
Proof.
  intros Hn. unfold format_04d.
  assert (Hneg : (n <? 0) = false) by lia. rewrite Hneg, Z.abs_eq by exact Hn.
  cbn [append String.length]. now rewrite Nat.sub_0_r.
Qed.

Lemma format_04d_inj n m : 0 <= n -> 0 <= m -> format_04d n = format_04d m -> n = m.
Proof.
  intros Hn Hm H. apply (f_equal file_number) in H.
  rewrite !format_04d_nonneg, !file_number_zeros, !file_number_decimal in H by assumption.
  now injection H.
Qed.

Lemma output_path_inj dir n m :
  0 <= n -> 0 <= m -> output_path dir n = output_path dir m -> n = m.
Proof.
  intros Hn Hm. unfold output_path, path_join.
  change (String.prefix "/" ("tts_" ++ format_04d n ++ ".wav")) with false.
  change (String.prefix "/" ("tts_" ++ format_04d m ++ ".wav")) with false.
  cbv beta iota.
  destruct ((dir =? EmptyString)%string || ends_with_slash dir); intros H;
    apply append_inv_head in H; cbn [append] in H; injection H as H;
    apply append_inv_tail in H; now apply format_04d_inj.
Qed.
End FileNames.

(** X16.  The number in the name of a generated file is the request number
    written in decimal and padded with zeros to at least four characters;
    nothing is cut off beyond 9999: the number can be read back from the
    name, so that two different request numbers never give the same file. *)
Theorem X16_file_number_round_trip (dir : string) (n : Z) :
  0 <= n ->
  file_number (format_04d n) = Some n
  /\ (4 <= String.length (format_04d n))%nat
  /\ (forall m, 0 <= m -> output_path dir n = output_path dir m -> n = m).
Proof.
  intros Hn. split; [|split].
  - now rewrite format_04d_nonneg, file_number_zeros, file_number_decimal.
  - rewrite format_04d_nonneg, length_append, length_zeros by exact Hn. lia.
  - intros m Hm. now apply output_path_inj.
Qed.

Lemma X16_file_number_round_trip_witness :
  0 <= 12345
  /\ format_04d 12345 = "12345"
  /\ file_number (format_04d 12345) = Some 12345.
Proof.
  assert (H : 0 <= 12345) by lia.
  split; [exact H|]. split; [reflexivity|].
  exact (proj1 (X16_file_number_round_trip "/tmp" 12345 H)).
Defined.

Section AudioFiles.
Context {E : Env}.

Lemma audio_paths_cons response rs :
  audio_paths (response :: rs) =
  (match audio_path response with Some path => [path] | None => [] end
   ++ audio_paths rs)%list.
Proof. reflexivity. Qed.

(** The audio files of a stretch of the loop are numbered upwards from the
    request counter. *)
Lemma serve_audio_paths stdin (s : store E) r s1 t :
  serve_of Tts stdin s = (r, s1, t) ->
  forall dir, temp_dir s = Some dir ->
  request_counter s <= request_counter s1
  /\ exists ns,
       audio_paths (responses t) = map (output_path dir) ns
       /\ StronglySorted Z.lt ns
       /\ Forall (fun n => request_counter s < n <= request_counter s1) ns.
Proof.
  revert stdin s r s1 t.
  apply (serve_of_cases Tts
           (fun _ s _ s1 t =>
              forall dir, temp_dir s = Some dir ->
              request_counter s <= request_counter s1
              /\ exists ns,
                   audio_paths (responses t) = map (output_path dir) ns
                   /\ StronglySorted Z.lt ns
                   /\ Forall (fun n => request_counter s < n <= request_counter s1) ns)).
  - intros s dir _. split; [lia|]. exists []. repeat split; constructor.
  - intros raw rest s r2 s2 t2 _ _ IH dir Hdir. exact (IH dir Hdir).
  - intros raw rest s e _ _ _ dir _. split; [lia|]. exists []. repeat split; constructor.
  - intros raw rest s _ _ dir _. split; [lia|]. exists []. repeat split; constructor.
  - intros raw rest s response s1 calls r2 s2 t2 _ _ _ Hstep _ IH dir Hdir.
    destruct Hstep as (Hone & _ & _ & Htd & Hc & _ & Hs & _).
    destruct (responses_answered raw calls response t2 Hone) as [-> _].
    rewrite audio_paths_cons.
    destruct (IH dir (eq_trans Htd Hdir)) as (Hmono & ns & Hpaths & Hsorted & Hall).
    split; [lia|].
    destruct (succeeded Tts response) eqn:Hok.
    + destruct (Hs eq_refl) as [Hc1 Hp].
      destruct (Hp eq_refl) as (req_id & dir' & duration & Hdir' & ->).
      assert (dir' = dir) by congruence. subst dir'.
      exists (request_counter s + 1 :: ns). split; [|split].
      * cbn [map]. rewrite <- Hpaths. reflexivity.
      * constructor; [exact Hsorted|].
        eapply Forall_impl; [|exact Hall]. cbv beta. intros n Hn. lia.
      * constructor; [lia|].
        eapply Forall_impl; [|exact Hall]. cbv beta. intros n Hn. lia.
    + exists ns. unfold audio_path at 1. rewrite Hok. cbn [app].
      split; [exact Hpaths|]. split; [exact Hsorted|].
      eapply Forall_impl; [|exact Hall]. cbv beta. intros n Hn. lia.
Qed.

Lemma increasing_paths_distinct dir ns :
  StronglySorted Z.lt ns -> Forall (fun n => 0 <= n) ns ->
  NoDup (map (output_path dir) ns).
Proof.
  induction 1 as [|n ns Hsorted IH Hlt]; intros Hall; cbn [map]; constructor.
  - intros Hin. apply in_map_iff in Hin. destruct Hin as (m & Hm & Hin).
    inversion Hall; subst.
    rewrite Forall_forall in Hlt. specialize (Hlt m Hin).
    assert (0 <= m) by lia.
    assert (m = n) by (eapply output_path_inj; eassumption). lia.
  - apply IH. now inversion Hall.
Qed.
End AudioFiles.

(** X17.  In a run of the TTS bridge every audio response names a file
    [tts_<n>.wav] in the temporary directory made at start-up, the numbers
    [n] start from 1 at the earliest and grow strictly from one audio
    response to the next; so no two audio responses of a run name the same
    file. *)
Theorem X17_audio_files_are_distinct {E : Env} (w : world E) (stdin : list string) :
  exists d rest ns,
    fst (run TTS.main w stdin) = Mkdtemp d :: rest
    /\ audio_paths (responses (fst (run TTS.main w stdin))) = map (output_path d) ns
    /\ StronglySorted Z.lt ns
    /\ Forall (fun n => 1 <= n) ns
    /\ NoDup (audio_paths (responses (fst (run TTS.main w stdin)))).
Proof.
  unfold run. rewrite tts_main_eq.
  pose proof (loading_cases Tts w) as Hload. unfold loading in Hload.
  cbn [before_load] in Hload.
  destruct (mkdtemp E w "actual_reader_tts_") as [d w1].
  cbn [temp_dir request_counter loading_log device_log loaded_log] in Hload.
  exists d.
  destruct Hload as [(e & w2 & ->)|[(device & e & w3 & ->)|(device & w3 & ->)]].
  - eexists; exists []. cbn [fst app]. split; [reflexivity|].
    split; [reflexivity|]. repeat split; constructor.
  - eexists; exists []. cbn [fst app]. split; [reflexivity|].
    split; [reflexivity|]. repeat split; constructor.
  - pose proof (serve_audio_paths stdin (mk_store w3 (Some d) 0)) as Hserve.
    change (TTS.serve stdin (mk_store w3 (Some d) 0))
      with (serve_of Tts stdin (mk_store w3 (Some d) 0)).
    destruct (serve_of Tts stdin (mk_store w3 (Some d) 0)) as [[r3 s3] t3].
    destruct (Hserve _ _ _ eq_refl d eq_refl) as (_ & ns & Hpaths & Hsorted & Hall).
    cbn [request_counter] in Hall.
    assert (Hpos : Forall (fun n => 1 <= n) ns)
      by (eapply Forall_impl; [|exact Hall]; cbv beta; intros n Hn; lia).
    assert (Hnonneg : Forall (fun n => 0 <= n) ns)
      by (eapply Forall_impl; [|exact Hall]; cbv beta; intros n Hn; lia).
    assert (Hrs : forall tail,
               responses tail = [] ->
               audio_paths
                 (responses
                    ([Mkdtemp d; Stderr ("[tts-bridge] Temp directory: " ++ d)] ++
                     [Stderr "[tts-bridge] Loading Chatterbox model...";
                      Stderr ("[tts-bridge] Using device: " ++ device);
                      Stderr "[tts-bridge] Model loaded."] ++
                     Stdout ready
                     :: Stderr "[tts-bridge] Listening for requests..." :: t3 ++ tail)) =
               map (output_path d) ns).
    { intros tail Htail. cbn [app responses].
      rewrite responses_app, Htail, app_nil_r, audio_paths_cons.
      exact Hpaths. }
    destruct r3 as [[]|e]; cbn [fst].
    + eexists; exists ns. split; [reflexivity|].
      rewrite Hrs by (cbn [responses]; now destruct (temp_dir s3)).
      repeat split; try assumption.
      now apply increasing_paths_distinct.
    + eexists; exists ns. split; [reflexivity|].
      specialize (Hrs [] eq_refl). rewrite app_nil_r in Hrs.
      rewrite Hrs. repeat split; try assumption.
      now apply increasing_paths_distinct.
Qed.
